(** * Embedding service: image/text feature extraction and similarity search

    A shallow embedding of [app/api.py] and [image_processor.py].

    The program is a thin orchestration layer over PyTorch, torchvision,
    transformers, Pillow, NumPy and FAISS.  What those libraries compute
    numerically (convolutions, the transformer encoder, LANCZOS resampling,
    nearest-neighbour search, IEEE arithmetic) is kept abstract, in the
    classes [Numerics] and [External]; what the program itself decides
    (which method is called, in which mode, with which shapes, what is
    concatenated with what, what is wrapped in which JSON, what happens when
    a load fails) is written out. *)

From Stdlib Require Import String.
From Stdlib Require Import ZArith List Bool Arith Lia.
From Stdlib Require Sorted.
Import ListNotations.
Open Scope string_scope.
Open Scope nat_scope.
Open Scope list_scope.
Set Warnings "-register-all".

(** ** Python exceptions and results *)

Inductive Exn : Type :=
| OSError (msg : string)
| FileNotFoundError (path : string)
| RuntimeError (msg : string)
| ValueError (msg : string)
| KeyError (key : string)
| AxisError (msg : string)
| AssertionError
| ZeroDivisionError
| UnidentifiedImageError.

Inductive Result (A : Type) : Type :=
| Ok (a : A)
| Raise (e : Exn).
Arguments Ok {A} a.
Arguments Raise {A} e.

Lemma Ok_inj {A : Type} (a b : A) : Ok a = Ok b -> a = b.
Proof. intros H. now injection H. Qed.

Definition bindR {A B : Type} (r : Result A) (k : A -> Result B) : Result B :=
  match r with
  | Ok a => k a
  | Raise e => Raise e
  end.

(** A computation that reads and updates a state of type [S] and may raise.
    An exception does not roll the state back: what was mutated before the
    raise stays mutated, as in Python. *)
Definition M (S A : Type) : Type := S -> Result A * S.

Definition ret {S A : Type} (a : A) : M S A := fun s => (Ok a, s).

Definition bind {S A B : Type} (c : M S A) (k : A -> M S B) : M S B :=
  fun s =>
    match c s with
    | (Ok a, s') => k a s'
    | (Raise e, s') => (Raise e, s')
    end.

Definition lift {S A : Type} (r : Result A) : M S A := fun s => (r, s).

Declare Scope py_scope.
Delimit Scope py_scope with py.
Notation "x <- c ;; k" := (bind c (fun x => k))
  (at level 61, c at next level, right associativity) : py_scope.
Notation "x <-- r ;; k" := (bindR r (fun x => k))
  (at level 61, r at next level, right associativity) : py_scope.

(** ** Scalars

    [f32] is a [torch.float32] / [numpy.float32] value, [f64] a Python
    [float].  The arithmetic is the libraries'; only the one law the program
    relies on is recorded: widening a float32 to a Python float
    ([tolist()]) and narrowing it back ([astype('float32')]) gives the
    value back. *)

Class Numerics : Type := {
  f32 : Type;
  f64 : Type;
  f32_zero : f32;
  (** [x + y] *)
  f32_add : f32 -> f32 -> f32;
  (** inner product of a weight row and an input row, as the matmul kernel
      accumulates it *)
  f32_dot : list f32 -> list f32 -> f32;
  (** [Tensor.float()] on one uint8 element *)
  f32_of_uint8 : Z -> f32;
  (** one element of [F.dropout(x, p=0.3, training=True)]: [x / 0.7] when
      the element is kept, zero when it is dropped *)
  f32_dropout : bool -> f32 -> f32;
  (** [x <= y] *)
  f32_leb : f32 -> f32 -> bool;
  (** [ndarray.tolist()] on one float32 element *)
  f64_of_f32 : f32 -> f64;
  (** [ndarray.astype('float32')] on one float64 element *)
  f32_of_f64 : f64 -> f32;
  (** [math.isfinite] *)
  f64_isfinite : f64 -> bool;
  f32_of_f64_of_f32 : forall x : f32, f32_of_f64 (f64_of_f32 x) = x
}.

(** ** Pillow images *)

Inductive Mode : Type := Mode_1 | Mode_L | Mode_P | Mode_RGB | Mode_RGBA | Mode_CMYK.

(** [len(im.getbands())] *)
Definition bands (m : Mode) : nat :=
  match m with
  | Mode_1 | Mode_L | Mode_P => 1
  | Mode_RGB => 3
  | Mode_RGBA | Mode_CMYK => 4
  end.

(** An image: its mode, its size, and its pixel access.  [getpixel x y] is the
    list of band values at column [x], row [y]. *)
Record Image : Type := {
  mode : Mode;
  width : nat;
  height : nat;
  getpixel : nat -> nat -> list Z
}.

(** [Image.new(mode, (w, h))]: every band of every pixel is 0 (black). *)
Definition Image_new (m : Mode) (w h : nat) : Image :=
  {| mode := m; width := w; height := h;
     getpixel := fun _ _ => repeat 0%Z (bands m) |}.

(** ** Tensors *)

Section Tensors.
Context {N : Numerics}.

Inductive TData : Type :=
| U8 (l : list Z)
| F32 (l : list f32).

Inductive DType : Type := uint8 | float32.

(** A dense tensor: shape, elements in row-major order, and whether autograd
    recorded a graph for it. *)
Record Tensor : Type := {
  shape : list nat;
  tdata : TData;
  requires_grad : bool
}.

Definition dtype (t : Tensor) : DType :=
  match tdata t with
  | U8 _ => uint8
  | F32 _ => float32
  end.

Definition numel (t : Tensor) : nat :=
  match tdata t with
  | U8 l => length l
  | F32 l => length l
  end.

(** [t.unsqueeze(0)] *)
Definition unsqueeze0 (t : Tensor) : Tensor :=
  {| shape := 1 :: shape t; tdata := tdata t; requires_grad := requires_grad t |}.

(** [t.float()] *)
Definition float (t : Tensor) : Tensor :=
  match tdata t with
  | U8 l => {| shape := shape t; tdata := F32 (map f32_of_uint8 l);
               requires_grad := requires_grad t |}
  | F32 _ => t
  end.

(** The elements of [t.float()]. *)
Definition float_data (t : Tensor) : list f32 :=
  match tdata (float t) with
  | F32 v => v
  | U8 _ => []
  end.

(** A 2-D float32 tensor (batch x features), as the list of its rows. *)
Record Tensor2 : Type := {
  rows : list (list f32);
  grad : bool
}.

(** [t.detach()] *)
Definition detach (t : Tensor2) : Tensor2 := {| rows := rows t; grad := false |}.

(** [t.numpy()]: refused on a tensor that requires grad. *)
Definition numpy (t : Tensor2) : Result (list (list f32)) :=
  if grad t
  then Raise (RuntimeError "Can't call numpy() on Tensor that requires grad.")
  else Ok (rows t).

End Tensors.

(** ** The libraries the program calls

    Each field stands for a library routine whose result the program uses
    but does not compute itself. *)

Class External {N : Numerics} : Type := {
  (** FastAPI's [UploadFile] *)
  UploadFile : Type;
  (** [PIL.Image.open(image.file)]; undecodable bytes raise *)
  Image_open : UploadFile -> Result Image;
  (** pixel access of [im.resize((w, h), LANCZOS)] *)
  resample : Image -> nat -> nat -> nat -> nat -> list Z;
  (** conversion of one pixel between modes, as [paste] does it *)
  convert_pixel : Mode -> Mode -> list Z -> list Z;

  (** all parameters of torchvision's ResNet-50 except the final [fc] *)
  TrunkWeights : Type;
  (** [running_mean] and [running_var] of its BatchNorm2d layers *)
  RunningStats : Type;
  (** ResNet-50 up to and including [flatten]: one feature row per batch
      element.  [None]: BatchNorm normalises with the statistics of the batch
      (training mode); [Some r]: with the running statistics [r]. *)
  resnet_trunk : TrunkWeights -> option RunningStats -> list nat -> list f32 ->
                 Result (list (list f32));
  (** the running statistics after one training-mode pass over the input *)
  running_update : TrunkWeights -> RunningStats -> list nat -> list f32 -> RunningStats;

  (** all parameters of [BertModel] *)
  BertWeights : Type;
  (** [BertTokenizer.from_pretrained('bert-base-cased')(text, return_tensors="pt")]:
      the [input_ids] and the [attention_mask] *)
  tokenizer : string -> list (list Z) * list (list Z);
  (** [BertModel], in evaluation mode: [bert(input_ids, attention_mask)['pooler_output']] *)
  bert_pooler_output : BertWeights -> list (list Z) -> list (list Z) ->
                       Result (list (list f32));

  (** a FAISS index *)
  Index : Type;
  (** [index.d], the dimension of the stored vectors *)
  index_d : Index -> nat;
  (** [index.search(x, k)]: distances and labels, one row per query *)
  index_search : Index -> list (list f32) -> nat -> list (list f32) * list (list Z);
  (** the distance the index assigns between a query and the entry with a
      given label (label [-1]: no entry) *)
  index_distance : Index -> list f32 -> Z -> f32;

  (** Shapes: ResNet-50 maps a batch (n, 3, h, w) to n rows, and the pooled
      output of BERT has one row per row of [input_ids]. *)
  resnet_trunk_rows : forall w bn shp v features,
    resnet_trunk w bn shp v = Ok features -> length features = hd 0 shp;
  bert_pooler_output_rows : forall w ids mask out,
    bert_pooler_output w ids mask = Ok out -> length out = length ids
}.

(** ** [image_processor.py] *)

Section ImageProcessor.
Context {N : Numerics} {E : External}.

(** [im.resize((w, h), Image.LANCZOS)] *)
Definition Image_resize (im : Image) (w h : nat) : Image :=
  {| mode := mode im; width := w; height := h; getpixel := resample im w h |}.

(** [canvas.paste(im, (ox, oy))]: the box of [im] at offset [(ox, oy)] is
    overwritten, the pasted pixels converted to the canvas's mode. *)
Definition paste (canvas im : Image) (ox oy : nat) : Image :=
  {| mode := mode canvas; width := width canvas; height := height canvas;
     getpixel := fun x y =>
       if (ox <=? x) && (x <? ox + width im) && (oy <=? y) && (y <? oy + height im)
       then convert_pixel (mode im) (mode canvas) (getpixel im (x - ox) (y - oy))
       else getpixel canvas x y |}.

(** Modelled from the spec: [resize_image] of [clean_images.py], which
    [image_processor.py] imports and which is not among the sources.  The
    spec: the scale factor is [target_size / max(width, height)]; the image is
    resized preserving its aspect ratio so that the longer side equals
    [target_size]; a blank square canvas of [(target_size, target_size)]
    filled with black is created; the resized image is pasted at
    [((target_size - new_width)//2, (target_size - new_height)//2)].  The
    canvas has three channels ("channels=3").  An image whose longer side is
    0 has no scale factor. *)
Definition resize_image (final_size : nat) (im : Image) : Result Image :=
  let longer := Nat.max (width im) (height im) in
  if longer =? 0 then Raise ZeroDivisionError
  else
    let new_width := width im * final_size / longer in
    let new_height := height im * final_size / longer in
    let resized := Image_resize im new_width new_height in
    let canvas := Image_new Mode_RGB final_size final_size in
    Ok (paste canvas resized ((final_size - new_width) / 2) ((final_size - new_height) / 2)).

(** [transforms.PILToTensor()(im)]: a uint8 tensor of shape
    (channels, height, width), values not rescaled. *)
Definition PILToTensor (im : Image) : Tensor :=
  {| shape := [bands (mode im); height im; width im];
     tdata := U8 (flat_map (fun c =>
                    flat_map (fun y =>
                      map (fun x => nth c (getpixel im x y) 0%Z) (seq 0 (width im)))
                      (seq 0 (height im)))
                    (seq 0 (bands (mode im))));
     requires_grad := false |}.

(** [process_image_as_pil(image, image_size)] *)
Definition process_image_as_pil (image : Image) (image_size : nat) : Result Tensor :=
  (cleaned_img <-- resize_image image_size image ;;
   Ok (unsqueeze0 (PILToTensor cleaned_img)))%py.

(** The default of the parameter [image_size]. *)
Definition image_size_default : nat := 224.

End ImageProcessor.

(** ** [torch.nn] modules *)

Section Modules.
Context {N : Numerics} {E : External}.

(** [torch.nn.Linear(in_features, out_features)] *)
Record Linear : Type := {
  in_features : nat;
  out_features : nat;
  weight : list (list f32);
  bias : list f32
}.

(** The shapes [Linear] keeps: [weight] is [out_features x in_features],
    [bias] has [out_features] entries. *)
Definition Linear_shapes_ok (n_in n_out : nat) (w : list (list f32)) (b : list f32) : bool :=
  (length w =? n_out) && forallb (fun r => length r =? n_in) w && (length b =? n_out).

(** [y = x W^T + b], row by row; a row of the wrong width is refused. *)
Definition Linear_forward (l : Linear) (x : list (list f32)) : Result (list (list f32)) :=
  if forallb (fun r => length r =? in_features l) x
  then Ok (map (fun r =>
             map (fun wb => f32_add (f32_dot (fst wb) r) (snd wb))
                 (combine (weight l) (bias l))) x)
  else Raise (RuntimeError "mat1 and mat2 shapes cannot be multiplied").

(** The default random generator: the stream of keep/drop decisions its seed
    determines, and how many have been consumed. *)
Record Generator : Type := {
  stream : nat -> bool;
  offset : nat
}.

Definition bernoulli (n : nat) (g : Generator) : list bool * Generator :=
  (map (stream g) (seq (offset g) n),
   {| stream := stream g; offset := offset g + n |}).

Fixpoint dropout_rows (x : list (list f32)) (g : Generator)
  : list (list f32) * Generator :=
  match x with
  | [] => ([], g)
  | r :: x' =>
      let (mask, g1) := bernoulli (length r) g in
      let (rest, g2) := dropout_rows x' g1 in
      (map (fun mv => f32_dropout (fst mv) (snd mv)) (combine mask r) :: rest, g2)
  end.

(** [torch.nn.Dropout(p=0.3)]: [F.dropout(x, p, self.training)].  In training
    mode a fresh mask is drawn from the generator; in evaluation mode the
    input is returned.  [torch.no_grad()] has no bearing on it. *)
Definition Dropout_forward (training : bool) (x : list (list f32))
  : M Generator (list (list f32)) :=
  fun g => if training then let (y, g') := dropout_rows x g in (Ok y, g')
           else (Ok x, g).

(** [num_batches_tracked] is an int64 tensor. *)
Definition wrap_int64 (z : Z) : Z := ((z + 2 ^ 63) mod 2 ^ 64 - 2 ^ 63)%Z.

(** ResNet-50 has 53 BatchNorm2d layers: the stem's, three per bottleneck
    block (16 blocks) and one per downsample branch (4). *)
Definition resnet50_bn_layers : nat := 53.

(** [torchvision.models.resnet50]: the trunk, the buffers of its BatchNorm
    layers, the classifier [fc = Linear(2048, 1000)], whether the parameters
    require grad, and [self.training]. *)
Record ResNet : Type := {
  trunk : TrunkWeights;
  running_stats : RunningStats;
  num_batches_tracked : list Z;
  fc : Linear;
  params_require_grad : bool;
  training : bool
}.

(** What a state dict of ResNet-50 holds. *)
Record ImageStateDict : Type := {
  sd_trunk : TrunkWeights;
  sd_running_stats : RunningStats;
  sd_num_batches_tracked : list Z;
  sd_fc_weight : list (list f32);
  sd_fc_bias : list f32
}.

Definition image_state_dict_ok (sd : ImageStateDict) : bool :=
  Linear_shapes_ok 2048 1000 (sd_fc_weight sd) (sd_fc_bias sd)
  && (length (sd_num_batches_tracked sd) =? resnet50_bn_layers).

(** [load_state_dict] (strict): every parameter and buffer is overwritten by
    the entry of the same shape; a shape that differs raises.  Neither
    [requires_grad] nor [training] is touched. *)
Definition ResNet_load_state_dict (sd : ImageStateDict) (m : ResNet) : Result ResNet :=
  if image_state_dict_ok sd
  then Ok {| trunk := sd_trunk sd;
             running_stats := sd_running_stats sd;
             num_batches_tracked := sd_num_batches_tracked sd;
             fc := {| in_features := 2048; out_features := 1000;
                      weight := sd_fc_weight sd; bias := sd_fc_bias sd |};
             params_require_grad := params_require_grad m;
             training := training m |}
  else Raise (RuntimeError "Error(s) in loading state_dict: size mismatch").

(** [models.resnet50(weights='IMAGENET1K_V1')]: the network is built
    ([nn.Module.__init__] sets [training = True], parameters require grad)
    and the pretrained state dict is loaded into it.  The function does not
    call [eval()]. *)
Definition models_resnet50 (pretrained : ImageStateDict) : Result ResNet :=
  ResNet_load_state_dict pretrained
    {| trunk := sd_trunk pretrained;
       running_stats := sd_running_stats pretrained;
       num_batches_tracked := repeat 0%Z resnet50_bn_layers;
       fc := {| in_features := 2048; out_features := 1000;
                weight := repeat (repeat f32_zero 2048) 1000;
                bias := repeat f32_zero 1000 |};
       params_require_grad := true;
       training := true |}.

(** One pass through ResNet-50.  A BatchNorm2d layer in training mode
    normalises with the batch statistics, adds 1 to its
    [num_batches_tracked] and folds the batch statistics into its running
    statistics, in place; in evaluation mode it reads the running statistics
    and writes nothing.  The input must be float32, the type of the weights.
    The output requires grad when grad mode is enabled and a parameter or
    the input requires grad.  (A pass that raises is modelled as leaving the
    buffers as they were.) *)
Definition ResNet_forward (grad_enabled : bool) (x : Tensor) : M ResNet Tensor2 :=
  fun m =>
    match tdata x with
    | U8 _ =>
        (Raise (RuntimeError "Input type (unsigned char) and bias type (float) should be the same"), m)
    | F32 v =>
        let bn := if training m then None else Some (running_stats m) in
        match resnet_trunk (trunk m) bn (shape x) v with
        | Raise e => (Raise e, m)
        | Ok features =>
            match Linear_forward (fc m) features with
            | Raise e => (Raise e, m)
            | Ok out =>
                (Ok {| rows := out;
                       grad := grad_enabled && (params_require_grad m || requires_grad x) |},
                 if training m
                 then {| trunk := trunk m;
                         running_stats := running_update (trunk m) (running_stats m) (shape x) v;
                         num_batches_tracked :=
                           map (fun n => wrap_int64 (n + 1)) (num_batches_tracked m);
                         fc := fc m;
                         params_require_grad := params_require_grad m;
                         training := training m |}
                 else m)
            end
        end
    end.

End Modules.

(** ** The two extractors of [api.py] *)

Section Extractors.
Context {N : Numerics} {E : External}.

(** The decoder pickle: a dict from class index to category name. *)
Definition Decoder : Type := list (Z * string).

(** [class FeatureExtractor(nn.Module)].  [self.layers] is
    [Sequential(self.resnet50)]: the same module under a second name. *)
Record FeatureExtractor : Type := {
  resnet50 : ResNet;
  self_decoder : option Decoder
}.

(** [FeatureExtractor.__init__(self, decoder=None)] *)
Definition FeatureExtractor_init (pretrained : ImageStateDict) (decoder : option Decoder)
  : Result FeatureExtractor :=
  (net <-- models_resnet50 pretrained ;;
   Ok {| resnet50 := net; self_decoder := decoder |})%py.

(** [self.layers(X)] *)
Definition FeatureExtractor_layers (grad_enabled : bool) (X : Tensor)
  : M FeatureExtractor Tensor2 :=
  fun self =>
    let (out, net) := ResNet_forward grad_enabled X (resnet50 self) in
    (out, {| resnet50 := net; self_decoder := self_decoder self |}).

(** [FeatureExtractor.forward(self, image)]: grad mode is the ambient one,
    which no code of the program disables. *)
Definition FeatureExtractor_forward (image : Tensor) : M FeatureExtractor Tensor2 :=
  let X := float image in
  FeatureExtractor_layers true X.

(** [FeatureExtractor.predict(self, image)]: under [torch.no_grad()], and
    without the cast. *)
Definition FeatureExtractor_predict (image : Tensor) : M FeatureExtractor Tensor2 :=
  FeatureExtractor_layers false image.

(** [model(x)] is [nn.Module.__call__], which runs [forward]. *)
Definition FeatureExtractor_call (image : Tensor) : M FeatureExtractor Tensor2 :=
  FeatureExtractor_forward image.

Definition FeatureExtractor_load_state_dict (sd : ImageStateDict) (self : FeatureExtractor)
  : Result FeatureExtractor :=
  (net <-- ResNet_load_state_dict sd (resnet50 self) ;;
   Ok {| resnet50 := net; self_decoder := self_decoder self |})%py.

(** [class BertNeuralNetwork(torch.nn.Module)]: [self.bert], and
    [self.layers = Sequential(Dropout(p=0.3), Linear(768, 1000))] with the
    [training] flag of its Dropout.  [BertModel.from_pretrained] returns the
    encoder in evaluation mode, and nothing puts it back in training mode. *)
Record BertNeuralNetwork : Type := {
  bert : BertWeights;
  bert_requires_grad : bool;
  dropout_training : bool;
  linear : Linear;
  linear_requires_grad : bool
}.

(** [BertNeuralNetwork.__init__(self, decoder)]: the decoder is not stored.
    The loop over [self.bert.named_parameters()] freezes the encoder; the
    modules of [self.layers] are built by [nn.Module.__init__]
    ([training = True], parameters requiring grad).  The initial values of
    the Linear layer are overwritten by [load_state_dict] before use. *)
Definition BertNeuralNetwork_init (pretrained : BertWeights) (decoder : Decoder)
  : BertNeuralNetwork :=
  {| bert := pretrained;
     bert_requires_grad := false;
     dropout_training := true;
     linear := {| in_features := 768; out_features := 1000;
                  weight := repeat (repeat f32_zero 768) 1000;
                  bias := repeat f32_zero 1000 |};
     linear_requires_grad := true |}.

(** The dict built by [predict_text] and passed to [self.bert] as keyword arguments. *)
Record InputDict : Type := {
  input_ids : list (list Z);
  attention_mask : list (list Z)
}.

(** The body shared by [forward] and [predict]:
    the encoder is applied to the dict, its [pooler_output] is taken and passed through [self.layers]. *)
Definition BertNeuralNetwork_body (grad_enabled : bool) (self : BertNeuralNetwork)
  (X : InputDict) : M Generator Tensor2 :=
  (pooler_output <- lift (bert_pooler_output (bert self) (input_ids X) (attention_mask X)) ;;
   dropped <- Dropout_forward (dropout_training self) pooler_output ;;
   out <- lift (Linear_forward (linear self) dropped) ;;
   ret {| rows := out;
          grad := grad_enabled && (bert_requires_grad self || linear_requires_grad self) |})%py.

(** [BertNeuralNetwork.forward(self, X)] *)
Definition BertNeuralNetwork_forward (self : BertNeuralNetwork) (X : InputDict)
  : M Generator Tensor2 :=
  BertNeuralNetwork_body true self X.

(** [BertNeuralNetwork.predict(self, X)]: the same under [torch.no_grad()]. *)
Definition BertNeuralNetwork_predict (self : BertNeuralNetwork) (X : InputDict)
  : M Generator Tensor2 :=
  BertNeuralNetwork_body false self X.

Definition BertNeuralNetwork_call (self : BertNeuralNetwork) (X : InputDict)
  : M Generator Tensor2 :=
  BertNeuralNetwork_forward self X.

(** What a state dict of [BertNeuralNetwork] holds. *)
Record TextStateDict : Type := {
  sd_bert : BertWeights;
  sd_linear_weight : list (list f32);
  sd_linear_bias : list f32
}.

Definition BertNeuralNetwork_load_state_dict (sd : TextStateDict) (self : BertNeuralNetwork)
  : Result BertNeuralNetwork :=
  if Linear_shapes_ok 768 1000 (sd_linear_weight sd) (sd_linear_bias sd)
  then Ok {| bert := sd_bert sd;
             bert_requires_grad := bert_requires_grad self;
             dropout_training := dropout_training self;
             linear := {| in_features := 768; out_features := 1000;
                          weight := sd_linear_weight sd; bias := sd_linear_bias sd |};
             linear_requires_grad := linear_requires_grad self |}
  else Raise (RuntimeError "Error(s) in loading state_dict: size mismatch").

End Extractors.

(** ** JSON and NumPy *)

Section Json.
Context {N : Numerics}.

Inductive JSON : Type :=
| JFloat (x : f64)
| JInt (n : Z)
| JString (s : string)
| JArray (l : list JSON)
| JObject (kv : list (string * JSON)).

(** [json.dumps(content, allow_nan=False)] accepts a value when every float
    in it is finite. *)
Fixpoint json_allowed (j : JSON) : bool :=
  match j with
  | JFloat x => f64_isfinite x
  | JInt _ | JString _ => true
  | JArray l => forallb json_allowed l
  | JObject kv => forallb (fun p : string * JSON => let (_, v) := p in json_allowed v) kv
  end.

(** A response: the status code and the body.  The body is the UTF-8 text of
    a JSON value, which [json.loads] reads back; it is represented by that
    value. *)
Record Response : Type := {
  status_code : nat;
  body : JSON
}.

(** [JSONResponse(content=...)] *)
Definition JSONResponse (content : JSON) : Result Response :=
  if json_allowed content
  then Ok {| status_code := 200; body := content |}
  else Raise (ValueError "Out of range float values are not JSON compliant").

(** [json.loads(response.body)] *)
Definition json_loads (r : Response) : JSON := body r.

(** [obj[key]] *)
Fixpoint lookup (key : string) (kv : list (string * JSON)) : option JSON :=
  match kv with
  | [] => None
  | (k, v) :: kv' => if String.eqb k key then Some v else lookup key kv'
  end.

Definition getitem (j : JSON) (key : string) : Result JSON :=
  match j with
  | JObject kv =>
      match lookup key kv with
      | Some v => Ok v
      | None => Raise (KeyError key)
      end
  | _ => Raise (ValueError "not a dict")
  end.

(** [ndarray.tolist()] of a 2-D float32 array: a list of lists of Python floats. *)
Definition tolist (a : list (list f32)) : JSON :=
  JArray (map (fun r => JArray (map (fun x => JFloat (f64_of_f32 x)) r)) a).

(** [ndarray.tolist()] of a 2-D int64 array. *)
Definition tolist_int (a : list (list Z)) : JSON :=
  JArray (map (fun r => JArray (map JInt r)) a).

(** A float64 array of one or two dimensions. *)
Inductive NDArray : Type :=
| Arr1 (v : list f64)
| Arr2 (m : list (list f64)).

Fixpoint floats_of (l : list JSON) : option (list f64) :=
  match l with
  | [] => Some []
  | JFloat x :: l' => option_map (cons x) (floats_of l')
  | _ => None
  end.

Fixpoint rows_of (l : list JSON) : option (list (list f64)) :=
  match l with
  | [] => Some []
  | JArray r :: l' =>
      match floats_of r, rows_of l' with
      | Some v, Some m => Some (v :: m)
      | _, _ => None
      end
  | _ => None
  end.

Definition same_lengths (m : list (list f64)) : bool :=
  match m with
  | [] => true
  | r :: m' => forallb (fun r' => length r' =? length r) m'
  end.

(** [np.array(value)] on what [json.loads] returned: a list of floats is a
    1-D array, a list of equally long lists of floats a 2-D array.  (Other
    values are not numeric arrays; the program never builds one.) *)
Definition np_array (j : JSON) : Result NDArray :=
  match j with
  | JArray l =>
      match floats_of l with
      | Some v => Ok (Arr1 v)
      | None =>
          match rows_of l with
          | Some m => if same_lengths m then Ok (Arr2 m)
                      else Raise (ValueError "inhomogeneous shape")
          | None => Raise (ValueError "not an array of floats")
          end
      end
  | _ => Raise (ValueError "not an array of floats")
  end.

(** [np.concatenate((a, b), axis=1)]: both arrays need a second axis and the
    same number of rows; the rows are joined pairwise, [a]'s first. *)
Definition np_concatenate_axis1 (a b : NDArray) : Result (list (list f64)) :=
  match a, b with
  | Arr2 ma, Arr2 mb =>
      if length ma =? length mb
      then Ok (map (fun ab => fst ab ++ snd ab) (combine ma mb))
      else Raise (ValueError "all the input array dimensions except for the concatenation axis must match exactly")
  | Arr1 _, Arr1 _ =>
      Raise (AxisError "axis 1 is out of bounds for array of dimension 1")
  | _, _ =>
      Raise (ValueError "all the input arrays must have same number of dimensions")
  end.

(** [a.astype('float32')] *)
Definition astype_float32 (a : list (list f64)) : list (list f32) :=
  map (map f32_of_f64) a.

End Json.

(** ** Module-level state of [api.py] and its start-up *)

Section Service.
Context {N : Numerics} {E : External}.

Inductive Device : Type := cuda | cpu.

(** What the process finds when it starts: whether CUDA is available, the
    content of each file it opens ([None]: absent or unreadable), the
    pretrained weights the two constructors fetch, and the state of torch's
    default generator when serving begins. *)
Record Env : Type := {
  cuda_is_available : bool;
  decoder_pickle : option Decoder;
  resnet50_IMAGENET1K_V1 : option ImageStateDict;
  bert_base_cased : option BertWeights;
  image_model_pt : option ImageStateDict;
  text_model_pt : option TextStateDict;
  faiss_pickle : option Index;
  default_generator : Generator
}.

(** The globals the handlers use. *)
Record Server : Type := {
  device : Device;
  decoder : Decoder;
  image_feature_extraction_model : FeatureExtractor;
  text_feature_extraction_model : BertNeuralNetwork;
  index : Index;
  generator : Generator
}.

(** [open(path, 'rb')] followed by [pickle.load] or [torch.load]. *)
Definition read_file {A : Type} (path : string) (content : option A) : Result A :=
  match content with
  | Some a => Ok a
  | None => Raise (FileNotFoundError path)
  end.

(** The body of the first [try] block (lines 91-113). *)
Definition load_models (env : Env)
  : Result (Device * Decoder * FeatureExtractor * BertNeuralNetwork) :=
  (let device := if cuda_is_available env then cuda else cpu in
   decoder <-- read_file "Pickle_Files/decoder_pickle" (decoder_pickle env) ;;
   resnet_weights <-- read_file "resnet50-IMAGENET1K_V1" (resnet50_IMAGENET1K_V1 env) ;;
   image_feature_extraction_model <-- FeatureExtractor_init resnet_weights (Some decoder) ;;
   bert_weights <-- read_file "bert-base-cased" (bert_base_cased env) ;;
   let text_feature_extraction_model := BertNeuralNetwork_init bert_weights decoder in
   image_model_parameters <--
     read_file "Model_Parameters/image_model.pt" (image_model_pt env) ;;
   image_feature_extraction_model <--
     FeatureExtractor_load_state_dict image_model_parameters image_feature_extraction_model ;;
   text_model_parameters <--
     read_file "Model_Parameters/text_model.pt" (text_model_pt env) ;;
   text_feature_extraction_model <--
     BertNeuralNetwork_load_state_dict text_model_parameters text_feature_extraction_model ;;
   Ok (device, decoder, image_feature_extraction_model, text_feature_extraction_model))%py.

(** The body of the second [try] block (lines 119-121). *)
Definition load_index (env : Env) : Result Index :=
  read_file "Pickle_Files/faiss_pickle" (faiss_pickle env).

(** Module start-up, lines 90-128.  Each bare [except:] replaces whatever was
    raised by an [OSError]; the [FastAPI] app is created only after both
    blocks have completed. *)
Definition startup (env : Env) : Result Server :=
  match load_models env with
  | Raise _ =>
      Raise (OSError "No Feature Extraction model found. Check that you have the decoder and the model in the correct location.")
  | Ok (dev, dec, image_model, text_model) =>
      match load_index env with
      | Raise _ =>
          Raise (OSError "No Image model found. Check that you have the encoder and the model in the correct location.")
      | Ok idx =>
          Ok {| device := dev;
                decoder := dec;
                image_feature_extraction_model := image_model;
                text_feature_extraction_model := text_model;
                index := idx;
                generator := default_generator env |}
      end
  end.

(** ** Request handlers *)

(** A call on the global image model. *)
Definition on_image_model {A : Type} (c : M FeatureExtractor A) : M Server A :=
  fun s =>
    let (r, m) := c (image_feature_extraction_model s) in
    (r, {| device := device s;
           decoder := decoder s;
           image_feature_extraction_model := m;
           text_feature_extraction_model := text_feature_extraction_model s;
           index := index s;
           generator := generator s |}).

(** A call that draws from the default generator. *)
Definition on_generator {A : Type} (c : M Generator A) : M Server A :=
  fun s =>
    let (r, g) := c (generator s) in
    (r, {| device := device s;
           decoder := decoder s;
           image_feature_extraction_model := image_feature_extraction_model s;
           text_feature_extraction_model := text_feature_extraction_model s;
           index := index s;
           generator := g |}).

(** [healthcheck()] *)
Definition healthcheck : M Server Response :=
  let msg := "API is up and running!" in
  ret {| status_code := 200; body := JObject [("message", JString msg)] |}.

(** Lines 139-148 of [predict_image]: the image is opened and preprocessed
    and the global model is called on the tensor ([.to(device)] moves the
    tensor and leaves its content as it is). *)
Definition predict_image_embedding (image : UploadFile) : M Server Tensor2 :=
  (pil_image <- lift (Image_open image) ;;
   image_tensor <- lift (process_image_as_pil pil_image image_size_default) ;;
   on_image_model (FeatureExtractor_call image_tensor))%py.

(** [predict_image(image)]: the result is moved to the CPU, detached,
    turned into a NumPy array ([np.array] of an array is that array), then
    into nested Python lists, and wrapped in a [JSONResponse]. *)
Definition predict_image (image : UploadFile) : M Server Response :=
  (feature_embeddings <- predict_image_embedding image ;;
   feature_embeddings <- lift (numpy (detach feature_embeddings)) ;;
   let feature_embeddings := tolist feature_embeddings in
   lift (JSONResponse (JObject [("features", feature_embeddings)])))%py.

(** [t.view(1, -1)]: all elements in one row. *)
Definition view_1 (t : list (list Z)) : list (list Z) := [concat t].

(** Lines 165-172 of [predict_text]. *)
Definition predict_text_embedding (text : string) : M Server Tensor2 :=
  fun s =>
    let tokenized_text := tokenizer text in
    let input_dictionary :=
      {| input_ids := view_1 (fst tokenized_text);
         attention_mask := view_1 (snd tokenized_text) |} in
    on_generator
      (BertNeuralNetwork_call (text_feature_extraction_model s) input_dictionary) s.

(** [predict_text(text)] *)
Definition predict_text (text : string) : M Server Response :=
  (model_output <- predict_text_embedding text ;;
   model_output <- lift (numpy (detach model_output)) ;;
   let model_output := tolist model_output in
   lift (JSONResponse (JObject [("features", model_output)])))%py.

(** [np.array(json.loads(response.body)['features'])] *)
Definition features_array (response : Response) : Result NDArray :=
  (features <-- getitem (json_loads response) "features" ;;
   np_array features)%py.

(** Lines 189-207 of [predict_combined]: the array handed to the index. *)
Definition predict_combined_query (image : UploadFile) (text : string)
  : M Server (list (list f32)) :=
  (image_response <- predict_image image ;;
   image_embeddings <- lift (features_array image_response) ;;
   text_response <- predict_text text ;;
   text_embeddings <- lift (features_array text_response) ;;
   embeddings <- lift (np_concatenate_axis1 image_embeddings text_embeddings) ;;
   ret (astype_float32 embeddings))%py.

(** [index.search(x, k)]: FAISS asserts that the queries have the dimension
    of the index. *)
Definition Index_search (idx : Index) (x : list (list f32)) (k : nat)
  : Result (list (list f32) * list (list Z)) :=
  if forallb (fun q => length q =? index_d idx) x
  then Ok (index_search idx x k)
  else Raise AssertionError.

(** [predict_combined(image, text)].  (What [print] writes to the standard
    output, here and at start-up, is not part of the state.) *)
Definition predict_combined (image : UploadFile) (text : string) : M Server Response :=
  (embeddings <- predict_combined_query image text ;;
   fun s =>
     (found <- lift (Index_search (index s) embeddings 3) ;;
      let nearest_vectors := tolist_int (snd found) in
      lift (JSONResponse (JObject [("similar_index", nearest_vectors)]))) s)%py.

(** The four routes. *)
Inductive Request : Type :=
| GET_healthcheck
| POST_predict_feature_embedding_image (image : UploadFile)
| POST_predict_feature_embedding_text (text : string)
| POST_predict_similar_images (image : UploadFile) (text : string).

Definition handle (r : Request) : M Server Response :=
  match r with
  | GET_healthcheck => healthcheck
  | POST_predict_feature_embedding_image image => predict_image image
  | POST_predict_feature_embedding_text text => predict_text text
  | POST_predict_similar_images image text => predict_combined image text
  end.

(** The states a server started in [env] can be in: the one start-up
    produces, and the one any request leaves behind. *)
Inductive Reachable (env : Env) : Server -> Prop :=
| Reachable_startup : forall s, startup env = Ok s -> Reachable env s
| Reachable_handle : forall s r, Reachable env s -> Reachable env (snd (handle r s)).

(** ** What FAISS promises for one call

    [index.search(x, k)] returns one row of [k] labels per query, each row
    ordered by increasing distance to its query. *)

Fixpoint nondecreasing (d : list f32) : bool :=
  match d with
  | a :: (b :: _) as d' => f32_leb a b && nondecreasing d'
  | _ => true
  end.

Definition nearest_first (idx : Index) (q : list f32) (labels : list Z) : bool :=
  nondecreasing (map (index_distance idx q) labels).

Definition search_contract (idx : Index) (x : list (list f32)) (k : nat) : Prop :=
  let labels := snd (index_search idx x k) in
  length labels = length x /\
  Forall (fun row => length row = k) labels /\
  Forall (fun qr => nearest_first idx (fst qr) (snd qr) = true) (combine x labels).

(** ** Notions used to state the properties *)

(** What start-up establishes and every request preserves: both networks
    are in the mode and have the shapes their constructors gave them. *)
Definition Serving (s : Server) : Prop :=
  let net := resnet50 (image_feature_extraction_model s) in
  let txt := text_feature_extraction_model s in
  training net = true /\ params_require_grad net = true /\
  length (weight (fc net)) = 1000 /\ length (bias (fc net)) = 1000 /\
  length (num_batches_tracked net) = resnet50_bn_layers /\
  dropout_training txt = true /\ linear_requires_grad txt = true /\
  length (weight (linear txt)) = 1000 /\ length (bias (linear txt)) = 1000.

(** A sequence of requests, handled one after the other; a request that
    raises is answered with its exception and the next one is served. *)
Fixpoint serve (requests : list Request) (s : Server)
  : list (Result Response) * Server :=
  match requests with
  | [] => ([], s)
  | r :: rest =>
      let (response, s1) := handle r s in
      let (responses, s2) := serve rest s1 in
      (response :: responses, s2)
  end.

(** One of the four artifacts cannot be loaded: it is absent or unreadable,
    or (for a weight file) its shapes do not fit the model. *)
Definition load_failure (env : Env) : Prop :=
  decoder_pickle env = None \/
  image_model_pt env = None \/
  (exists sd, image_model_pt env = Some sd /\ image_state_dict_ok sd = false) \/
  text_model_pt env = None \/
  (exists sd, text_model_pt env = Some sd /\
              Linear_shapes_ok 768 1000 (sd_linear_weight sd) (sd_linear_bias sd) = false) \/
  faiss_pickle env = None.

(** A flat JSON list of [n] floats, and a nested one with a single row of
    [n] floats. *)
Definition flat_floats (n : nat) (j : JSON) : Prop :=
  exists xs, j = JArray (map JFloat xs) /\ length xs = n.

Definition one_row_of_floats (n : nat) (j : JSON) : Prop :=
  exists xs, j = JArray [JArray (map JFloat xs)] /\ length xs = n.

(** The same environment with another decoder pickle. *)
Definition with_decoder (d : Decoder) (env : Env) : Env :=
  {| cuda_is_available := cuda_is_available env;
     decoder_pickle := Some d;
     resnet50_IMAGENET1K_V1 := resnet50_IMAGENET1K_V1 env;
     bert_base_cased := bert_base_cased env;
     image_model_pt := image_model_pt env;
     text_model_pt := text_model_pt env;
     faiss_pickle := faiss_pickle env;
     default_generator := default_generator env |}.

(** Two server states that agree on everything but the decoder (the global
    and the attribute of the image model). *)
Definition same_up_to_decoder (s1 s2 : Server) : Prop :=
  device s1 = device s2 /\
  resnet50 (image_feature_extraction_model s1) = resnet50 (image_feature_extraction_model s2) /\
  text_feature_extraction_model s1 = text_feature_extraction_model s2 /\
  index s1 = index s2 /\
  generator s1 = generator s2.

(** What no request changes: the device, the decoder, the text model, the
    index, and, of the image model, the parameters, the flags and the number
    of BatchNorm counters. *)
Definition frame (s s' : Server) : Prop :=
  let m := resnet50 (image_feature_extraction_model s) in
  let m' := resnet50 (image_feature_extraction_model s') in
  device s' = device s /\ decoder s' = decoder s /\
  text_feature_extraction_model s' = text_feature_extraction_model s /\
  index s' = index s /\
  self_decoder (image_feature_extraction_model s') =
    self_decoder (image_feature_extraction_model s) /\
  trunk m' = trunk m /\ fc m' = fc m /\
  params_require_grad m' = params_require_grad m /\ training m' = training m /\
  length (num_batches_tracked m') = length (num_batches_tracked m).

(** For comparison only: lines 139-148 of [predict_image] as they would read
    if the handler called [image_feature_extraction_model.predict], the
    method that runs under [torch.no_grad()].  The handler does not. *)
Definition predict_image_embedding_via_predict (image : UploadFile) : M Server Tensor2 :=
  (pil_image <- lift (Image_open image) ;;
   image_tensor <- lift (process_image_as_pil pil_image image_size_default) ;;
   on_image_model (FeatureExtractor_predict image_tensor))%py.

End Service.

(** ** The rest of the two files *)

Section Remainder.
Context {N : Numerics} {E : External}.

(** [process_image(image_path, image_size)] of [image_processor.py]: the
    file at [image_path] is opened and decoded, then treated as
    [process_image_as_pil] treats an image.  [files] is the file system: the
    content of each path that can be opened. *)
Definition process_image (files : string -> option UploadFile)
  (image_path : string) (image_size : nat) : Result Tensor :=
  (file <-- read_file image_path (files image_path) ;;
   img <-- Image_open file ;;
   cleaned_img <-- resize_image image_size img ;;
   Ok (unsqueeze0 (PILToTensor cleaned_img)))%py.

(** The two messages of the [OSError]s raised at start-up. *)
Definition no_feature_extraction_model : string :=
  "No Feature Extraction model found. Check that you have the decoder and the model in the correct location.".

Definition no_image_model : string :=
  "No Image model found. Check that you have the encoder and the model in the correct location.".

(** The module from its first statement to line 128.  Line 53,
    [tokenizer = BertTokenizer.from_pretrained('bert-base-cased')], is a
    module-level statement that runs before the two [try] blocks and outside
    both: what it raises is not replaced by an [OSError] of the program, and
    neither block is entered.  [tokenizer_load] is the outcome of that
    call. *)
Definition import_module (tokenizer_load : Result unit) (env : Env) : Result Server :=
  match tokenizer_load with
  | Raise e => Raise e
  | Ok _ => startup env
  end.

(** Everything the first [try] block loads is there and fits. *)
Definition models_load (env : Env) : Prop :=
  exists dec pre bw isd tsd,
    decoder_pickle env = Some dec /\
    resnet50_IMAGENET1K_V1 env = Some pre /\ image_state_dict_ok pre = true /\
    bert_base_cased env = Some bw /\
    image_model_pt env = Some isd /\ image_state_dict_ok isd = true /\
    text_model_pt env = Some tsd /\
    Linear_shapes_ok 768 1000 (sd_linear_weight tsd) (sd_linear_bias tsd) = true.

(** The routes whose handler calls the image model. *)
Definition runs_image_model (r : Request) : bool :=
  match r with
  | POST_predict_feature_embedding_image _ | POST_predict_similar_images _ _ => true
  | GET_healthcheck | POST_predict_feature_embedding_text _ => false
  end.

(** [num_batches_tracked += 1], [k] times. *)
Definition tracked_after (k : nat) (n : Z) : Z :=
  Nat.iter k (fun z => wrap_int64 (z + 1)) n.

(** The server state with another generator. *)
Definition with_generator (g : Generator) (s : Server) : Server :=
  {| device := device s;
     decoder := decoder s;
     image_feature_extraction_model := image_feature_extraction_model s;
     text_feature_extraction_model := text_feature_extraction_model s;
     index := index s;
     generator := g |}.

End Remainder.

(** ** A small concrete instance

    Integers for scalars, nearest-neighbour resampling, a one-line "trunk"
    and "encoder", and a brute-force index: enough to run every definition
    above on concrete inputs. *)

Module Toy.

Definition dot (w x : list Z) : Z :=
  fold_left (fun acc wx => (acc + fst wx * snd wx)%Z) (combine w x) 0%Z.

#[local] Instance numerics : Numerics := {|
  f32 := Z;
  f64 := Z;
  f32_zero := 0%Z;
  f32_add := Z.add;
  f32_dot := dot;
  f32_of_uint8 := fun z => z;
  f32_dropout := fun keep x => if keep then (10 * x / 7)%Z else 0%Z;
  f32_leb := Z.leb;
  f64_of_f32 := fun x => x;
  f32_of_f64 := fun x => x;
  f64_isfinite := fun _ => true;
  f32_of_f64_of_f32 := fun x => eq_refl
|}.

(** Entries of a brute-force index, with their squared distance to a query. *)
Definition sqdist (a b : list Z) : Z :=
  fold_left (fun acc ab => (acc + (fst ab - snd ab) * (fst ab - snd ab))%Z) (combine a b) 0%Z.

Definition far : Z := (2 ^ 62)%Z.

Fixpoint insert_by_distance (e : Z * Z) (l : list (Z * Z)) : list (Z * Z) :=
  match l with
  | [] => [e]
  | e' :: l' => if (fst e <=? fst e')%Z then e :: l else e' :: insert_by_distance e l'
  end.

(** The order the sort establishes on (distance, label) pairs. *)
Definition by_distance (p p' : Z * Z) : Prop := (fst p <= fst p')%Z.

Definition sort_by_distance (l : list (Z * Z)) : list (Z * Z) :=
  fold_right insert_by_distance [] l.

Definition ranked (xb : list (list Z)) (q : list Z) (k : nat) : list (Z * Z) :=
  let scored := map (fun ie => (sqdist q (snd ie), Z.of_nat (fst ie)))
                    (combine (seq 0 (length xb)) xb) in
  firstn k (sort_by_distance scored ++ repeat (far, (-1)%Z) k).

Definition search (xb : list (list Z)) (x : list (list Z)) (k : nat)
  : list (list Z) * list (list Z) :=
  (map (fun q => map fst (ranked xb q k)) x, map (fun q => map snd (ranked xb q k)) x).

Definition distance (xb : list (list Z)) (q : list Z) (label : Z) : Z :=
  if (label <? 0)%Z then far
  else match nth_error xb (Z.to_nat label) with
       | Some e => sqdist q e
       | None => far
       end.

Definition sum (l : list Z) : Z := fold_left Z.add l 0%Z.

Definition conv_trunk (w : Z) (bn : option Z) (shp : list nat) (v : list Z)
  : Result (list (list Z)) :=
  match shp with
  | [n; 3; _; _] =>
      Ok (repeat (map (fun j => (Z.of_nat j mod 5 + w * nth 0 v 0
                                 + match bn with Some r => r | None => 1 end)%Z)
                      (seq 0 2048)) n)
  | _ => Raise (RuntimeError "expected input with 3 channels")
  end.

Definition pooler (w : Z) (ids mask : list (list Z)) : Result (list (list Z)) :=
  Ok (map (fun row => map (fun j => ((Z.of_nat j + sum row) mod 11 + w)%Z) (seq 0 768)) ids).

Lemma trunk_rows : forall w bn shp v features,
  conv_trunk w bn shp v = Ok features -> length features = hd 0 shp.
Proof.
  intros w bn shp v features H. unfold conv_trunk in H.
  destruct shp as [|n [|c [|h [|x [|? ?]]]]]; try discriminate;
    destruct c as [|[|[|[|c]]]]; try discriminate.
  apply Ok_inj in H. rewrite <- H. apply repeat_length.
Qed.

Lemma pooler_rows : forall w ids mask out,
  pooler w ids mask = Ok out -> length out = length ids.
Proof.
  intros w ids mask out H. apply Ok_inj in H. rewrite <- H. apply length_map.
Qed.

#[local] Instance external : External := {|
  UploadFile := option Image;
  Image_open := fun f => match f with
                         | Some im => Ok im
                         | None => Raise UnidentifiedImageError
                         end;
  resample := fun im w h x y => getpixel im (x * width im / w) (y * height im / h);
  convert_pixel := fun from to px =>
    match from with
    | Mode_RGB | Mode_RGBA | Mode_CMYK => firstn (bands to) (px ++ [255%Z])
    | _ => repeat (hd 0%Z px) (bands to)
    end;
  TrunkWeights := Z;
  RunningStats := Z;
  resnet_trunk := conv_trunk;
  running_update := fun w r shp v => (r + nth 0 v 0)%Z;
  BertWeights := Z;
  tokenizer := fun text =>
    let ids := (101 :: map (fun c => Z.of_nat (Ascii.nat_of_ascii c)) (list_ascii_of_string text)
                ++ [102])%Z in
    ([ids], [map (fun _ => 1%Z) ids]);
  bert_pooler_output := pooler;
  Index := list (list Z);
  index_d := fun _ => 2000;
  index_search := search;
  index_distance := distance;
  resnet_trunk_rows := trunk_rows;
  bert_pooler_output_rows := pooler_rows
|}.

(** An upload is a decoded image, or bytes that are no image. *)
Definition upload (im : Image) : UploadFile := Some im.

Definition not_an_image : UploadFile := None.

Definition black_50x100 : Image :=
  {| mode := Mode_RGB; width := 50; height := 100;
     getpixel := fun _ _ => [0; 0; 0]%Z |}.

Definition image_sd : ImageStateDict :=
  {| sd_trunk := 2%Z;
     sd_running_stats := 0%Z;
     sd_num_batches_tracked := repeat 0%Z 53;
     sd_fc_weight := map (fun i => repeat (Z.of_nat (i mod 3)) 2048) (seq 0 1000);
     sd_fc_bias := map Z.of_nat (seq 0 1000) |}.

Definition text_sd : TextStateDict :=
  {| sd_bert := 1%Z;
     sd_linear_weight := map (fun i => repeat (Z.of_nat (i mod 2)) 768) (seq 0 1000);
     sd_linear_bias := map Z.of_nat (seq 0 1000) |}.

Definition stored : list (list Z) :=
  [repeat 9000%Z 2000; repeat 0%Z 2000; repeat 3000%Z 2000; repeat 500%Z 2000].

Definition gen : Generator := {| stream := fun n => n mod 5 <? 3; offset := 0 |}.

Definition env : Env :=
  {| cuda_is_available := false;
     decoder_pickle := Some [(0%Z, "Home & Garden"); (1%Z, "Baby & Kids Stuff")];
     resnet50_IMAGENET1K_V1 := Some image_sd;
     bert_base_cased := Some 1%Z;
     image_model_pt := Some image_sd;
     text_model_pt := Some text_sd;
     faiss_pickle := Some stored;
     default_generator := gen |}.

(** The state start-up reaches in [env]. *)
Definition server : Server :=
  {| device := cpu;
     decoder := [(0%Z, "Home & Garden"); (1%Z, "Baby & Kids Stuff")];
     image_feature_extraction_model :=
       {| resnet50 := {| trunk := 2%Z; running_stats := 0%Z;
                         num_batches_tracked := repeat 0%Z 53;
                         fc := {| in_features := 2048; out_features := 1000;
                                  weight := sd_fc_weight image_sd;
                                  bias := sd_fc_bias image_sd |};
                         params_require_grad := true;
                         training := true |};
          self_decoder := Some [(0%Z, "Home & Garden"); (1%Z, "Baby & Kids Stuff")] |};
     text_feature_extraction_model :=
       {| bert := 1%Z; bert_requires_grad := false; dropout_training := true;
          linear := {| in_features := 768; out_features := 1000;
                       weight := sd_linear_weight text_sd;
                       bias := sd_linear_bias text_sd |};
          linear_requires_grad := true |};
     index := stored;
     generator := gen |}.

(** The same environment without the index pickle. *)
Definition env_without_index : Env :=
  {| cuda_is_available := false;
     decoder_pickle := decoder_pickle env;
     resnet50_IMAGENET1K_V1 := Some image_sd;
     bert_base_cased := Some 1%Z;
     image_model_pt := Some image_sd;
     text_model_pt := Some text_sd;
     faiss_pickle := None;
     default_generator := gen |}.

(** Component [i] of the one row of "features" in a response. *)
Definition feature (i : nat) (r : Result Response) : option Z :=
  match r with
  | Ok resp =>
      match body resp with
      | JObject [(_, JArray [JArray l])] =>
          match nth_error l i with
          | Some (JFloat x) => Some x
          | _ => None
          end
      | _ => None
      end
  | Raise _ => None
  end.

(** A single black pixel, as a uint8 tensor of shape (1, 3, 1, 1). *)
Definition pixel_tensor : Tensor :=
  {| shape := [1; 3; 1; 1]; tdata := U8 [0; 0; 0]%Z; requires_grad := false |}.

(** A single black pixel already cast to float32. *)
Definition float_pixel_tensor : Tensor :=
  {| shape := [1; 3; 1; 1]; tdata := F32 [0; 0; 0]%Z; requires_grad := false |}.

(** A batch of two rows of two values. *)
Definition small_batch : list (list f32) := [[1; 2]; [3; 4]]%Z.

(** A file system with one image file. *)
Definition files (path : string) : option UploadFile :=
  if String.eqb path "images/black.jpg" then Some (upload black_50x100) else None.

(** An environment in which neither the decoder nor the index can be read. *)
Definition env_without_decoder_and_index : Env :=
  {| cuda_is_available := false;
     decoder_pickle := None;
     resnet50_IMAGENET1K_V1 := Some image_sd;
     bert_base_cased := Some 1%Z;
     image_model_pt := Some image_sd;
     text_model_pt := Some text_sd;
     faiss_pickle := None;
     default_generator := gen |}.

(** An environment whose pretrained ResNet weights differ from those of
    [env]. *)
Definition other_image_sd : ImageStateDict :=
  {| sd_trunk := 5%Z;
     sd_running_stats := 9%Z;
     sd_num_batches_tracked := repeat 4%Z 53;
     sd_fc_weight := map (fun i => repeat (Z.of_nat (i mod 7)) 2048) (seq 0 1000);
     sd_fc_bias := repeat 3%Z 1000 |}.

Definition env_other_pretrained : Env :=
  {| cuda_is_available := false;
     decoder_pickle := decoder_pickle env;
     resnet50_IMAGENET1K_V1 := Some other_image_sd;
     bert_base_cased := Some 8%Z;
     image_model_pt := Some image_sd;
     text_model_pt := Some text_sd;
     faiss_pickle := Some stored;
     default_generator := gen |}.

End Toy.

(** * Properties *)

(** ** The image preprocessor *)

Section ImageProcessorFacts.
Context {N : Numerics} {E : External}.

Lemma length_flat_map_const {A B : Type} (f : A -> list B) (n : nat) (l : list A) :
  (forall a, length (f a) = n) -> length (flat_map f l) = length l * n.
Proof.
  intros Hf. induction l as [|a l IH]; simpl.
  - reflexivity.
  - rewrite length_app, Hf, IH. reflexivity.
Qed.

Lemma PILToTensor_numel (im : Image) :
  numel (PILToTensor im) = bands (mode im) * (height im * width im).
Proof.
  unfold numel, PILToTensor; simpl.
  rewrite (length_flat_map_const _ (height im * width im)).
  - now rewrite length_seq.
  - intros c. rewrite (length_flat_map_const _ (width im)).
    + now rewrite length_seq.
    + intros y. now rewrite length_map, length_seq.
Qed.

Lemma resize_image_canvas (final_size : nat) (im : Image) :
  0 < width im -> 0 < height im ->
  exists canvas, resize_image final_size im = Ok canvas /\
                 mode canvas = Mode_RGB /\
                 width canvas = final_size /\ height canvas = final_size.
Proof.
  intros Hw Hh. unfold resize_image.
  destruct (Nat.max (width im) (height im) =? 0) eqn:Hmax.
  - apply Nat.eqb_eq in Hmax. lia.
  - eexists. split; [reflexivity|]. simpl. auto.
Qed.

(** Outside the pasted box the canvas stays black; inside it holds the
    resized image. *)
Lemma resize_image_pixels (final_size : nat) (im canvas : Image) :
  resize_image final_size im = Ok canvas ->
  let longer := Nat.max (width im) (height im) in
  let new_width := width im * final_size / longer in
  let new_height := height im * final_size / longer in
  let ox := (final_size - new_width) / 2 in
  let oy := (final_size - new_height) / 2 in
  forall x y,
    getpixel canvas x y =
      if (ox <=? x) && (x <? ox + new_width) && (oy <=? y) && (y <? oy + new_height)
      then convert_pixel (mode im) Mode_RGB (resample im new_width new_height (x - ox) (y - oy))
      else [0; 0; 0]%Z.
Proof.
  unfold resize_image.
  destruct (Nat.max (width im) (height im) =? 0); [discriminate|].
  intros H; injection H as <-. reflexivity.
Qed.

(** On a valid image the preprocessor returns, whatever the target size. *)
Lemma process_image_as_pil_Ok (im : Image) (size : nat) :
  0 < width im -> 0 < height im ->
  exists t, process_image_as_pil im size = Ok t /\
            shape t = [1; 3; size; size] /\
            dtype t = uint8 /\
            numel t = 3 * (size * size).
Proof.
  intros Hw Hh.
  destruct (resize_image_canvas size im Hw Hh) as (canvas & Hres & Hm & Hcw & Hch).
  unfold process_image_as_pil. rewrite Hres. simpl.
  eexists. split; [reflexivity|]. repeat split.
  - simpl. now rewrite Hm, Hcw, Hch.
  - change (numel (PILToTensor canvas) = 3 * (size * size)).
    now rewrite PILToTensor_numel, Hm, Hcw, Hch.
Qed.

(** C5. For every valid image (both sides at least one pixel), whatever its
    resolution and aspect ratio, [process_image_as_pil] returns a uint8
    tensor of shape (1, 3, size, size) holding 3 * size * size elements; with
    the default size the shape is (1, 3, 224, 224). *)
Theorem process_image_as_pil_shape (im : Image) (size : nat) :
  0 < width im -> 0 < height im ->
  (exists t, process_image_as_pil im size = Ok t /\
             shape t = [1; 3; size; size] /\
             dtype t = uint8 /\
             numel t = 3 * (size * size)) /\
  (exists t, process_image_as_pil im image_size_default = Ok t /\
             shape t = [1; 3; 224; 224]).
Proof.
  intros Hw Hh. split.
  - now apply process_image_as_pil_Ok.
  - destruct (process_image_as_pil_Ok im image_size_default Hw Hh) as (t & Ht & Hs & _).
    now exists t.
Qed.

Lemma process_image_as_pil_uint8 (im : Image) (size : nat) (t : Tensor) :
  process_image_as_pil im size = Ok t -> dtype t = uint8.
Proof.
  unfold process_image_as_pil. destruct (resize_image size im); simpl; [|discriminate].
  intros H; injection H as <-. reflexivity.
Qed.

Lemma process_image_as_pil_no_grad (im : Image) (size : nat) (t : Tensor) :
  process_image_as_pil im size = Ok t -> requires_grad t = false.
Proof.
  unfold process_image_as_pil. destruct (resize_image size im); simpl; [|discriminate].
  intros H; injection H as <-. reflexivity.
Qed.

Lemma process_image_as_pil_batch (im : Image) (size : nat) (t : Tensor) :
  process_image_as_pil im size = Ok t -> hd 0 (shape t) = 1.
Proof.
  unfold process_image_as_pil. destruct (resize_image size im); simpl; [|discriminate].
  intros H; injection H as <-. reflexivity.
Qed.

End ImageProcessorFacts.

(** ** The monad *)

Section MonadFacts.
Context {S : Type}.

Lemma bind_Ok {A B : Type} (c : M S A) (k : A -> M S B) (s : S) (b : B) :
  fst (bind c k s) = Ok b ->
  exists a, fst (c s) = Ok a /\ bind c k s = k a (snd (c s)).
Proof.
  unfold bind. destruct (c s) as [[a|e] s1]; simpl.
  - intros _. now exists a.
  - discriminate.
Qed.

Lemma bind_eq {A B : Type} (c : M S A) (k : A -> M S B) (s s1 : S) (a : A) :
  c s = (Ok a, s1) -> bind c k s = k a s1.
Proof. unfold bind. now intros ->. Qed.

Lemma lift_Ok {A : Type} (r : Result A) (s : S) (a : A) :
  fst (lift r s) = Ok a -> r = Ok a.
Proof. now unfold lift. Qed.

(** A relation between the state before and after, kept by every step. *)
Definition preserves (R : S -> S -> Prop) {A : Type} (c : M S A) : Prop :=
  forall s, R s (snd (c s)).

Lemma preserves_ret (R : S -> S -> Prop) {A : Type} (a : A) :
  (forall s, R s s) -> preserves R (ret a).
Proof. intros Hrefl s. apply Hrefl. Qed.

Lemma preserves_lift (R : S -> S -> Prop) {A : Type} (r : Result A) :
  (forall s, R s s) -> preserves R (lift r).
Proof. intros Hrefl s. apply Hrefl. Qed.

Lemma preserves_bind (R : S -> S -> Prop) {A B : Type} (c : M S A) (k : A -> M S B) :
  (forall s1 s2 s3, R s1 s2 -> R s2 s3 -> R s1 s3) ->
  preserves R c -> (forall a, preserves R (k a)) -> preserves R (bind c k).
Proof.
  intros Htrans Hc Hk s. unfold bind.
  specialize (Hc s). destruct (c s) as [[a|e] s1]; simpl in *.
  - apply Htrans with s1; [assumption | apply Hk].
  - assumption.
Qed.

(** Two runs of one computation from related states: equal results, related
    final states. *)
Definition respects (R : S -> S -> Prop) {A : Type} (c : M S A) : Prop :=
  forall s1 s2, R s1 s2 -> fst (c s1) = fst (c s2) /\ R (snd (c s1)) (snd (c s2)).

Lemma respects_ret (R : S -> S -> Prop) {A : Type} (a : A) : respects R (ret a).
Proof. intros s1 s2 H. now split. Qed.

Lemma respects_lift (R : S -> S -> Prop) {A : Type} (r : Result A) : respects R (lift r).
Proof. intros s1 s2 H. now split. Qed.

Lemma respects_bind (R : S -> S -> Prop) {A B : Type} (c : M S A) (k : A -> M S B) :
  respects R c -> (forall a, respects R (k a)) -> respects R (bind c k).
Proof.
  intros Hc Hk s1 s2 H. unfold bind.
  destruct (Hc s1 s2 H) as [Hfst Hsnd].
  destruct (c s1) as [r1 t1], (c s2) as [r2 t2]; simpl in *. subst r2.
  destruct r1 as [a|e].
  - apply Hk, Hsnd.
  - now split.
Qed.

End MonadFacts.

(** ** Shapes and modes of the two networks *)

Section ModuleFacts.
Context {N : Numerics} {E : External}.

Lemma Linear_forward_shape (l : Linear) (x y : list (list f32)) :
  Linear_forward l x = Ok y ->
  length y = length x /\
  Forall (fun r => length r = Nat.min (length (weight l)) (length (bias l))) y.
Proof.
  unfold Linear_forward. destruct (forallb _ x); [|discriminate].
  intros H; injection H as <-. split.
  - apply length_map.
  - apply Forall_map, Forall_forall. intros r _.
    now rewrite length_map, length_combine.
Qed.

Lemma Linear_shapes_ok_lengths (n_in n_out : nat) (w : list (list f32)) (b : list f32) :
  Linear_shapes_ok n_in n_out w b = true -> length w = n_out /\ length b = n_out.
Proof.
  unfold Linear_shapes_ok. rewrite !andb_true_iff, !Nat.eqb_eq. tauto.
Qed.

(** The result of a pass that returns: the input was float32, its features
    went through [fc], the output requires grad exactly when grad mode was
    on and something required grad; and, in training mode, every
    [num_batches_tracked] went up by one. *)
Lemma ResNet_forward_Ok (g : bool) (x : Tensor) (m : ResNet) (out : Tensor2) :
  fst (ResNet_forward g x m) = Ok out ->
  exists v features,
    tdata x = F32 v /\
    resnet_trunk (trunk m) (if training m then None else Some (running_stats m))
                 (shape x) v = Ok features /\
    Linear_forward (fc m) features = Ok (rows out) /\
    grad out = g && (params_require_grad m || requires_grad x) /\
    (training m = true ->
     num_batches_tracked (snd (ResNet_forward g x m)) =
       map (fun n => wrap_int64 (n + 1)) (num_batches_tracked m)) /\
    (training m = false -> snd (ResNet_forward g x m) = m).
Proof.
  unfold ResNet_forward. destruct (tdata x) as [l|v]; simpl; [discriminate|].
  destruct (resnet_trunk _ _ _ v) as [features|e] eqn:Htrunk; simpl; [|discriminate].
  destruct (Linear_forward (fc m) features) as [y|e] eqn:Hfc; simpl; [|discriminate].
  intros H; injection H as <-. exists v, features. simpl.
  repeat split; auto.
  - intros ->. reflexivity.
  - intros ->. reflexivity.
Qed.

(** What no pass changes. *)
Lemma ResNet_forward_frame (g : bool) (x : Tensor) (m : ResNet) :
  let m' := snd (ResNet_forward g x m) in
  trunk m' = trunk m /\ fc m' = fc m /\
  params_require_grad m' = params_require_grad m /\ training m' = training m /\
  length (num_batches_tracked m') = length (num_batches_tracked m).
Proof.
  unfold ResNet_forward. destruct (tdata x) as [l|v]; simpl; [auto 6|].
  destruct (resnet_trunk _ _ _ v) as [features|e]; simpl; [|auto 6].
  destruct (Linear_forward (fc m) features) as [y|e]; simpl; [|auto 6].
  destruct (training m) eqn:Ht; simpl; rewrite ?length_map; auto 6.
Qed.

Lemma ResNet_forward_uint8 (g : bool) (x : Tensor) (m : ResNet) :
  dtype x = uint8 ->
  exists msg, ResNet_forward g x m = (Raise (RuntimeError msg), m).
Proof.
  unfold dtype, ResNet_forward. destruct (tdata x); [|discriminate].
  intros _. eexists. reflexivity.
Qed.

Lemma float_dtype (t : Tensor) : dtype (float t) = float32.
Proof.
  unfold float, dtype. destruct (tdata t) eqn:Ht; simpl; [reflexivity|].
  now rewrite Ht.
Qed.

Lemma float_shape (t : Tensor) : shape (float t) = shape t.
Proof. unfold float. now destruct (tdata t). Qed.

Lemma float_requires_grad (t : Tensor) : requires_grad (float t) = requires_grad t.
Proof. unfold float. now destruct (tdata t). Qed.

Lemma wrap_int64_succ_neq (n : Z) : wrap_int64 (n + 1) <> n.
Proof.
  unfold wrap_int64. intros H.
  assert (Hr := Z.mod_pos_bound (n + 1 + 2 ^ 63) (2 ^ 64) ltac:(lia)).
  assert (Hn : (0 <= n + 2 ^ 63 < 2 ^ 64)%Z) by lia.
  destruct (Z.eq_dec (n + 2 ^ 63 + 1) (2 ^ 64)) as [Heq|Hne].
  - replace (n + 1 + 2 ^ 63)%Z with (2 ^ 64)%Z in H by lia.
    rewrite Z.mod_same in H by lia. lia.
  - rewrite Z.mod_small in H by lia. lia.
Qed.

End ModuleFacts.

(** ** Start-up and the invariant of the serving state *)

Section ServiceFacts.
Context {N : Numerics} {E : External}.

Lemma frame_refl (s : Server) : frame s s.
Proof. unfold frame. auto 12. Qed.

Lemma frame_trans (s1 s2 s3 : Server) : frame s1 s2 -> frame s2 s3 -> frame s1 s3.
Proof.
  unfold frame. intros H12 H23.
  decompose [and] H12. decompose [and] H23.
  repeat split; congruence.
Qed.

Lemma on_image_model_call_frame (t : Tensor) :
  preserves frame (on_image_model (FeatureExtractor_call t)).
Proof.
  intros s. unfold on_image_model, FeatureExtractor_call, FeatureExtractor_forward,
    FeatureExtractor_layers.
  pose proof (ResNet_forward_frame true (float t)
                (resnet50 (image_feature_extraction_model s))) as Hf.
  destruct (ResNet_forward true (float t) (resnet50 (image_feature_extraction_model s)))
    as [out net]; simpl in *.
  unfold frame; simpl. decompose [and] Hf. repeat split; assumption.
Qed.

Lemma on_generator_frame {A : Type} (c : M Generator A) :
  preserves frame (on_generator c).
Proof.
  intros s. unfold on_generator. destruct (c (generator s)) as [r g]; simpl.
  unfold frame; simpl. auto 12.
Qed.

Lemma predict_image_embedding_frame (image : UploadFile) :
  preserves frame (predict_image_embedding image).
Proof.
  unfold predict_image_embedding.
  apply preserves_bind; [exact frame_trans | apply preserves_lift, frame_refl |].
  intros im. apply preserves_bind; [exact frame_trans | apply preserves_lift, frame_refl |].
  intros t. apply on_image_model_call_frame.
Qed.

Lemma predict_image_frame (image : UploadFile) : preserves frame (predict_image image).
Proof.
  unfold predict_image.
  apply preserves_bind; [exact frame_trans | apply predict_image_embedding_frame |].
  intros t. apply preserves_bind; [exact frame_trans | apply preserves_lift, frame_refl |].
  intros a. apply preserves_lift, frame_refl.
Qed.

Lemma predict_text_embedding_frame (text : string) :
  preserves frame (predict_text_embedding text).
Proof. intros s. unfold predict_text_embedding. apply on_generator_frame. Qed.

Lemma predict_text_frame (text : string) : preserves frame (predict_text text).
Proof.
  unfold predict_text.
  apply preserves_bind; [exact frame_trans | apply predict_text_embedding_frame |].
  intros t. apply preserves_bind; [exact frame_trans | apply preserves_lift, frame_refl |].
  intros a. apply preserves_lift, frame_refl.
Qed.

Lemma predict_combined_query_frame (image : UploadFile) (text : string) :
  preserves frame (predict_combined_query image text).
Proof.
  unfold predict_combined_query.
  apply preserves_bind; [exact frame_trans | apply predict_image_frame |]. intros ir.
  apply preserves_bind; [exact frame_trans | apply preserves_lift, frame_refl |]. intros ie.
  apply preserves_bind; [exact frame_trans | apply predict_text_frame |]. intros tr.
  apply preserves_bind; [exact frame_trans | apply preserves_lift, frame_refl |]. intros te.
  apply preserves_bind; [exact frame_trans | apply preserves_lift, frame_refl |]. intros e.
  apply preserves_ret, frame_refl.
Qed.

(** The search itself leaves the state as it is. *)
Lemma predict_combined_state (image : UploadFile) (text : string) (s : Server) :
  snd (predict_combined image text s) = snd (predict_combined_query image text s).
Proof.
  unfold predict_combined, bind at 1.
  destruct (predict_combined_query image text s) as [[q|e] s1]; simpl; [|reflexivity].
  unfold bind, lift. now destruct (Index_search (index s1) q 3).
Qed.

Lemma handle_frame (r : Request) : preserves frame (handle r).
Proof.
  destruct r as [|image|text|image text]; simpl.
  - intros s. apply frame_refl.
  - apply predict_image_frame.
  - apply predict_text_frame.
  - intros s. rewrite predict_combined_state. apply predict_combined_query_frame.
Qed.

Lemma Serving_frame (s s' : Server) : Serving s -> frame s s' -> Serving s'.
Proof.
  unfold Serving, frame. intros HS HF.
  decompose [and] HS. decompose [and] HF.
  repeat split; congruence.
Qed.

(** What a successful start-up has loaded. *)
Lemma startup_Ok (env : Env) (s : Server) :
  startup env = Ok s ->
  exists dec pre bw isd tsd idx,
    decoder_pickle env = Some dec /\
    resnet50_IMAGENET1K_V1 env = Some pre /\ image_state_dict_ok pre = true /\
    bert_base_cased env = Some bw /\
    image_model_pt env = Some isd /\ image_state_dict_ok isd = true /\
    text_model_pt env = Some tsd /\
    Linear_shapes_ok 768 1000 (sd_linear_weight tsd) (sd_linear_bias tsd) = true /\
    faiss_pickle env = Some idx /\
    s = {| device := if cuda_is_available env then cuda else cpu;
           decoder := dec;
           image_feature_extraction_model :=
             {| resnet50 :=
                  {| trunk := sd_trunk isd;
                     running_stats := sd_running_stats isd;
                     num_batches_tracked := sd_num_batches_tracked isd;
                     fc := {| in_features := 2048; out_features := 1000;
                              weight := sd_fc_weight isd; bias := sd_fc_bias isd |};
                     params_require_grad := true;
                     training := true |};
                self_decoder := Some dec |};
           text_feature_extraction_model :=
             {| bert := sd_bert tsd;
                bert_requires_grad := false;
                dropout_training := true;
                linear := {| in_features := 768; out_features := 1000;
                             weight := sd_linear_weight tsd; bias := sd_linear_bias tsd |};
                linear_requires_grad := true |};
           index := idx;
           generator := default_generator env |}.
Proof.
  unfold startup, load_models, load_index, read_file.
  destruct (decoder_pickle env) as [dec|]; simpl; [|discriminate].
  destruct (resnet50_IMAGENET1K_V1 env) as [pre|]; simpl; [|discriminate].
  unfold FeatureExtractor_init, models_resnet50, ResNet_load_state_dict.
  destruct (image_state_dict_ok pre) eqn:Hpre; simpl; [|discriminate].
  destruct (bert_base_cased env) as [bw|]; simpl; [|discriminate].
  destruct (image_model_pt env) as [isd|]; simpl; [|discriminate].
  unfold FeatureExtractor_load_state_dict, ResNet_load_state_dict; simpl.
  destruct (image_state_dict_ok isd) eqn:Hisd; simpl; [|discriminate].
  destruct (text_model_pt env) as [tsd|]; simpl; [|discriminate].
  unfold BertNeuralNetwork_load_state_dict; simpl.
  destruct (Linear_shapes_ok 768 1000 _ _) eqn:Htsd; simpl; [|discriminate].
  destruct (faiss_pickle env) as [idx|]; simpl; [|discriminate].
  intros H; injection H as <-.
  exists dec, pre, bw, isd, tsd, idx. repeat split; auto.
Qed.

Lemma startup_Serving (env : Env) (s : Server) : startup env = Ok s -> Serving s.
Proof.
  intros H. destruct (startup_Ok env s H)
    as (dec & pre & bw & isd & tsd & idx & _ & _ & _ & _ & _ & Hisd & _ & Htsd & _ & ->).
  unfold image_state_dict_ok in Hisd. apply andb_true_iff in Hisd as [Hfc Hbn].
  apply Linear_shapes_ok_lengths in Hfc as [Hw Hb].
  apply Linear_shapes_ok_lengths in Htsd as [Hw' Hb'].
  apply Nat.eqb_eq in Hbn.
  unfold Serving; simpl. repeat split; assumption.
Qed.

Lemma Reachable_Serving (env : Env) (s : Server) : Reachable env s -> Serving s.
Proof.
  induction 1 as [s H|s r _ IH].
  - now apply startup_Serving with env.
  - apply Serving_frame with s; [assumption | apply handle_frame].
Qed.

End ServiceFacts.

(** ** The handlers *)

Section HandlerFacts.
Context {N : Numerics} {E : External}.

(** The model call of [predict_image] is a pass of ResNet-50, with grad mode
    on, over the float cast of the tensor; only the network inside the image
    model is replaced. *)
Lemma on_image_model_forward (tensor : Tensor) (s : Server) :
  on_image_model (FeatureExtractor_forward tensor) s =
    (fst (ResNet_forward true (float tensor) (resnet50 (image_feature_extraction_model s))),
     {| device := device s;
        decoder := decoder s;
        image_feature_extraction_model :=
          {| resnet50 := snd (ResNet_forward true (float tensor)
                                (resnet50 (image_feature_extraction_model s)));
             self_decoder := self_decoder (image_feature_extraction_model s) |};
        text_feature_extraction_model := text_feature_extraction_model s;
        index := index s;
        generator := generator s |}).
Proof.
  unfold on_image_model, FeatureExtractor_forward, FeatureExtractor_layers.
  now destruct (ResNet_forward true (float tensor) _).
Qed.

Lemma on_image_model_predict (tensor : Tensor) (s : Server) :
  fst (on_image_model (FeatureExtractor_predict tensor) s) =
    fst (ResNet_forward false tensor (resnet50 (image_feature_extraction_model s))).
Proof.
  unfold on_image_model, FeatureExtractor_predict, FeatureExtractor_layers.
  now destruct (ResNet_forward false tensor _).
Qed.

Lemma predict_image_embedding_Ok (image : UploadFile) (s : Server) (t : Tensor2) :
  fst (predict_image_embedding image s) = Ok t ->
  exists pil_image image_tensor,
    Image_open image = Ok pil_image /\
    process_image_as_pil pil_image image_size_default = Ok image_tensor /\
    predict_image_embedding image s =
      on_image_model (FeatureExtractor_forward image_tensor) s.
Proof.
  unfold predict_image_embedding, bind, lift.
  destruct (Image_open image) as [im|e]; simpl; [|discriminate].
  destruct (process_image_as_pil im image_size_default) as [tensor|e] eqn:Hproc;
    simpl; [|discriminate].
  intros _. exists im, tensor. repeat split. exact Hproc.
Qed.

(** In a serving state the image embedding is one row of 1000 values, and
    the tensor the model returned requires grad. *)
Lemma predict_image_embedding_row (image : UploadFile) (s : Server) (t : Tensor2) :
  Serving s ->
  fst (predict_image_embedding image s) = Ok t ->
  grad t = true /\ exists row, rows t = [row] /\ length row = 1000.
Proof.
  intros HS Ht.
  destruct (predict_image_embedding_Ok image s t Ht) as (im & tensor & _ & Hproc & Heq).
  rewrite Heq, on_image_model_forward in Ht. simpl in Ht.
  destruct (ResNet_forward_Ok _ _ _ _ Ht) as (v & features & _ & Htrunk & Hfc & Hgrad & _).
  destruct HS as (_ & Hreq & Hw & Hb & _).
  split.
  - rewrite Hgrad, Hreq. reflexivity.
  - apply resnet_trunk_rows in Htrunk.
    rewrite float_shape, (process_image_as_pil_batch _ _ _ Hproc) in Htrunk.
    destruct (Linear_forward_shape _ _ _ Hfc) as [Hlen Hrows].
    rewrite Htrunk in Hlen. rewrite Hw, Hb in Hrows.
    destruct (rows t) as [|row [|row' rest]]; try discriminate.
    exists row. split; [reflexivity|]. now inversion Hrows.
Qed.

Lemma tolist_one_row (row : list f32) :
  tolist [row] = JArray [JArray (map JFloat (map f64_of_f32 row))].
Proof. unfold tolist; simpl. now rewrite map_map. Qed.

Lemma predict_image_eq (image : UploadFile) (s : Server) :
  predict_image image s =
    match predict_image_embedding image s with
    | (Ok t, s1) => (JSONResponse (JObject [("features", tolist (rows t))]), s1)
    | (Raise e, s1) => (Raise e, s1)
    end.
Proof.
  unfold predict_image, bind, lift.
  now destruct (predict_image_embedding image s) as [[t|e] s1].
Qed.

Lemma JSONResponse_Ok (content : JSON) (resp : Response) :
  JSONResponse content = Ok resp -> resp = {| status_code := 200; body := content |}.
Proof.
  unfold JSONResponse. destruct (json_allowed content); [|discriminate].
  now intros H; injection H as <-.
Qed.

Lemma predict_image_Ok (image : UploadFile) (s : Server) (resp : Response) :
  fst (predict_image image s) = Ok resp ->
  exists t, fst (predict_image_embedding image s) = Ok t /\
            resp = {| status_code := 200;
                      body := JObject [("features", tolist (rows t))] |} /\
            snd (predict_image image s) = snd (predict_image_embedding image s).
Proof.
  rewrite predict_image_eq.
  destruct (predict_image_embedding image s) as [[t|e] s1]; simpl; [|discriminate].
  intros H. apply JSONResponse_Ok in H. now exists t.
Qed.

Lemma dropout_rows_length (x : list (list f32)) (g : Generator) :
  length (fst (dropout_rows x g)) = length x.
Proof.
  revert g. induction x as [|r x IH]; intros g; simpl; [reflexivity|].
  specialize (IH {| stream := stream g; offset := offset g + length r |}).
  destruct (dropout_rows x _) as [rest g2]; simpl in *. now rewrite IH.
Qed.

(** The text embedding in a serving state: the pooled output of the encoder,
    masked by Dropout with bits drawn from the generator, then projected by
    the Linear layer.  The generator is left advanced. *)
Lemma predict_text_embedding_Ok (text : string) (s : Server) (t : Tensor2) :
  Serving s ->
  fst (predict_text_embedding text s) = Ok t ->
  exists pooled,
    bert_pooler_output (bert (text_feature_extraction_model s))
      (view_1 (fst (tokenizer text))) (view_1 (snd (tokenizer text))) = Ok pooled /\
    Linear_forward (linear (text_feature_extraction_model s))
      (fst (dropout_rows pooled (generator s))) = Ok (rows t) /\
    generator (snd (predict_text_embedding text s)) = snd (dropout_rows pooled (generator s)).
Proof.
  intros HS. destruct HS as (_ & _ & _ & _ & _ & Hdrop & _).
  unfold predict_text_embedding, on_generator, BertNeuralNetwork_call,
    BertNeuralNetwork_forward, BertNeuralNetwork_body, bind, lift, ret, Dropout_forward.
  rewrite Hdrop.
  destruct (bert_pooler_output _ _ _) as [pooled|e]; simpl; [|discriminate].
  destruct (dropout_rows pooled (generator s)) as [dropped g'] eqn:Hd; simpl.
  destruct (Linear_forward _ dropped) as [out|e] eqn:Hl; simpl; [|discriminate].
  intros H; injection H as <-. exists pooled. simpl. now rewrite Hd.
Qed.

Lemma predict_text_embedding_row (text : string) (s : Server) (t : Tensor2) :
  Serving s ->
  fst (predict_text_embedding text s) = Ok t ->
  exists row, rows t = [row] /\ length row = 1000.
Proof.
  intros HS Ht.
  destruct (predict_text_embedding_Ok text s t HS Ht) as (pooled & Hbert & Hlin & _).
  destruct HS as (_ & _ & _ & _ & _ & _ & _ & Hw & Hb).
  apply bert_pooler_output_rows in Hbert. simpl in Hbert.
  destruct (Linear_forward_shape _ _ _ Hlin) as [Hlen Hrows].
  rewrite dropout_rows_length, Hbert in Hlen. rewrite Hw, Hb in Hrows.
  destruct (rows t) as [|row [|row' rest]]; try discriminate.
  exists row. split; [reflexivity|]. now inversion Hrows.
Qed.

Lemma predict_text_eq (text : string) (s : Server) :
  predict_text text s =
    match predict_text_embedding text s with
    | (Ok t, s1) => (JSONResponse (JObject [("features", tolist (rows t))]), s1)
    | (Raise e, s1) => (Raise e, s1)
    end.
Proof.
  unfold predict_text, bind, lift.
  now destruct (predict_text_embedding text s) as [[t|e] s1].
Qed.

Lemma predict_text_Ok (text : string) (s : Server) (resp : Response) :
  fst (predict_text text s) = Ok resp ->
  exists t, fst (predict_text_embedding text s) = Ok t /\
            resp = {| status_code := 200;
                      body := JObject [("features", tolist (rows t))] |} /\
            snd (predict_text text s) = snd (predict_text_embedding text s).
Proof.
  rewrite predict_text_eq.
  destruct (predict_text_embedding text s) as [[t|e] s1]; simpl; [|discriminate].
  intros H. apply JSONResponse_Ok in H. now exists t.
Qed.

End HandlerFacts.

(** ** The combined route *)

Section CombinedFacts.
Context {N : Numerics} {E : External}.

Lemma floats_of_map_JFloat (xs : list f64) : floats_of (map JFloat xs) = Some xs.
Proof.
  induction xs as [|x xs IH]; simpl; [reflexivity|]. now rewrite IH.
Qed.

(** Read back by [predict_combined], a one-row [features] value is a 2-D
    array with that row. *)
Lemma features_array_one_row (code : nat) (row : list f32) :
  features_array {| status_code := code;
                    body := JObject [("features", tolist [row])] |} =
    Ok (Arr2 [map f64_of_f32 row]).
Proof.
  rewrite tolist_one_row.
  unfold features_array, json_loads, getitem, np_array; simpl.
  now rewrite floats_of_map_JFloat.
Qed.

(** A flat [features] value would be a 1-D array, which the concatenation
    along axis 1 refuses. *)
Lemma flat_features_refused (xs ys : list f64) :
  exists msg, np_concatenate_axis1 (Arr1 xs) (Arr1 ys) = Raise (AxisError msg).
Proof. eexists. reflexivity. Qed.

Lemma astype_float32_tolist (xi xt : list f32) :
  astype_float32 [map f64_of_f32 xi ++ map f64_of_f32 xt] = [xi ++ xt].
Proof.
  unfold astype_float32; simpl. rewrite map_app, !map_map.
  f_equal. f_equal; (rewrite <- map_id; apply map_ext; intros x; apply f32_of_f64_of_f32).
Qed.

Lemma predict_combined_query_eq (image : UploadFile) (text : string) (s : Server) :
  predict_combined_query image text s =
    match predict_image image s with
    | (Raise e, s1) => (Raise e, s1)
    | (Ok image_response, s1) =>
        match features_array image_response with
        | Raise e => (Raise e, s1)
        | Ok image_embeddings =>
            match predict_text text s1 with
            | (Raise e, s2) => (Raise e, s2)
            | (Ok text_response, s2) =>
                match features_array text_response with
                | Raise e => (Raise e, s2)
                | Ok text_embeddings =>
                    match np_concatenate_axis1 image_embeddings text_embeddings with
                    | Raise e => (Raise e, s2)
                    | Ok embeddings => (Ok (astype_float32 embeddings), s2)
                    end
                end
            end
        end
    end.
Proof.
  unfold predict_combined_query, bind, lift, ret.
  destruct (predict_image image s) as [[ir|e] s1]; [|reflexivity].
  destruct (features_array ir); [|reflexivity].
  destruct (predict_text text s1) as [[tr|e] s2]; [|reflexivity].
  destruct (features_array tr); [|reflexivity].
  now destruct (np_concatenate_axis1 _ _).
Qed.

(** The array handed to the index: the image handler is run, then the text
    handler on the state the image handler left; each answers with one row of
    1000 values, and the query is the single row made of the first followed
    by the second. *)
Lemma predict_combined_query_Ok (image : UploadFile) (text : string) (s : Server)
  (q : list (list f32)) :
  Serving s ->
  fst (predict_combined_query image text s) = Ok q ->
  exists image_response text_response xi xt,
    fst (predict_image image s) = Ok image_response /\
    fst (predict_text text (snd (predict_image image s))) = Ok text_response /\
    body image_response = JObject [("features", tolist [xi])] /\
    body text_response = JObject [("features", tolist [xt])] /\
    length xi = 1000 /\ length xt = 1000 /\
    q = [xi ++ xt] /\
    snd (predict_combined_query image text s) =
      snd (predict_text text (snd (predict_image image s))).
Proof.
  intros HS. rewrite predict_combined_query_eq.
  destruct (predict_image image s) as [[ir|e] s1] eqn:Himg; simpl; [|discriminate].
  assert (Hir : fst (predict_image image s) = Ok ir) by now rewrite Himg.
  assert (HS1 : Serving s1).
  { apply Serving_frame with s; [assumption|].
    pose proof (predict_image_frame image s) as Hf. now rewrite Himg in Hf. }
  destruct (predict_image_Ok _ _ _ Hir) as (ti & Hti & -> & _).
  destruct (predict_image_embedding_row _ _ _ HS Hti) as (_ & xi & Hxi & Hlen_i).
  rewrite Hxi, features_array_one_row.
  destruct (predict_text text s1) as [[tr|e] s2] eqn:Htxt; simpl; [|discriminate].
  assert (Htr : fst (predict_text text s1) = Ok tr) by now rewrite Htxt.
  destruct (predict_text_Ok _ _ _ Htr) as (tt & Htt & -> & _).
  destruct (predict_text_embedding_row _ _ _ HS1 Htt) as (xt & Hxt & Hlen_t).
  rewrite Hxt, features_array_one_row. simpl.
  intros H; injection H as <-.
  exists {| status_code := 200; body := JObject [("features", tolist [xi])] |},
         {| status_code := 200; body := JObject [("features", tolist [xt])] |}, xi, xt.
  repeat split; try assumption; try reflexivity.
  change (astype_float32 [map f64_of_f32 xi ++ map f64_of_f32 xt] = [xi ++ xt]).
  apply astype_float32_tolist.
Qed.

(** [predict_combined] hands that array to the index with [k = 3] and
    answers with the labels, in the order the index returned them. *)
Lemma predict_combined_Ok (image : UploadFile) (text : string) (s : Server)
  (resp : Response) :
  fst (predict_combined image text s) = Ok resp ->
  exists q,
    fst (predict_combined_query image text s) = Ok q /\
    let s1 := snd (predict_combined_query image text s) in
    Index_search (index s1) q 3 = Ok (index_search (index s1) q 3) /\
    resp = {| status_code := 200;
              body := JObject [("similar_index",
                                tolist_int (snd (index_search (index s1) q 3)))] |}.
Proof.
  unfold predict_combined, bind at 1.
  destruct (predict_combined_query image text s) as [[q|e] s1]; simpl; [|discriminate].
  unfold bind, lift.
  destruct (Index_search (index s1) q 3) as [found|e] eqn:Hsearch; simpl; [|discriminate].
  intros H. apply JSONResponse_Ok in H. exists q.
  assert (Hfound : found = index_search (index s1) q 3).
  { unfold Index_search in Hsearch. destruct (forallb _ q); [|discriminate].
    now injection Hsearch as <-. }
  subst found. repeat split; assumption.
Qed.

End CombinedFacts.

(** ** Further facts used by the claims *)

Section ClaimSupport.
Context {N : Numerics} {E : External}.

Lemma predict_combined_fst (image : UploadFile) (text : string) (s : Server)
  (q : list (list f32)) :
  fst (predict_combined_query image text s) = Ok q ->
  fst (predict_combined image text s) =
    bindR (Index_search (index s) q 3)
          (fun found => JSONResponse (JObject [("similar_index", tolist_int (snd found))])).
Proof.
  pose proof (predict_combined_query_frame image text s) as Hf.
  unfold predict_combined, bind at 1.
  destruct (predict_combined_query image text s) as [[q'|e] s1]; simpl in *; [|discriminate].
  intros H; injection H as ->.
  destruct Hf as (_ & _ & _ & Hidx & _). rewrite <- Hidx.
  unfold bind, lift. now destruct (Index_search (index s1) q 3).
Qed.

Lemma one_row_not_flat (n : nat) (row : list JSON) :
  1 < n -> ~ flat_floats n (JArray [JArray row]).
Proof.
  intros Hn (xs & Heq & Hlen). injection Heq as Heq.
  destruct xs as [|x [|x' xs]]; simpl in *; try discriminate; lia.
Qed.

Lemma startup_Raise (env : Env) (e : Exn) :
  startup env = Raise e -> exists msg, e = OSError msg.
Proof.
  unfold startup. destruct (load_models env) as [[[[dev dec] im] tm]|e'].
  - destruct (load_index env); [discriminate|].
    intros H; injection H as <-. eexists; reflexivity.
  - intros H; injection H as <-. eexists; reflexivity.
Qed.

Lemma startup_needs_every_artifact (env : Env) (s : Server) :
  startup env = Ok s -> ~ load_failure env.
Proof.
  intros H. destruct (startup_Ok env s H)
    as (dec & pre & bw & isd & tsd & idx & Hd & _ & _ & _ & Hi & Hisd & Ht & Htsd & Hx & _).
  intros [F|[F|[(sd & F & Hbad)|[F|[(sd & F & Hbad)|F]]]]]; congruence.
Qed.

Lemma Reachable_started (env : Env) (s : Server) :
  Reachable env s -> exists s0, startup env = Ok s0.
Proof. induction 1 as [s H|s r _ IH]; [now exists s | exact IH]. Qed.

(** Simulation: a handler run in two states that differ only in the decoder
    answers the same and leaves two such states. *)
Lemma respects_on_image_model_call (t : Tensor) :
  respects same_up_to_decoder (on_image_model (FeatureExtractor_call t)).
Proof.
  intros s1 s2 (Hd & Hr & Ht & Hi & Hg).
  unfold on_image_model, FeatureExtractor_call, FeatureExtractor_forward,
    FeatureExtractor_layers. rewrite Hr.
  destruct (ResNet_forward true (float t) _) as [out net]; simpl.
  split; [reflexivity|]. unfold same_up_to_decoder; simpl. auto.
Qed.

Lemma respects_predict_image (image : UploadFile) :
  respects same_up_to_decoder (predict_image image).
Proof.
  unfold predict_image, predict_image_embedding.
  repeat (apply respects_bind; [|intros ?]);
    try apply respects_lift; apply respects_on_image_model_call.
Qed.

Lemma respects_predict_text (text : string) :
  respects same_up_to_decoder (predict_text text).
Proof.
  unfold predict_text.
  apply respects_bind; [|intros t; apply respects_bind; [|intros a]; apply respects_lift].
  intros s1 s2 (Hd & Hr & Ht & Hi & Hg).
  unfold predict_text_embedding, on_generator. rewrite Ht, Hg.
  destruct (BertNeuralNetwork_call _ _ _) as [out g]; simpl.
  split; [reflexivity|]. unfold same_up_to_decoder; simpl. auto.
Qed.

Lemma respects_predict_combined (image : UploadFile) (text : string) :
  respects same_up_to_decoder (predict_combined image text).
Proof.
  unfold predict_combined, predict_combined_query.
  apply respects_bind.
  - apply respects_bind; [apply respects_predict_image | intros ir].
    apply respects_bind; [apply respects_lift | intros ie].
    apply respects_bind; [apply respects_predict_text | intros tr].
    apply respects_bind; [apply respects_lift | intros te].
    apply respects_bind; [apply respects_lift | intros e]. apply respects_ret.
  - intros q s1 s2 H. pose proof H as (_ & _ & _ & Hi & _).
    unfold bind, lift. rewrite Hi.
    destruct (Index_search (index s2) q 3); simpl; now split.
Qed.

Lemma respects_handle (r : Request) : respects same_up_to_decoder (handle r).
Proof.
  destruct r as [|image|text|image text]; simpl.
  - apply respects_ret.
  - apply respects_predict_image.
  - apply respects_predict_text.
  - apply respects_predict_combined.
Qed.

Lemma serve_respects (requests : list Request) (s1 s2 : Server) :
  same_up_to_decoder s1 s2 -> fst (serve requests s1) = fst (serve requests s2).
Proof.
  revert s1 s2. induction requests as [|r rest IH]; intros s1 s2 H; simpl; [reflexivity|].
  destruct (respects_handle r s1 s2 H) as [Hfst Hsnd].
  destruct (handle r s1) as [resp1 t1], (handle r s2) as [resp2 t2]; simpl in *.
  specialize (IH t1 t2 Hsnd).
  destruct (serve rest t1), (serve rest t2); simpl in *. congruence.
Qed.

Lemma startup_same_up_to_decoder (env : Env) (d1 d2 : Decoder) (s1 s2 : Server) :
  startup (with_decoder d1 env) = Ok s1 ->
  startup (with_decoder d2 env) = Ok s2 ->
  same_up_to_decoder s1 s2.
Proof.
  intros H1 H2.
  destruct (startup_Ok _ _ H1)
    as (dec & pre & bw & isd & tsd & idx & _ & _ & _ & _ & Hi & _ & Ht & _ & Hx & ->).
  destruct (startup_Ok _ _ H2)
    as (dec' & pre' & bw' & isd' & tsd' & idx' & _ & _ & _ & _ & Hi' & _ & Ht' & _ & Hx' & ->).
  simpl in *. rewrite Hi in Hi'. rewrite Ht in Ht'. rewrite Hx in Hx'.
  injection Hi' as <-. injection Ht' as <-. injection Hx' as <-.
  unfold same_up_to_decoder; simpl. auto.
Qed.

End ClaimSupport.

(** ** When a request goes through *)

Section Success.
Context {N : Numerics} {E : External}.

Lemma tdata_float (t : Tensor) : tdata (float t) = F32 (float_data t).
Proof.
  unfold float_data. pose proof (float_dtype t) as H. unfold dtype in H.
  now destruct (tdata (float t)).
Qed.

Lemma json_allowed_tolist (a : list (list f32)) :
  (forall x : f32, f64_isfinite (f64_of_f32 x) = true) ->
  json_allowed (JObject [("features", tolist a)]) = true.
Proof.
  intros Hfin. simpl. rewrite andb_true_r.
  apply forallb_forall. intros j Hj. apply in_map_iff in Hj as (r & <- & _). simpl.
  apply forallb_forall. intros j Hj. apply in_map_iff in Hj as (x & <- & _). simpl.
  apply Hfin.
Qed.

Lemma json_allowed_tolist_int (a : list (list Z)) :
  json_allowed (JObject [("similar_index", tolist_int a)]) = true.
Proof.
  simpl. rewrite andb_true_r.
  apply forallb_forall. intros j Hj. apply in_map_iff in Hj as (r & <- & _). simpl.
  apply forallb_forall. intros j Hj. apply in_map_iff in Hj as (x & <- & _). reflexivity.
Qed.

(** The image route answers whenever the upload decodes, the preprocessing
    returns, the trunk returns features of the width [fc] expects, and the
    values can be written as JSON. *)
Lemma predict_image_succeeds (image : UploadFile) (s : Server)
  (pil_image : Image) (image_tensor : Tensor) (features : list (list f32)) :
  let net := resnet50 (image_feature_extraction_model s) in
  Image_open image = Ok pil_image ->
  process_image_as_pil pil_image image_size_default = Ok image_tensor ->
  resnet_trunk (trunk net) (if training net then None else Some (running_stats net))
    (shape image_tensor) (float_data image_tensor) = Ok features ->
  forallb (fun r => length r =? in_features (fc net)) features = true ->
  (forall x : f32, f64_isfinite (f64_of_f32 x) = true) ->
  exists resp, fst (predict_image image s) = Ok resp.
Proof.
  intros net Hopen Hproc Htrunk Hwidth Hfin.
  rewrite predict_image_eq.
  unfold predict_image_embedding, bind, lift. rewrite Hopen, Hproc.
  unfold FeatureExtractor_call. rewrite on_image_model_forward.
  unfold ResNet_forward. rewrite tdata_float, float_shape. fold net.
  rewrite Htrunk. unfold Linear_forward. rewrite Hwidth. cbn [fst rows].
  unfold JSONResponse. rewrite json_allowed_tolist by assumption.
  eexists. reflexivity.
Qed.

Lemma dropout_rows_widths (n : nat) (x : list (list f32)) (g : Generator) :
  forallb (fun r => length r =? n) (fst (dropout_rows x g)) =
  forallb (fun r => length r =? n) x.
Proof.
  revert g. induction x as [|r x IH]; intros g; simpl; [reflexivity|].
  specialize (IH {| stream := stream g; offset := offset g + length r |}).
  destruct (dropout_rows x _) as [rest g2]; simpl in *.
  rewrite IH, length_map, length_combine, length_map, length_seq, Nat.min_id.
  reflexivity.
Qed.

(** The text route answers whenever the encoder returns pooled rows of the
    width the Linear layer expects and the values can be written as JSON. *)
Lemma predict_text_succeeds (text : string) (s : Server) (pooled : list (list f32)) :
  let txt := text_feature_extraction_model s in
  bert_pooler_output (bert txt) (view_1 (fst (tokenizer text)))
    (view_1 (snd (tokenizer text))) = Ok pooled ->
  forallb (fun r => length r =? in_features (linear txt)) pooled = true ->
  (forall x : f32, f64_isfinite (f64_of_f32 x) = true) ->
  exists resp, fst (predict_text text s) = Ok resp.
Proof.
  intros txt Hbert Hwidth Hfin.
  rewrite predict_text_eq.
  unfold predict_text_embedding, on_generator, BertNeuralNetwork_call,
    BertNeuralNetwork_forward, BertNeuralNetwork_body, bind, lift, ret.
  fold txt. cbn [input_ids attention_mask]. rewrite Hbert.
  assert (Hdrop : exists y g',
             Dropout_forward (dropout_training txt) pooled (generator s) = (Ok y, g') /\
             forallb (fun r => length r =? in_features (linear txt)) y = true).
  { unfold Dropout_forward. destruct (dropout_training txt).
    - pose proof (dropout_rows_widths (in_features (linear txt)) pooled (generator s)) as Hw.
      destruct (dropout_rows pooled (generator s)) as [y g']; simpl in Hw.
      exists y, g'. split; [reflexivity | now rewrite Hw].
    - now exists pooled, (generator s). }
  destruct Hdrop as (y & g' & -> & Hy).
  unfold Linear_forward. rewrite Hy. cbn [fst rows].
  unfold JSONResponse. rewrite json_allowed_tolist by assumption.
  eexists. reflexivity.
Qed.

(** The combined route answers whenever its two sub-calls do and the index
    holds vectors of dimension 2000. *)
Lemma predict_combined_succeeds (image : UploadFile) (text : string) (s : Server)
  (image_response text_response : Response) :
  Serving s ->
  fst (predict_image image s) = Ok image_response ->
  fst (predict_text text (snd (predict_image image s))) = Ok text_response ->
  index_d (index s) = 2000 ->
  exists q resp,
    fst (predict_combined_query image text s) = Ok q /\
    fst (predict_combined image text s) = Ok resp.
Proof.
  intros HS Hir Htr Hd.
  assert (HS1 : Serving (snd (predict_image image s))).
  { apply Serving_frame with s; [assumption | apply predict_image_frame]. }
  destruct (predict_image_Ok _ _ _ Hir) as (ti & Hti & -> & _).
  destruct (predict_image_embedding_row _ _ _ HS Hti) as (_ & xi & Hxi & Hlen_i).
  destruct (predict_text_Ok _ _ _ Htr) as (tt & Htt & -> & _).
  destruct (predict_text_embedding_row _ _ _ HS1 Htt) as (xt & Hxt & Hlen_t).
  assert (Hq : fst (predict_combined_query image text s) = Ok [xi ++ xt]).
  { rewrite predict_combined_query_eq.
    destruct (predict_image image s) as [r1 s1]; simpl in *. subst r1.
    rewrite Hxi, features_array_one_row.
    destruct (predict_text text s1) as [r2 s2]; simpl in *. subst r2.
    rewrite Hxt, features_array_one_row. simpl.
    f_equal. change (astype_float32 [map f64_of_f32 xi ++ map f64_of_f32 xt] = [xi ++ xt]).
    apply astype_float32_tolist. }
  exists [xi ++ xt]. eexists. split; [exact Hq|].
  rewrite (predict_combined_fst _ _ _ _ Hq).
  unfold Index_search. cbn [forallb].
  rewrite length_app, Hlen_i, Hlen_t, Hd.
  change (1000 + 1000) with 2000. rewrite Nat.eqb_refl. cbn [andb bindR].
  unfold JSONResponse. rewrite json_allowed_tolist_int. reflexivity.
Qed.

End Success.

Section StartupSuccess.
Context {N : Numerics} {E : External}.

(** Start-up completes when every file is there and the shapes fit. *)
Lemma startup_succeeds (env : Env) (dec : Decoder) (pre isd : ImageStateDict)
  (bw : BertWeights) (tsd : TextStateDict) (idx : Index) :
  decoder_pickle env = Some dec ->
  resnet50_IMAGENET1K_V1 env = Some pre -> image_state_dict_ok pre = true ->
  bert_base_cased env = Some bw ->
  image_model_pt env = Some isd -> image_state_dict_ok isd = true ->
  text_model_pt env = Some tsd ->
  Linear_shapes_ok 768 1000 (sd_linear_weight tsd) (sd_linear_bias tsd) = true ->
  faiss_pickle env = Some idx ->
  startup env =
    Ok {| device := if cuda_is_available env then cuda else cpu;
          decoder := dec;
          image_feature_extraction_model :=
            {| resnet50 :=
                 {| trunk := sd_trunk isd;
                    running_stats := sd_running_stats isd;
                    num_batches_tracked := sd_num_batches_tracked isd;
                    fc := {| in_features := 2048; out_features := 1000;
                             weight := sd_fc_weight isd; bias := sd_fc_bias isd |};
                    params_require_grad := true;
                    training := true |};
               self_decoder := Some dec |};
          text_feature_extraction_model :=
            {| bert := sd_bert tsd;
               bert_requires_grad := false;
               dropout_training := true;
               linear := {| in_features := 768; out_features := 1000;
                            weight := sd_linear_weight tsd; bias := sd_linear_bias tsd |};
               linear_requires_grad := true |};
          index := idx;
          generator := default_generator env |}.
Proof.
  intros Hd Hp Hpok Hb Hi Hiok Ht Htok Hx.
  unfold startup, load_models, load_index, read_file.
  rewrite Hd, Hp, Hb, Hi, Ht, Hx. cbn [bindR].
  unfold FeatureExtractor_init, models_resnet50, ResNet_load_state_dict.
  rewrite Hpok. cbn [bindR].
  unfold FeatureExtractor_load_state_dict, ResNet_load_state_dict.
  cbn [resnet50 self_decoder]. rewrite Hiok. cbn [bindR].
  unfold BertNeuralNetwork_load_state_dict. rewrite Htok. reflexivity.
Qed.

Lemma Linear_shapes_ok_intro (n_in n_out : nat) (w : list (list f32)) (b : list f32) :
  length w = n_out -> (forall r, In r w -> length r = n_in) -> length b = n_out ->
  Linear_shapes_ok n_in n_out w b = true.
Proof.
  intros Hw Hr Hb. unfold Linear_shapes_ok.
  rewrite !andb_true_iff, !Nat.eqb_eq. repeat split; try assumption.
  apply forallb_forall. intros r Hin. apply Nat.eqb_eq. now apply Hr.
Qed.

Lemma image_state_dict_ok_intro (sd : ImageStateDict) :
  Linear_shapes_ok 2048 1000 (sd_fc_weight sd) (sd_fc_bias sd) = true ->
  length (sd_num_batches_tracked sd) = resnet50_bn_layers ->
  image_state_dict_ok sd = true.
Proof.
  intros Hfc Hbn. unfold image_state_dict_ok. rewrite Hfc, Hbn. apply Nat.eqb_refl.
Qed.

End StartupSuccess.

(** ** The concrete instance at work *)

Lemma toy_image_sd_ok : image_state_dict_ok Toy.image_sd = true.
Proof.
  apply image_state_dict_ok_intro.
  - apply Linear_shapes_ok_intro.
    + unfold Toy.image_sd, sd_fc_weight. now rewrite length_map, length_seq.
    + unfold Toy.image_sd, sd_fc_weight. intros r Hr.
      apply in_map_iff in Hr as (i & <- & _). apply repeat_length.
    + unfold Toy.image_sd, sd_fc_bias. now rewrite length_map, length_seq.
  - unfold Toy.image_sd, sd_num_batches_tracked. apply repeat_length.
Qed.

Lemma toy_text_sd_ok :
  Linear_shapes_ok 768 1000 (sd_linear_weight Toy.text_sd) (sd_linear_bias Toy.text_sd) = true.
Proof.
  apply Linear_shapes_ok_intro.
  - unfold Toy.text_sd, sd_linear_weight. now rewrite length_map, length_seq.
  - unfold Toy.text_sd, sd_linear_weight. intros r Hr.
    apply in_map_iff in Hr as (i & <- & _). apply repeat_length.
  - unfold Toy.text_sd, sd_linear_bias. now rewrite length_map, length_seq.
Qed.

Lemma toy_startup : startup Toy.env = Ok Toy.server.
Proof.
  exact (startup_succeeds Toy.env _ Toy.image_sd Toy.image_sd 1%Z Toy.text_sd Toy.stored
           eq_refl eq_refl toy_image_sd_ok eq_refl eq_refl toy_image_sd_ok
           eq_refl toy_text_sd_ok eq_refl).
Qed.

Lemma toy_reachable : Reachable Toy.env Toy.server.
Proof. apply Reachable_startup, toy_startup. Qed.

Lemma toy_finite : forall x : @f32 Toy.numerics, f64_isfinite (f64_of_f32 x) = true.
Proof. reflexivity. Qed.

(** The image route answers on the toy trunk for every decodable image with
    at least one pixel. *)
Lemma toy_predict_image (im : Image) (s : Server) :
  0 < width im -> 0 < height im ->
  resnet50 (image_feature_extraction_model s) =
    resnet50 (image_feature_extraction_model Toy.server) ->
  exists resp, fst (predict_image (Toy.upload im) s) = Ok resp.
Proof.
  intros Hw Hh Hnet.
  destruct (process_image_as_pil_Ok (E:=Toy.external) im image_size_default Hw Hh)
    as (tensor & Hproc & Hshape & _).
  eapply (predict_image_succeeds (Toy.upload im) s im tensor).
  - reflexivity.
  - exact Hproc.
  - rewrite Hnet, Hshape. reflexivity.
  - rewrite Hnet. cbn [forallb repeat]. rewrite length_map, length_seq. reflexivity.
  - exact toy_finite.
Qed.

(** The text route answers on the toy encoder for every text. *)
Lemma toy_predict_text (text : string) (s : Server) :
  text_feature_extraction_model s = text_feature_extraction_model Toy.server ->
  exists resp, fst (predict_text text s) = Ok resp.
Proof.
  intros Htxt.
  eapply (predict_text_succeeds text s).
  - rewrite Htxt. reflexivity.
  - rewrite Htxt. cbn [view_1 fst tokenizer Toy.external map forallb].
    rewrite length_map, length_seq. reflexivity.
  - exact toy_finite.
Qed.

(** The brute-force index honours the contract of [index.search] whenever it
    holds at least [k] entries. *)

Lemma insert_by_distance_In (e p : Z * Z) (l : list (Z * Z)) :
  In p (Toy.insert_by_distance e l) -> p = e \/ In p l.
Proof.
  induction l as [|e' l IH]; simpl.
  - intros [H|[]]; auto.
  - destruct (fst e <=? fst e')%Z; simpl; intros [H|H]; auto.
    destruct (IH H); auto.
Qed.

Lemma sort_by_distance_In (p : Z * Z) (l : list (Z * Z)) :
  In p (Toy.sort_by_distance l) -> In p l.
Proof.
  induction l as [|e l IH]; simpl; [auto|].
  intros H. apply insert_by_distance_In in H as [H|H]; auto.
Qed.

Lemma insert_by_distance_length (e : Z * Z) (l : list (Z * Z)) :
  length (Toy.insert_by_distance e l) = S (length l).
Proof.
  induction l as [|e' l IH]; simpl; [reflexivity|].
  destruct (fst e <=? fst e')%Z; simpl; [reflexivity | now rewrite IH].
Qed.

Lemma sort_by_distance_length (l : list (Z * Z)) :
  length (Toy.sort_by_distance l) = length l.
Proof.
  induction l as [|e l IH]; simpl; [reflexivity|].
  now rewrite insert_by_distance_length, IH.
Qed.

Lemma insert_by_distance_sorted (e : Z * Z) (l : list (Z * Z)) :
  Sorted.Sorted Toy.by_distance l -> Sorted.Sorted Toy.by_distance (Toy.insert_by_distance e l).
Proof.
  induction 1 as [|e' l Hs IH Hhd]; simpl.
  - repeat constructor.
  - destruct (fst e <=? fst e')%Z eqn:Hle.
    + constructor; [now constructor|]. constructor. now apply Z.leb_le.
    + constructor; [exact IH|].
      apply Z.leb_gt in Hle.
      destruct l as [|e'' l]; simpl.
      * constructor. unfold Toy.by_distance. lia.
      * destruct (fst e <=? fst e'')%Z; constructor.
        -- unfold Toy.by_distance. lia.
        -- now inversion Hhd.
Qed.

Lemma sort_by_distance_sorted (l : list (Z * Z)) :
  Sorted.Sorted Toy.by_distance (Toy.sort_by_distance l).
Proof.
  induction l as [|e l IH]; simpl; [constructor|].
  now apply insert_by_distance_sorted.
Qed.

Lemma firstn_sorted (k : nat) (l : list (Z * Z)) :
  Sorted.Sorted Toy.by_distance l -> Sorted.Sorted Toy.by_distance (firstn k l).
Proof.
  revert l. induction k as [|k IH]; intros l Hs; simpl; [constructor|].
  destruct l as [|e l]; [constructor|].
  inversion Hs as [|? ? Hs' Hhd]; subst.
  constructor; [now apply IH|].
  destruct k, l; simpl; constructor. now inversion Hhd.
Qed.

Lemma sorted_nondecreasing (l : list (Z * Z)) :
  Sorted.Sorted Toy.by_distance l ->
  nondecreasing (N:=Toy.numerics) (map fst l) = true.
Proof.
  induction 1 as [|e l Hs IH Hhd]; [reflexivity|].
  destruct l as [|e' l]; [reflexivity|].
  change (((fst e <=? fst e')%Z && nondecreasing (N:=Toy.numerics) (map fst (e' :: l))) = true).
  rewrite IH, andb_true_r. apply Z.leb_le. now inversion Hhd.
Qed.

Lemma combine_seq_nth_error {A : Type} (l : list A) (a i : nat) (e : A) :
  In (i, e) (combine (seq a (length l)) l) -> a <= i /\ nth_error l (i - a) = Some e.
Proof.
  revert a. induction l as [|x l IH]; intros a; simpl; [intros []|].
  intros [H|H].
  - injection H as <- <-. now rewrite Nat.sub_diag.
  - apply IH in H as [Hle Hnth]. split; [lia|].
    replace (i - a) with (S (i - S a)) by lia. exact Hnth.
Qed.

Lemma firstn_In {A : Type} (k : nat) (l : list A) (x : A) :
  In x (firstn k l) -> In x l.
Proof.
  revert l. induction k as [|k IH]; intros [|a l]; simpl; try tauto.
  intros [H|H]; auto.
Qed.

Lemma combine_map_r {A B : Type} (f : A -> B) (l : list A) :
  combine l (map f l) = map (fun a => (a, f a)) l.
Proof. induction l as [|a l IH]; simpl; [reflexivity | now rewrite IH]. Qed.

Lemma toy_ranked (xb : list (list Z)) (q : list Z) (k : nat) :
  k <= length xb ->
  length (Toy.ranked xb q k) = k /\
  nondecreasing (N:=Toy.numerics)
    (map (Toy.distance xb q) (map snd (Toy.ranked xb q k))) = true.
Proof.
  intros Hk. unfold Toy.ranked.
  set (scored := map (fun ie : nat * list Z => (Toy.sqdist q (snd ie), Z.of_nat (fst ie)))
                     (combine (seq 0 (length xb)) xb)).
  assert (Hlen : length (Toy.sort_by_distance scored) = length xb).
  { rewrite sort_by_distance_length. unfold scored.
    rewrite length_map, length_combine, length_seq. apply Nat.min_id. }
  rewrite firstn_app, Hlen.
  replace (k - length xb) with 0 by lia. rewrite firstn_O, app_nil_r.
  split.
  - rewrite length_firstn, Hlen. lia.
  - rewrite map_map.
    rewrite (map_ext_in _ fst).
    + apply sorted_nondecreasing, firstn_sorted, sort_by_distance_sorted.
    + intros p Hp. apply firstn_In in Hp.
      apply sort_by_distance_In in Hp. unfold scored in Hp.
      apply in_map_iff in Hp as ([i e] & <- & Hie). simpl.
      apply combine_seq_nth_error in Hie as [_ Hnth]. rewrite Nat.sub_0_r in Hnth.
      unfold Toy.distance.
      destruct (Z.of_nat i <? 0)%Z eqn:Hneg; [apply Z.ltb_lt in Hneg; lia|].
      now rewrite Nat2Z.id, Hnth.
Qed.

Lemma toy_search_contract (xb : list (list Z)) (x : list (list Z)) (k : nat) :
  k <= length xb ->
  @search_contract Toy.numerics Toy.external xb x k.
Proof.
  intros Hk. unfold search_contract.
  change (@index_search Toy.numerics Toy.external xb x k) with (Toy.search xb x k).
  unfold Toy.search. cbn [snd]. repeat split.
  - apply length_map.
  - apply Forall_map, Forall_forall. intros q _.
    rewrite length_map. now apply toy_ranked.
  - rewrite combine_map_r. apply Forall_map, Forall_forall. intros q _. cbn [fst snd].
    unfold nearest_first.
    change (@index_distance Toy.numerics Toy.external xb q) with (Toy.distance xb q).
    now apply toy_ranked.
Qed.

(** * The claims *)

Section Claims.
Context {N : Numerics} {E : External}.

Lemma via_predict_raises (image : UploadFile) (s : Server) (pil_image : Image)
  (image_tensor : Tensor) :
  Image_open image = Ok pil_image ->
  process_image_as_pil pil_image image_size_default = Ok image_tensor ->
  exists msg,
    fst (on_image_model (FeatureExtractor_predict image_tensor) s) = Raise (RuntimeError msg) /\
    fst (predict_image_embedding_via_predict image s) = Raise (RuntimeError msg).
Proof.
  intros Hopen Hproc.
  destruct (ResNet_forward_uint8 false image_tensor
              (resnet50 (image_feature_extraction_model s))
              (process_image_as_pil_uint8 _ _ _ Hproc)) as (msg & Hraise).
  exists msg.
  assert (H : fst (on_image_model (FeatureExtractor_predict image_tensor) s)
              = Raise (RuntimeError msg)).
  { rewrite on_image_model_predict. now rewrite Hraise. }
  split; [exact H|].
  unfold predict_image_embedding_via_predict, bind, lift. rewrite Hopen, Hproc. exact H.
Qed.

(** X15. For every image upload and text for which [predict_combined]
    builds a query, the query has a single row of length 2000; its first 1000
    components are the values the handler's own call of the image handler
    returned for that image and its last 1000 the values its own call of the
    text handler returned for that text (the text handler being run, as the
    code runs it, on the state the image handler left); and what
    [predict_combined] answers is what [index.search] with [k = 3] makes of
    this very array. *)
Theorem combined_query_is_image_then_text (env : Env) (s : Server)
  (image : UploadFile) (text : string) (q : list (list f32)) :
  Reachable env s ->
  fst (predict_combined_query image text s) = Ok q ->
  exists image_response text_response xi xt row,
    fst (predict_image image s) = Ok image_response /\
    fst (predict_text text (snd (predict_image image s))) = Ok text_response /\
    body image_response = JObject [("features", JArray [JArray (map JFloat xi)])] /\
    body text_response = JObject [("features", JArray [JArray (map JFloat xt)])] /\
    q = [row] /\ length row = 2000 /\
    map f64_of_f32 (firstn 1000 row) = xi /\
    map f64_of_f32 (skipn 1000 row) = xt /\
    map f64_of_f32 row = xi ++ xt /\
    fst (predict_combined image text s) =
      bindR (Index_search (index s) q 3)
            (fun found =>
               JSONResponse (JObject [("similar_index", tolist_int (snd found))])) /\
    (forall resp, fst (predict_combined image text s) = Ok resp ->
       Index_search (index s) q 3 = Ok (index_search (index s) q 3)).
Proof.
  intros Hreach Hq. pose proof (Reachable_Serving _ _ Hreach) as HS.
  destruct (predict_combined_query_Ok _ _ _ _ HS Hq)
    as (ir & tr & xi & xt & Hir & Htr & Hbi & Hbt & Hli & Hlt & -> & _).
  exists ir, tr, (map f64_of_f32 xi), (map f64_of_f32 xt), (xi ++ xt).
  rewrite tolist_one_row in Hbi, Hbt.
  split; [exact Hir|]. split; [exact Htr|]. split; [exact Hbi|]. split; [exact Hbt|].
  split; [reflexivity|].
  split; [|split; [|split; [|split; [|split]]]].
  - rewrite length_app, Hli, Hlt. reflexivity.
  - rewrite firstn_app, Hli, Nat.sub_diag, firstn_O, app_nil_r.
    rewrite firstn_all2 by lia. reflexivity.
  - rewrite skipn_app, Hli, Nat.sub_diag, skipn_O.
    rewrite skipn_all2 by lia. reflexivity.
  - apply map_app.
  - exact (predict_combined_fst image text s _ Hq).
  - intros resp Hresp.
    destruct (predict_combined_Ok _ _ _ _ Hresp) as (q' & Hq' & Hsearch & _).
    rewrite Hq in Hq'. apply Ok_inj in Hq'. subst q'.
    destruct (predict_combined_query_frame image text s) as (_ & _ & _ & Hidx & _).
    cbn zeta in Hsearch. now rewrite Hidx in Hsearch.
Qed.

(** C2 (amended). For every successful request, the image route and the
    text route each answer with status 200 and a body
    [{"features": [[x1, ..., x1000]]}]: the value of "features" is a nested
    list holding one row of exactly 1000 floats. *)
Theorem features_is_one_row_of_1000_floats (env : Env) (s : Server) :
  Reachable env s ->
  (forall image resp,
     fst (predict_image image s) = Ok resp ->
     status_code resp = 200 /\
     exists f, body resp = JObject [("features", f)] /\ one_row_of_floats 1000 f) /\
  (forall text resp,
     fst (predict_text text s) = Ok resp ->
     status_code resp = 200 /\
     exists f, body resp = JObject [("features", f)] /\ one_row_of_floats 1000 f).
Proof.
  intros Hreach. pose proof (Reachable_Serving _ _ Hreach) as HS. split.
  - intros image resp Hresp.
    destruct (predict_image_Ok _ _ _ Hresp) as (t & Ht & -> & _).
    destruct (predict_image_embedding_row _ _ _ HS Ht) as (_ & row & Hrow & Hlen).
    split; [reflexivity|]. eexists. split; [reflexivity|].
    exists (map f64_of_f32 row). rewrite Hrow, tolist_one_row, length_map. now split.
  - intros text resp Hresp.
    destruct (predict_text_Ok _ _ _ Hresp) as (t & Ht & -> & _).
    destruct (predict_text_embedding_row _ _ _ HS Ht) as (row & Hrow & Hlen).
    split; [reflexivity|]. eexists. split; [reflexivity|].
    exists (map f64_of_f32 row). rewrite Hrow, tolist_one_row, length_map. now split.
Qed.

(** C4 (amended). For every image request that reaches the model, the
    handler calls the module itself, that is [forward]: the uint8 tensor is
    cast to float and passed through the backbone with grad mode on, so the
    tensor that comes back requires grad; [numpy()] would refuse it, and the
    handler detaches it before building the response.  [predict], the method
    that runs under [torch.no_grad()], is not what the handler calls: given
    the handler's uint8 tensor it raises. *)
Theorem image_endpoint_runs_forward_and_detaches (env : Env) (s : Server)
  (image : UploadFile) (t : Tensor2) :
  Reachable env s ->
  fst (predict_image_embedding image s) = Ok t ->
  grad t = true /\
  (exists pil_image image_tensor,
     Image_open image = Ok pil_image /\
     process_image_as_pil pil_image image_size_default = Ok image_tensor /\
     predict_image_embedding image s =
       on_image_model (FeatureExtractor_forward image_tensor) s /\
     exists msg,
       fst (on_image_model (FeatureExtractor_predict image_tensor) s)
         = Raise (RuntimeError msg)) /\
  (exists msg, numpy t = Raise (RuntimeError msg)) /\
  numpy (detach t) = Ok (rows t) /\
  fst (predict_image image s) = JSONResponse (JObject [("features", tolist (rows t))]).
Proof.
  intros Hreach Ht. pose proof (Reachable_Serving _ _ Hreach) as HS.
  destruct (predict_image_embedding_row _ _ _ HS Ht) as (Hgrad & _).
  destruct (predict_image_embedding_Ok _ _ _ Ht) as (im & tensor & Hopen & Hproc & Heq).
  destruct (via_predict_raises image s im tensor Hopen Hproc) as (msg & Hraise & _).
  repeat split.
  - exact Hgrad.
  - exists im, tensor. repeat split; try assumption. now exists msg.
  - unfold numpy. rewrite Hgrad. eexists. reflexivity.
  - rewrite predict_image_eq.
    destruct (predict_image_embedding image s) as [r s1]; simpl in *. now subst r.
Qed.

(** C6. For every request that [predict_combined] answers, the index is
    queried once, with the single query row and [k = 3]; provided the index
    honours the contract of [search] on that call, the body is
    [{"similar_index": [[i1, i2, i3]]}], one row of three integer labels,
    in the order the index returned them: by increasing distance to the
    query. *)
Theorem similar_images_returns_three_nearest_first (env : Env) (s : Server)
  (image : UploadFile) (text : string) (q : list (list f32)) (resp : Response) :
  Reachable env s ->
  fst (predict_combined_query image text s) = Ok q ->
  fst (predict_combined image text s) = Ok resp ->
  search_contract (index s) q 3 ->
  exists row i1 i2 i3,
    q = [row] /\
    Index_search (index s) q 3 = Ok (index_search (index s) q 3) /\
    snd (index_search (index s) q 3) = [[i1; i2; i3]] /\
    resp = {| status_code := 200;
              body := JObject [("similar_index",
                                JArray [JArray [JInt i1; JInt i2; JInt i3]])] |} /\
    f32_leb (index_distance (index s) row i1) (index_distance (index s) row i2) = true /\
    f32_leb (index_distance (index s) row i2) (index_distance (index s) row i3) = true.
Proof.
  intros Hreach Hq Hresp Hcontract. pose proof (Reachable_Serving _ _ Hreach) as HS.
  destruct (predict_combined_query_Ok _ _ _ _ HS Hq)
    as (_ & _ & xi & xt & _ & _ & _ & _ & _ & _ & -> & _).
  destruct (predict_combined_Ok _ _ _ _ Hresp) as (q' & Hq' & Hsearch & ->).
  rewrite Hq in Hq'. apply Ok_inj in Hq'. subst q'.
  destruct (predict_combined_query_frame image text s) as (_ & _ & _ & Hidx & _).
  cbn zeta in Hsearch. rewrite Hidx in *.
  destruct Hcontract as (Hlen & Hk & Hnear).
  destruct (snd (index_search (index s) [xi ++ xt] 3)) as [|labels [|? ?]] eqn:Hlabels;
    try discriminate.
  inversion Hk as [|? ? Hk3 _]; subst.
  destruct labels as [|i1 [|i2 [|i3 [|? ?]]]]; try discriminate.
  inversion Hnear as [|? ? Hfirst _]; subst. cbn in Hfirst.
  apply andb_true_iff in Hfirst as [H12 H23]. rewrite andb_true_r in H23.
  exists (xi ++ xt), i1, i2, i3. repeat split; assumption.
Qed.

(** C7. If the decoder pickle, the image weights, the text weights or the
    index cannot be loaded (the file is absent or unreadable, or the weights
    do not fit the model), start-up raises [OSError]; no server state is ever
    reached, so no request is served. *)
Theorem startup_fails_when_a_load_fails (env : Env) :
  load_failure env ->
  (exists msg, startup env = Raise (OSError msg)) /\
  (forall s, ~ Reachable env s).
Proof.
  intros Hfail.
  assert (Hno : forall s, startup env <> Ok s).
  { intros s Hs. exact (startup_needs_every_artifact env s Hs Hfail). }
  split.
  - destruct (startup env) as [s|e] eqn:Hstart.
    + now destruct (Hno s).
    + destruct (startup_Raise _ _ Hstart) as (msg & ->). now exists msg.
  - intros s Hreach. destruct (Reachable_started _ _ Hreach) as (s0 & Hs0).
    exact (Hno s0 Hs0).
Qed.

(** C8 (what the code does). A successful image request does not leave the
    image model as it was: ResNet-50 is in training mode, so the pass adds 1
    to every BatchNorm layer's [num_batches_tracked] (and updates the running
    statistics).  The parameters, the text model and the index are left
    unchanged. *)
Theorem predict_image_updates_batchnorm_buffers (env : Env) (s : Server)
  (image : UploadFile) (resp : Response) :
  Reachable env s ->
  fst (predict_image image s) = Ok resp ->
  let before := resnet50 (image_feature_extraction_model s) in
  let after := resnet50 (image_feature_extraction_model (snd (predict_image image s))) in
  num_batches_tracked after = map (fun n => wrap_int64 (n + 1)) (num_batches_tracked before) /\
  num_batches_tracked after <> num_batches_tracked before /\
  image_feature_extraction_model (snd (predict_image image s))
    <> image_feature_extraction_model s /\
  trunk after = trunk before /\ fc after = fc before /\
  text_feature_extraction_model (snd (predict_image image s))
    = text_feature_extraction_model s /\
  index (snd (predict_image image s)) = index s.
Proof.
  intros Hreach Hresp before after.
  pose proof (Reachable_Serving _ _ Hreach) as HS.
  destruct (predict_image_Ok _ _ _ Hresp) as (t & Ht & _ & Hsnd).
  destruct (predict_image_embedding_Ok _ _ _ Ht) as (im & tensor & _ & _ & Heq).
  assert (Hafter : num_batches_tracked after
                   = map (fun n => wrap_int64 (n + 1)) (num_batches_tracked before)).
  { unfold after. rewrite Hsnd, Heq, on_image_model_forward. cbn [snd resnet50
      image_feature_extraction_model].
    rewrite Heq, on_image_model_forward in Ht. cbn [fst] in Ht.
    destruct (ResNet_forward_Ok _ _ _ _ Ht) as (_ & _ & _ & _ & _ & _ & Htrain & _).
    apply Htrain. apply HS. }
  assert (Hneq : num_batches_tracked after <> num_batches_tracked before).
  { rewrite Hafter. destruct HS as (_ & _ & _ & _ & Hbn & _). fold before in Hbn.
    destruct (num_batches_tracked before) as [|n l]; [discriminate|].
    cbn [map]. intros H. injection H as H _. exact (wrap_int64_succ_neq n H). }
  destruct (predict_image_frame image s) as (_ & _ & Htxt & Hidx & _ & Htrunk & Hfc & _).
  repeat split; try assumption.
  intros H. apply Hneq. unfold after, before. now rewrite H.
Qed.

(** C9. The decoder does not influence any answer: servers started from
    environments that differ only in the decoder pickle answer every sequence
    of requests identically; in particular the image extractor returns the
    same embedding for the same tensor, and the text extractors are equal. *)
Theorem decoder_does_not_influence_embeddings (env : Env) (d1 d2 : Decoder)
  (s1 s2 : Server) :
  startup (with_decoder d1 env) = Ok s1 ->
  startup (with_decoder d2 env) = Ok s2 ->
  (forall requests, fst (serve requests s1) = fst (serve requests s2)) /\
  (forall image_tensor,
     fst (FeatureExtractor_forward image_tensor (image_feature_extraction_model s1)) =
     fst (FeatureExtractor_forward image_tensor (image_feature_extraction_model s2))) /\
  text_feature_extraction_model s1 = text_feature_extraction_model s2.
Proof.
  intros H1 H2. pose proof (startup_same_up_to_decoder env d1 d2 s1 s2 H1 H2) as Hsame.
  repeat split.
  - intros requests. now apply serve_respects.
  - intros tensor. destruct Hsame as (_ & Hnet & _).
    unfold FeatureExtractor_forward, FeatureExtractor_layers. rewrite Hnet.
    now destruct (ResNet_forward true (float tensor) _).
  - apply Hsame.
Qed.

(** What [forward] returns, for a tensor of either dtype: the trunk is run on
    the elements of the tensor cast to float, then the classifier; no dtype
    is refused. *)
Lemma FeatureExtractor_forward_fst (image : Tensor) (self : FeatureExtractor) :
  fst (FeatureExtractor_forward image self) =
    match resnet_trunk (trunk (resnet50 self))
            (if training (resnet50 self) then None
             else Some (running_stats (resnet50 self)))
            (shape image) (float_data image) with
    | Raise e => Raise e
    | Ok features =>
        match Linear_forward (fc (resnet50 self)) features with
        | Raise e => Raise e
        | Ok out =>
            Ok {| rows := out;
                  grad := params_require_grad (resnet50 self) || requires_grad image |}
        end
    end.
Proof.
  unfold FeatureExtractor_forward, FeatureExtractor_layers, ResNet_forward. cbn zeta.
  rewrite tdata_float, float_shape, float_requires_grad.
  destruct (resnet_trunk _ _ _ _) as [features|e]; [|reflexivity].
  destruct (Linear_forward _ features) as [out|e]; reflexivity.
Qed.

Lemma float_data_uint8 (image : Tensor) (l : list Z) :
  tdata image = U8 l -> float_data image = map f32_of_uint8 l.
Proof. intros H. unfold float_data, float. now rewrite H. Qed.

(** C10. [forward] casts its input to float and then applies the backbone:
    [forward(t)] is the backbone applied to [t.float()], whose dtype is
    float32 whatever that of [t].  The tensor the preprocessor produces is
    uint8, the image handler passes it unconverted to [forward], and the
    backbone itself refuses a uint8 tensor: the cast is what makes non-float
    tensors acceptable.  A uint8 tensor is accepted by [forward]: the
    elements the trunk receives are its bytes converted one by one, the
    result is what the trunk and the classifier make of them, and [forward]
    returns whenever they do (the trunk returns on the converted elements,
    with rows as wide as the classifier's input), while [predict], which does
    not cast, raises on the same tensor. *)
Theorem forward_casts_to_float_first (image : Tensor) (self : FeatureExtractor) :
  FeatureExtractor_forward image self = FeatureExtractor_layers true (float image) self /\
  dtype (float image) = float32 /\
  shape (float image) = shape image /\
  (forall pil_image size t, process_image_as_pil pil_image size = Ok t -> dtype t = uint8) /\
  (forall upload s out,
     fst (predict_image_embedding upload s) = Ok out ->
     exists pil_image t,
       Image_open upload = Ok pil_image /\
       process_image_as_pil pil_image image_size_default = Ok t /\
       dtype t = uint8 /\
       predict_image_embedding upload s = on_image_model (FeatureExtractor_forward t) s) /\
  (dtype image = uint8 ->
   forall g, exists msg,
     fst (FeatureExtractor_layers g image self) = Raise (RuntimeError msg)) /\
  (forall l, tdata image = U8 l -> float_data image = map f32_of_uint8 l) /\
  fst (FeatureExtractor_forward image self) =
    match resnet_trunk (trunk (resnet50 self))
            (if training (resnet50 self) then None
             else Some (running_stats (resnet50 self)))
            (shape image) (float_data image) with
    | Raise e => Raise e
    | Ok features =>
        match Linear_forward (fc (resnet50 self)) features with
        | Raise e => Raise e
        | Ok out =>
            Ok {| rows := out;
                  grad := params_require_grad (resnet50 self) || requires_grad image |}
        end
    end /\
  (dtype image = uint8 ->
   forall features,
     resnet_trunk (trunk (resnet50 self))
       (if training (resnet50 self) then None else Some (running_stats (resnet50 self)))
       (shape image) (float_data image) = Ok features ->
     forallb (fun r => length r =? in_features (fc (resnet50 self))) features = true ->
     exists out,
       fst (FeatureExtractor_forward image self) = Ok out /\
       rows out =
         map (fun r =>
                map (fun wb => f32_add (f32_dot (fst wb) r) (snd wb))
                    (combine (weight (fc (resnet50 self))) (bias (fc (resnet50 self)))))
             features /\
       exists msg, fst (FeatureExtractor_predict image self) = Raise (RuntimeError msg)).
Proof.
  assert (Hraise : dtype image = uint8 ->
                   forall g, exists msg,
                     fst (FeatureExtractor_layers g image self) = Raise (RuntimeError msg)).
  { intros Hu8 g. destruct (ResNet_forward_uint8 g image (resnet50 self) Hu8) as (msg & H).
    exists msg. unfold FeatureExtractor_layers. now rewrite H. }
  split; [reflexivity|]. split; [apply float_dtype|]. split; [apply float_shape|].
  split; [intros im size t; apply process_image_as_pil_uint8|].
  split.
  { intros upload s out Hout.
    destruct (predict_image_embedding_Ok _ _ _ Hout) as (im & t & Hopen & Hproc & Heq).
    exists im, t. repeat split; try assumption.
    now apply process_image_as_pil_uint8 with im image_size_default. }
  split; [exact Hraise|].
  split; [apply float_data_uint8|].
  split; [apply FeatureExtractor_forward_fst|].
  intros Hu8 features Htrunk Hwidth.
  rewrite FeatureExtractor_forward_fst, Htrunk.
  unfold Linear_forward. rewrite Hwidth.
  eexists. split; [reflexivity|]. split; [reflexivity|].
  exact (Hraise Hu8 false).
Qed.

End Claims.

(** * The claims on the concrete instance *)

(** An upload that is no image makes the image route raise, and leaves the
    state as it was. *)
Example toy_undecodable_upload :
  predict_image Toy.not_an_image Toy.server = (Raise UnidentifiedImageError, Toy.server).
Proof. reflexivity. Qed.

Lemma toy_black_valid : 0 < width Toy.black_50x100 /\ 0 < height Toy.black_50x100.
Proof. cbn. lia. Qed.

Lemma toy_image_request :
  exists resp, fst (predict_image (Toy.upload Toy.black_50x100) Toy.server) = Ok resp.
Proof.
  destruct toy_black_valid as [Hw Hh].
  exact (toy_predict_image Toy.black_50x100 Toy.server Hw Hh eq_refl).
Qed.

Lemma toy_combined_request :
  exists q resp,
    fst (predict_combined_query (Toy.upload Toy.black_50x100) "chair" Toy.server) = Ok q /\
    fst (predict_combined (Toy.upload Toy.black_50x100) "chair" Toy.server) = Ok resp.
Proof.
  destruct toy_image_request as (ir & Hir).
  pose proof (Reachable_Serving _ _ toy_reachable) as HS.
  destruct (toy_predict_text "chair"
              (snd (predict_image (Toy.upload Toy.black_50x100) Toy.server)))
    as (tr & Htr).
  { destruct (predict_image_frame (Toy.upload Toy.black_50x100) Toy.server)
      as (_ & _ & Htxt & _). exact Htxt. }
  exact (predict_combined_succeeds _ _ _ ir tr HS Hir Htr eq_refl).
Qed.

Lemma toy_stored_size : 3 <= length Toy.stored.
Proof. unfold Toy.stored. cbn [length]. lia. Qed.

Lemma combined_query_is_image_then_text_witness :
  exists q row,
    fst (predict_combined_query (Toy.upload Toy.black_50x100) "chair" Toy.server) = Ok q /\
    q = [row] /\ length row = 2000.
Proof.
  destruct toy_combined_request as (q & resp & Hq & Hresp).
  destruct (combined_query_is_image_then_text Toy.env Toy.server
              (Toy.upload Toy.black_50x100) "chair" q toy_reachable Hq)
    as (ir & tr & xi & xt & row & _ & _ & _ & _ & Hrow & Hlen & _).
  exists q, row. exact (conj Hq (conj Hrow Hlen)).
Defined.

Lemma features_is_one_row_of_1000_floats_witness :
  (exists resp f,
     fst (predict_image (Toy.upload Toy.black_50x100) Toy.server) = Ok resp /\
     body resp = JObject [("features", f)] /\ one_row_of_floats 1000 f) /\
  (exists resp f,
     fst (predict_text "chair" Toy.server) = Ok resp /\
     body resp = JObject [("features", f)] /\ one_row_of_floats 1000 f).
Proof.
  destruct (features_is_one_row_of_1000_floats Toy.env Toy.server toy_reachable)
    as [Himage Htext].
  split.
  - destruct toy_image_request as (resp & Hresp).
    destruct (Himage _ _ Hresp) as (_ & f & Hbody & Hrow).
    exists resp, f. exact (conj Hresp (conj Hbody Hrow)).
  - destruct (toy_predict_text "chair" Toy.server eq_refl) as (resp & Hresp).
    destruct (Htext _ _ Hresp) as (_ & f & Hbody & Hrow).
    exists resp, f. exact (conj Hresp (conj Hbody Hrow)).
Defined.

(** C2, as stated, fails: the "features" value the image route returns for
    a black 50x100 image is not a flat list of 1000 floats. *)
Lemma features_is_not_a_flat_list :
  exists resp f,
    fst (predict_image (Toy.upload Toy.black_50x100) Toy.server) = Ok resp /\
    body resp = JObject [("features", f)] /\
    ~ flat_floats 1000 f.
Proof.
  destruct toy_image_request as (resp & Hresp).
  destruct (predict_image_Ok _ _ _ Hresp) as (t & Ht & Hbody & _).
  destruct (predict_image_embedding_row _ _ _ (Reachable_Serving _ _ toy_reachable) Ht)
    as (_ & row & Hrow & _).
  exists resp, (tolist (rows t)). split; [exact Hresp|]. split.
  - rewrite Hbody. reflexivity.
  - rewrite Hrow, tolist_one_row. apply one_row_not_flat. lia.
Qed.

Lemma toy_image_embedding :
  exists t, fst (predict_image_embedding (Toy.upload Toy.black_50x100) Toy.server) = Ok t.
Proof.
  destruct toy_image_request as (resp & Hresp).
  destruct (predict_image_Ok _ _ _ Hresp) as (t & Ht & _). exists t. exact Ht.
Qed.

Lemma image_endpoint_runs_forward_and_detaches_witness :
  exists t,
    fst (predict_image_embedding (Toy.upload Toy.black_50x100) Toy.server) = Ok t /\
    grad t = true /\ numpy (detach t) = Ok (rows t).
Proof.
  destruct toy_image_embedding as (t & Ht).
  destruct (image_endpoint_runs_forward_and_detaches Toy.env Toy.server
              (Toy.upload Toy.black_50x100) t toy_reachable Ht)
    as (Hgrad & _ & _ & Hnumpy & _).
  exists t. exact (conj Ht (conj Hgrad Hnumpy)).
Defined.

(** C4, as stated, fails: for a black 50x100 image the tensor the model
    call returns requires grad (a graph was recorded), and the no-grad
    [predict] path would not have produced it: it raises. *)
Lemma image_endpoint_does_not_run_predict :
  exists t msg,
    fst (predict_image_embedding (Toy.upload Toy.black_50x100) Toy.server) = Ok t /\
    grad t = true /\
    fst (predict_image_embedding_via_predict (Toy.upload Toy.black_50x100) Toy.server)
      = Raise (RuntimeError msg).
Proof.
  destruct toy_image_embedding as (t & Ht).
  destruct (predict_image_embedding_row _ _ _ (Reachable_Serving _ _ toy_reachable) Ht)
    as (Hgrad & _).
  destruct (predict_image_embedding_Ok _ _ _ Ht) as (im & tensor & Hopen & Hproc & _).
  destruct (via_predict_raises _ Toy.server im tensor Hopen Hproc) as (msg & _ & Hraise).
  exists t, msg. exact (conj Ht (conj Hgrad Hraise)).
Qed.

Lemma process_image_as_pil_shape_witness :
  exists t,
    process_image_as_pil (E:=Toy.external) Toy.black_50x100 image_size_default = Ok t /\
    shape t = [1; 3; 224; 224].
Proof.
  destruct toy_black_valid as [Hw Hh].
  exact (proj2 (process_image_as_pil_shape (E:=Toy.external)
                  Toy.black_50x100 image_size_default Hw Hh)).
Defined.

Lemma similar_images_returns_three_nearest_first_witness :
  exists resp i1 i2 i3,
    fst (predict_combined (Toy.upload Toy.black_50x100) "chair" Toy.server) = Ok resp /\
    body resp = JObject [("similar_index", JArray [JArray [JInt i1; JInt i2; JInt i3]])].
Proof.
  destruct toy_combined_request as (q & resp & Hq & Hresp).
  destruct (similar_images_returns_three_nearest_first Toy.env Toy.server
              (Toy.upload Toy.black_50x100) "chair" q resp toy_reachable Hq Hresp
              (toy_search_contract Toy.stored q 3 toy_stored_size))
    as (row & i1 & i2 & i3 & _ & _ & _ & Hbody & _).
  exists resp, i1, i2, i3. split; [exact Hresp|]. rewrite Hbody. reflexivity.
Defined.

Lemma startup_fails_when_a_load_fails_witness :
  exists msg, startup Toy.env_without_index = Raise (OSError msg).
Proof.
  apply (startup_fails_when_a_load_fails Toy.env_without_index).
  unfold load_failure. do 5 right. reflexivity.
Defined.

Lemma predict_image_updates_batchnorm_buffers_witness :
  num_batches_tracked
    (resnet50 (image_feature_extraction_model
                 (snd (predict_image (Toy.upload Toy.black_50x100) Toy.server))))
  = repeat 1%Z 53.
Proof.
  destruct toy_image_request as (resp & Hresp).
  destruct (predict_image_updates_batchnorm_buffers Toy.env Toy.server
              (Toy.upload Toy.black_50x100) resp toy_reachable Hresp) as (Hafter & _).
  rewrite Hafter. reflexivity.
Defined.

Lemma toy_startup_with_decoder (d : Decoder) :
  exists s, startup (with_decoder d Toy.env) = Ok s.
Proof.
  eexists.
  exact (startup_succeeds (with_decoder d Toy.env) d Toy.image_sd Toy.image_sd 1%Z
           Toy.text_sd Toy.stored
           eq_refl eq_refl toy_image_sd_ok eq_refl eq_refl toy_image_sd_ok
           eq_refl toy_text_sd_ok eq_refl).
Qed.

Lemma decoder_does_not_influence_embeddings_witness :
  exists s1 s2,
    startup (with_decoder [] Toy.env) = Ok s1 /\
    startup (with_decoder [(7%Z, "Phones")] Toy.env) = Ok s2 /\
    forall requests, fst (serve requests s1) = fst (serve requests s2).
Proof.
  destruct (toy_startup_with_decoder []) as (s1 & H1).
  destruct (toy_startup_with_decoder [(7%Z, "Phones")]) as (s2 & H2).
  exists s1, s2.
  exact (conj H1 (conj H2 (proj1 (decoder_does_not_influence_embeddings
                                    Toy.env [] [(7%Z, "Phones")] s1 s2 H1 H2)))).
Defined.

(** The trunk of the instance returns on the single uint8 pixel once it is
    cast, with one row as wide as the classifier's input. *)
Lemma toy_trunk_on_pixel :
  exists features,
    resnet_trunk (trunk (resnet50 (image_feature_extraction_model Toy.server)))
      (if training (resnet50 (image_feature_extraction_model Toy.server)) then None
       else Some (running_stats (resnet50 (image_feature_extraction_model Toy.server))))
      (shape Toy.pixel_tensor) (float_data Toy.pixel_tensor) = Ok features /\
    forallb (fun r => length r =?
                      in_features (fc (resnet50 (image_feature_extraction_model Toy.server))))
            features = true /\
    length features = 1.
Proof.
  eexists. split; [reflexivity|]. split; [|reflexivity].
  cbn [repeat forallb]. rewrite length_map, length_seq. reflexivity.
Qed.

Lemma forward_casts_to_float_first_witness :
  dtype Toy.pixel_tensor = uint8 /\
  dtype (float Toy.pixel_tensor) = float32 /\
  (exists out,
     fst (FeatureExtractor_forward Toy.pixel_tensor
            (image_feature_extraction_model Toy.server)) = Ok out /\
     length (rows out) = 1) /\
  (exists msg,
     fst (FeatureExtractor_predict Toy.pixel_tensor
            (image_feature_extraction_model Toy.server)) = Raise (RuntimeError msg)) /\
  exists out pil_image t,
    fst (predict_image_embedding (Toy.upload Toy.black_50x100) Toy.server) = Ok out /\
    process_image_as_pil (E:=Toy.external) pil_image image_size_default = Ok t /\
    dtype t = uint8 /\
    predict_image_embedding (Toy.upload Toy.black_50x100) Toy.server
    = on_image_model (FeatureExtractor_forward t) Toy.server.
Proof.
  destruct (forward_casts_to_float_first Toy.pixel_tensor
              (image_feature_extraction_model Toy.server))
    as (_ & Hdtype & _ & _ & Hhandler & _ & _ & _ & Hreturns).
  destruct toy_trunk_on_pixel as (features & Htrunk & Hwidth & Hone).
  destruct (Hreturns eq_refl features Htrunk Hwidth) as (out & Hout & Hrows & Hpredict).
  destruct toy_image_embedding as (emb & Hemb).
  destruct (Hhandler _ _ _ Hemb) as (im & t & _ & Hproc & Hu8 & Hcall).
  split; [reflexivity|]. split; [exact Hdtype|].
  split; [exists out; split; [exact Hout | rewrite Hrows, length_map; exact Hone]|].
  split; [exact Hpredict|].
  exists emb, im, t. exact (conj Hemb (conj Hproc (conj Hu8 Hcall))).
Defined.

Lemma toy_text_first_call :
  Toy.feature 1 (fst (predict_text "chair" Toy.server)) = Some 3739%Z.
Proof. vm_compute. reflexivity. Qed.

Lemma toy_text_second_call :
  Toy.feature 1 (fst (predict_text "chair" (snd (predict_text "chair" Toy.server))))
  = Some 3721%Z.
Proof. vm_compute. reflexivity. Qed.

(** C3 (what the code does). The text route is not deterministic: the
    Dropout layer of the text model is in training mode, so each call masks
    the pooled output with fresh bits from the generator.  On a server just
    started, the same text sent twice is answered with two different
    embeddings. *)
Theorem text_embedding_differs_between_calls :
  exists r1 r2,
    startup Toy.env = Ok Toy.server /\
    fst (predict_text "chair" Toy.server) = Ok r1 /\
    fst (predict_text "chair" (snd (predict_text "chair" Toy.server))) = Ok r2 /\
    body r1 <> body r2.
Proof.
  destruct (toy_predict_text "chair" Toy.server eq_refl) as (r1 & H1).
  destruct (toy_predict_text "chair" (snd (predict_text "chair" Toy.server)))
    as (r2 & H2).
  { destruct (predict_text_frame "chair" Toy.server) as (_ & _ & Htxt & _). exact Htxt. }
  exists r1, r2. split; [exact toy_startup|]. split; [exact H1|]. split; [exact H2|].
  intros Hbody.
  pose proof toy_text_first_call as F1. pose proof toy_text_second_call as F2.
  rewrite H1 in F1. rewrite H2 in F2. unfold Toy.feature in F1, F2.
  rewrite Hbody, F2 in F1. discriminate F1.
Qed.

(** * More of the two files *)

Section ServerLifetime.
Context {N : Numerics} {E : External}.

(** Every reachable state is the started state up to what requests change. *)
Lemma Reachable_from_start (env : Env) (s : Server) :
  Reachable env s -> exists s0, startup env = Ok s0 /\ frame s0 s.
Proof.
  induction 1 as [s H|s r _ (s0 & Hs0 & Hf)].
  - exists s. split; [assumption | apply frame_refl].
  - exists s0. split; [assumption|].
    apply frame_trans with s; [assumption | apply handle_frame].
Qed.

(** The text model of a reachable state is the one the weight file gave. *)
Lemma Reachable_text_model (env : Env) (s : Server) :
  Reachable env s ->
  exists tsd,
    text_model_pt env = Some tsd /\
    text_feature_extraction_model s =
      {| bert := sd_bert tsd;
         bert_requires_grad := false;
         dropout_training := true;
         linear := {| in_features := 768; out_features := 1000;
                      weight := sd_linear_weight tsd; bias := sd_linear_bias tsd |};
         linear_requires_grad := true |}.
Proof.
  intros Hreach. destruct (Reachable_from_start _ _ Hreach) as (s0 & Hs0 & Hf).
  destruct (startup_Ok _ _ Hs0)
    as (dec & pre & bw & isd & tsd & idx & _ & _ & _ & _ & _ & _ & Ht & _ & _ & ->).
  exists tsd. split; [assumption|].
  destruct Hf as (_ & _ & Htxt & _). exact Htxt.
Qed.

Lemma on_generator_run {A : Type} (c : M Generator A) (s : Server) :
  on_generator c s = (fst (c (generator s)), with_generator (snd (c (generator s))) s).
Proof. unfold on_generator, with_generator. now destruct (c (generator s)). Qed.

Lemma predict_text_run (text : string) (s : Server) :
  fst (predict_text text s) =
    match fst (predict_text_embedding text s) with
    | Ok t => JSONResponse (JObject [("features", tolist (rows t))])
    | Raise e => Raise e
    end /\
  snd (predict_text text s) = snd (predict_text_embedding text s).
Proof.
  rewrite predict_text_eq. now destruct (predict_text_embedding text s) as [[t|e] s1].
Qed.

Lemma predict_image_run (image : UploadFile) (s : Server) :
  fst (predict_image image s) =
    match fst (predict_image_embedding image s) with
    | Ok t => JSONResponse (JObject [("features", tolist (rows t))])
    | Raise e => Raise e
    end /\
  snd (predict_image image s) = snd (predict_image_embedding image s).
Proof.
  rewrite predict_image_eq. now destruct (predict_image_embedding image s) as [[t|e] s1].
Qed.

(** The text handler reads the text model and the generator, and writes the
    generator only. *)
Lemma predict_text_embedding_run (text : string) (s : Server) :
  predict_text_embedding text s =
    let X := {| input_ids := view_1 (fst (tokenizer text));
                attention_mask := view_1 (snd (tokenizer text)) |} in
    let run := BertNeuralNetwork_call (text_feature_extraction_model s) X (generator s) in
    (fst run, with_generator (snd run) s).
Proof. unfold predict_text_embedding. apply on_generator_run. Qed.

(** The image handler reads the network of the image model and writes it
    back; nothing else is written. *)
Lemma predict_image_embedding_run (image : UploadFile) (s : Server) :
  exists out net,
    predict_image_embedding image s =
      (out, {| device := device s;
               decoder := decoder s;
               image_feature_extraction_model :=
                 {| resnet50 := net;
                    self_decoder := self_decoder (image_feature_extraction_model s) |};
               text_feature_extraction_model := text_feature_extraction_model s;
               index := index s;
               generator := generator s |}) /\
    (forall s', resnet50 (image_feature_extraction_model s')
                = resnet50 (image_feature_extraction_model s) ->
                fst (predict_image_embedding image s') = out) /\
    ((exists e, Image_open image = Raise e) \/
     (exists im e, Image_open image = Ok im /\
                   process_image_as_pil im image_size_default = Raise e) ->
     net = resnet50 (image_feature_extraction_model s)).
Proof.
  unfold predict_image_embedding, bind, lift.
  destruct (Image_open image) as [im|e] eqn:Hopen.
  - destruct (process_image_as_pil im image_size_default) as [tensor|e] eqn:Hproc.
    + exists (fst (ResNet_forward true (float tensor)
                     (resnet50 (image_feature_extraction_model s)))),
             (snd (ResNet_forward true (float tensor)
                     (resnet50 (image_feature_extraction_model s)))).
      split; [apply on_image_model_forward|]. split.
      * intros s' Hnet. unfold FeatureExtractor_call.
        rewrite on_image_model_forward, Hnet. reflexivity.
      * intros [(e & He)|(im' & e & Him & He)]; [discriminate|].
        injection Him as <-. rewrite Hproc in He. discriminate.
    + exists (Raise e), (resnet50 (image_feature_extraction_model s)).
      split; [|split; [reflexivity | reflexivity]].
      destruct s as [dv dc [net sd] tm ix g]; reflexivity.
  - exists (Raise e), (resnet50 (image_feature_extraction_model s)).
    split; [|split; [reflexivity | reflexivity]].
    destruct s as [dv dc [net sd] tm ix g]; reflexivity.
Qed.

End ServerLifetime.

Section Routes.
Context {N : Numerics} {E : External}.

Lemma with_generator_fields (g : Generator) (s : Server) :
  text_feature_extraction_model (with_generator g s) = text_feature_extraction_model s /\
  image_feature_extraction_model (with_generator g s) = image_feature_extraction_model s /\
  index (with_generator g s) = index s /\
  generator (with_generator g s) = g.
Proof. unfold with_generator; simpl. auto. Qed.

(** The text handler answers on the state an image request left as it
    answers on the state before it. *)
Lemma predict_text_after_predict_image (image : UploadFile) (text : string) (s : Server) :
  fst (predict_text text (snd (predict_image image s))) = fst (predict_text text s).
Proof.
  destruct (predict_text_run text (snd (predict_image image s))) as [-> _].
  destruct (predict_text_run text s) as [-> _].
  rewrite !predict_text_embedding_run. cbn zeta. cbn [fst].
  destruct (predict_image_run image s) as [_ ->].
  destruct (predict_image_embedding_run image s) as (out & net & -> & _).
  reflexivity.
Qed.

(** X1. The image route and the text route do not interfere: an image
    request does not change the answer to the text request that follows it
    (it draws nothing from the generator and leaves the text model alone),
    and a text request does not change the answer to the image request that
    follows it. *)
Theorem image_and_text_routes_do_not_interfere (image : UploadFile) (text : string)
  (s : Server) :
  fst (predict_text text (snd (predict_image image s))) = fst (predict_text text s) /\
  fst (predict_image image (snd (predict_text text s))) = fst (predict_image image s).
Proof.
  split.
  - destruct (predict_text_run text (snd (predict_image image s))) as [-> _].
    destruct (predict_text_run text s) as [-> _].
    rewrite !predict_text_embedding_run. cbn zeta. cbn [fst].
    destruct (predict_image_run image s) as [_ ->].
    destruct (predict_image_embedding_run image s) as (out & net & -> & _).
    reflexivity.
  - destruct (predict_image_run image (snd (predict_text text s))) as [-> _].
    destruct (predict_image_run image s) as [-> _].
    destruct (predict_text_run text s) as [_ ->].
    rewrite predict_text_embedding_run. cbn zeta. cbn [snd].
    destruct (predict_image_embedding_run image s) as (out & net & Heq & Hext & _).
    rewrite (Hext (with_generator _ s)) by reflexivity.
    now rewrite Heq.
Qed.

Lemma ResNet_forward_fst_training (g : bool) (x : Tensor) (m m' : ResNet) :
  training m = true -> training m' = true ->
  trunk m = trunk m' -> fc m = fc m' ->
  params_require_grad m = params_require_grad m' ->
  fst (ResNet_forward g x m) = fst (ResNet_forward g x m').
Proof.
  intros Ht Ht' Htrunk Hfc Hreq. unfold ResNet_forward.
  rewrite Ht, Ht', Htrunk, Hfc, Hreq.
  destruct (tdata x) as [l|v]; [reflexivity|].
  destruct (resnet_trunk (trunk m') None (shape x) v) as [features|e]; [|reflexivity].
  now destruct (Linear_forward (fc m') features).
Qed.

(** X2. The answer of the image route to a given upload is the same in
    every state the server can be in: the BatchNorm buffers that requests
    change are not read in training mode, and nothing else of the image model
    changes. *)
Theorem image_answer_is_the_same_in_every_state (env : Env) (s s' : Server)
  (image : UploadFile) :
  Reachable env s -> Reachable env s' ->
  fst (predict_image image s) = fst (predict_image image s').
Proof.
  intros Hs Hs'.
  pose proof (Reachable_Serving _ _ Hs) as (Ht & Hreq & _).
  pose proof (Reachable_Serving _ _ Hs') as (Ht' & Hreq' & _).
  destruct (Reachable_from_start _ _ Hs) as (s0 & Hs0 & Hf).
  destruct (Reachable_from_start _ _ Hs') as (s0' & Hs0' & Hf').
  rewrite Hs0 in Hs0'. apply Ok_inj in Hs0'. subst s0'.
  destruct Hf as (_ & _ & _ & _ & _ & Htrunk & Hfc & _).
  destruct Hf' as (_ & _ & _ & _ & _ & Htrunk' & Hfc' & _).
  destruct (predict_image_run image s) as [-> _].
  destruct (predict_image_run image s') as [-> _].
  assert (Hemb : fst (predict_image_embedding image s)
                 = fst (predict_image_embedding image s')).
  { unfold predict_image_embedding, bind, lift.
    destruct (Image_open image) as [im|e]; [|reflexivity].
    destruct (process_image_as_pil im image_size_default) as [tensor|e]; [|reflexivity].
    unfold FeatureExtractor_call. rewrite !on_image_model_forward. cbn [fst].
    apply ResNet_forward_fst_training; congruence. }
  now rewrite Hemb.
Qed.

(** X3. A text request changes the generator and nothing else; when it is
    answered, exactly 768 draws (one per component of the pooled output) have
    been consumed. *)
Theorem predict_text_advances_the_generator_by_768 (env : Env) (s : Server)
  (text : string) :
  Reachable env s ->
  (exists g, snd (predict_text text s) = with_generator g s) /\
  (forall resp,
     fst (predict_text text s) = Ok resp ->
     snd (predict_text text s) =
       with_generator {| stream := stream (generator s);
                         offset := offset (generator s) + 768 |} s).
Proof.
  intros Hreach. split.
  - destruct (predict_text_run text s) as [_ ->].
    rewrite predict_text_embedding_run. eexists. reflexivity.
  - intros resp Hresp.
    destruct (predict_text_Ok _ _ _ Hresp) as (t & Ht & _ & ->).
    pose proof (Reachable_Serving _ _ Hreach) as HS.
    destruct (predict_text_embedding_Ok _ _ _ HS Ht) as (pooled & Hbert & Hlin & Hgen).
    destruct (Reachable_text_model _ _ Hreach) as (tsd & _ & Htm).
    rewrite predict_text_embedding_run in *. cbn zeta in *. cbn [snd] in *.
    f_equal. unfold with_generator at 1 in Hgen. cbn [generator] in Hgen. rewrite Hgen.
    pose proof (bert_pooler_output_rows _ _ _ _ Hbert) as Hrows. cbn in Hrows.
    destruct pooled as [|r [|r' rest]]; try discriminate.
    rewrite Htm in Hlin. unfold Linear_forward in Hlin. cbn [in_features linear] in Hlin.
    destruct (forallb _ _) eqn:Hwidth in Hlin; [|discriminate].
    rewrite dropout_rows_widths in Hwidth. cbn in Hwidth.
    rewrite andb_true_r in Hwidth. apply Nat.eqb_eq in Hwidth.
    cbn [dropout_rows bernoulli snd]. now rewrite Hwidth.
Qed.

(** X4. An upload that cannot be decoded makes the image route and the
    combined route raise what [Image.open] raised, before any model is
    called: the state is left as it was (no BatchNorm update, no draw from
    the generator). *)
Theorem undecodable_upload_changes_nothing (image : UploadFile) (text : string)
  (s : Server) (e : Exn) :
  Image_open image = Raise e ->
  predict_image image s = (Raise e, s) /\
  predict_combined image text s = (Raise e, s).
Proof.
  intros Hopen.
  assert (Himg : predict_image image s = (Raise e, s)).
  { unfold predict_image, predict_image_embedding, bind, lift. now rewrite Hopen. }
  split; [exact Himg|].
  unfold predict_combined, predict_combined_query, bind. now rewrite Himg.
Qed.

End Routes.

(** The state of the instance after one text request, and a combined request
    made in it. *)
Lemma toy_reachable_after_text :
  Reachable Toy.env (snd (predict_text "chair" Toy.server)).
Proof.
  exact (Reachable_handle Toy.env Toy.server
           (POST_predict_feature_embedding_text "chair") toy_reachable).
Qed.

Lemma toy_image_model_after_text :
  resnet50 (image_feature_extraction_model (snd (predict_text "chair" Toy.server)))
  = resnet50 (image_feature_extraction_model Toy.server).
Proof.
  destruct (predict_text_run "chair" Toy.server) as [_ ->].
  rewrite predict_text_embedding_run. cbn zeta. cbn [snd].
  unfold with_generator. cbn [image_feature_extraction_model]. reflexivity.
Qed.

Lemma toy_image_answer_after_text :
  fst (predict_image (Toy.upload Toy.black_50x100) (snd (predict_text "chair" Toy.server)))
  = fst (predict_image (Toy.upload Toy.black_50x100) Toy.server).
Proof.
  destruct (predict_image_run (Toy.upload Toy.black_50x100)
              (snd (predict_text "chair" Toy.server))) as [-> _].
  destruct (predict_image_run (Toy.upload Toy.black_50x100) Toy.server) as [-> _].
  destruct (predict_image_embedding_run (Toy.upload Toy.black_50x100) Toy.server)
    as (out & net & Heq & Hext & _).
  rewrite (Hext _ toy_image_model_after_text). now rewrite Heq.
Qed.

Lemma toy_combined_request_after_text :
  exists q resp,
    fst (predict_combined_query (Toy.upload Toy.black_50x100) "chair"
           (snd (predict_text "chair" Toy.server))) = Ok q /\
    fst (predict_combined (Toy.upload Toy.black_50x100) "chair"
           (snd (predict_text "chair" Toy.server))) = Ok resp.
Proof.
  pose proof (Reachable_Serving _ _ toy_reachable_after_text) as HS.
  destruct toy_black_valid as [Hw Hh].
  destruct (predict_text_frame "chair" Toy.server) as (_ & _ & Htxt & _).
  destruct (toy_predict_image Toy.black_50x100 (snd (predict_text "chair" Toy.server)) Hw Hh
              toy_image_model_after_text)
    as (ir & Hir).
  destruct (toy_predict_text "chair"
              (snd (predict_image (Toy.upload Toy.black_50x100)
                      (snd (predict_text "chair" Toy.server)))))
    as (tr & Htr).
  { destruct (predict_image_frame (Toy.upload Toy.black_50x100)
                (snd (predict_text "chair" Toy.server))) as (_ & _ & Htxt' & _).
    rewrite Htxt'. exact Htxt. }
  exact (predict_combined_succeeds _ _ _ ir tr HS Hir Htr eq_refl).
Qed.

(** C1 (what the code does). The last 1000 components of the query of a
    combined request are not the embedding the text route computes for the
    same text: the Dropout layer of the text model is in training mode, so
    every run of the text model masks the pooled output with fresh bits.  On
    a server just started, the image route answers a black 50x100 image with
    a row [xi] and the text route answers "chair" with a row [xt] whose
    component 1 is 3739; the combined request made next with the same image
    and text builds a single row of 2000 values, which is what it hands to
    [index.search]; its first 1000 values are [xi], but component 1 of its
    last 1000 values is 3721: they are not [xt]. *)
Theorem combined_query_text_half_differs_from_text_answer :
  exists image_response xi r xt q row,
    startup Toy.env = Ok Toy.server /\
    fst (predict_image (Toy.upload Toy.black_50x100) Toy.server) = Ok image_response /\
    body image_response = JObject [("features", JArray [JArray (map JFloat xi)])] /\
    fst (predict_text "chair" Toy.server) = Ok r /\
    body r = JObject [("features", JArray [JArray (map JFloat xt)])] /\
    length xi = 1000 /\ length xt = 1000 /\
    fst (predict_combined_query (Toy.upload Toy.black_50x100) "chair"
           (snd (predict_text "chair" Toy.server))) = Ok q /\
    fst (predict_combined (Toy.upload Toy.black_50x100) "chair"
           (snd (predict_text "chair" Toy.server)))
    = bindR (Index_search (index (snd (predict_text "chair" Toy.server))) q 3)
        (fun found => JSONResponse (JObject [("similar_index", tolist_int (snd found))])) /\
    q = [row] /\ length row = 2000 /\
    map f64_of_f32 (firstn 1000 row) = xi /\
    nth_error xt 1 = Some 3739%Z /\
    nth_error (map f64_of_f32 (skipn 1000 row)) 1 = Some 3721%Z /\
    map f64_of_f32 (skipn 1000 row) <> xt.
Proof.
  destruct (toy_predict_text "chair" Toy.server eq_refl) as (r & Hr).
  destruct (predict_text_Ok _ _ _ Hr) as (t & Ht & Hbody & _).
  destruct (predict_text_embedding_row _ _ _ (Reachable_Serving _ _ toy_reachable) Ht)
    as (xt & Hxt & Hlen).
  destruct toy_combined_request_after_text as (q & resp & Hq & _).
  destruct (predict_combined_query_Ok _ _ _ _
              (Reachable_Serving _ _ toy_reachable_after_text) Hq)
    as (ir & tr & xi & xt' & Hir & Htr & Hbi & Hbt & Hli & Hlt & Hrow & _).
  rewrite toy_image_answer_after_text in Hir.
  rewrite predict_text_after_predict_image in Htr.
  rewrite tolist_one_row in Hbi.
  assert (Hfirst : firstn 1000 (xi ++ xt') = xi).
  { rewrite firstn_app, Hli, Nat.sub_diag, firstn_O, app_nil_r.
    rewrite firstn_all2 by lia. reflexivity. }
  assert (Hskip : skipn 1000 (xi ++ xt') = xt').
  { rewrite skipn_app, Hli, Nat.sub_diag, skipn_O.
    rewrite skipn_all2 by lia. reflexivity. }
  assert (F1 : nth_error (map f64_of_f32 xt) 1 = Some 3739%Z).
  { pose proof toy_text_first_call as F. rewrite Hr in F. unfold Toy.feature in F.
    rewrite Hbody in F. cbn [body] in F. rewrite Hxt, tolist_one_row in F.
    rewrite nth_error_map in F.
    destruct (nth_error (map f64_of_f32 xt) 1) as [x|]; [|discriminate F].
    cbn [option_map] in F. exact F. }
  assert (F2 : nth_error (map f64_of_f32 xt') 1 = Some 3721%Z).
  { pose proof toy_text_second_call as F. rewrite Htr in F. unfold Toy.feature in F.
    rewrite Hbt, tolist_one_row in F. rewrite nth_error_map in F.
    destruct (nth_error (map f64_of_f32 xt') 1) as [x|]; [|discriminate F].
    cbn [option_map] in F. exact F. }
  exists ir, (map f64_of_f32 xi), r, (map f64_of_f32 xt), q, (xi ++ xt').
  split; [exact toy_startup|]. split; [exact Hir|]. split; [exact Hbi|].
  split; [exact Hr|].
  split; [rewrite Hbody; cbn [body]; rewrite Hxt, tolist_one_row; reflexivity|].
  split; [rewrite length_map; exact Hli|].
  split; [rewrite length_map; exact Hlen|].
  split; [exact Hq|].
  split; [exact (predict_combined_fst _ _ _ _ Hq)|].
  split; [exact Hrow|].
  split; [rewrite length_app, Hli, Hlt; reflexivity|].
  split; [rewrite Hfirst; reflexivity|].
  split; [exact F1|].
  rewrite Hskip. split; [exact F2|].
  intros Heq. rewrite Heq, F1 in F2. discriminate F2.
Qed.

Section CombinedRoute.
Context {N : Numerics} {E : External}.

Lemma predict_image_response_features (s : Server) (image : UploadFile) (ir : Response) :
  Serving s ->
  fst (predict_image image s) = Ok ir ->
  exists xi, length xi = 1000 /\
             features_array ir = Ok (Arr2 [map f64_of_f32 xi]).
Proof.
  intros HS Hir.
  destruct (predict_image_Ok _ _ _ Hir) as (ti & Hti & -> & _).
  destruct (predict_image_embedding_row _ _ _ HS Hti) as (_ & xi & Hxi & Hlen).
  exists xi. split; [assumption|]. rewrite Hxi. apply features_array_one_row.
Qed.

(** X5. A combined request has the effect on the state of an image request
    followed by a text request, whether or not it is answered: if the image
    sub-call raises, the combined request raises the same exception and the
    text model is not run; if the text sub-call raises, the combined request
    raises that exception, with the effect of the image sub-call in place. *)
Theorem predict_combined_is_image_then_text (env : Env) (s : Server)
  (image : UploadFile) (text : string) :
  Reachable env s ->
  (forall e, fst (predict_image image s) = Raise e ->
     predict_combined image text s = (Raise e, snd (predict_image image s))) /\
  (forall image_response, fst (predict_image image s) = Ok image_response ->
     snd (predict_combined image text s)
       = snd (predict_text text (snd (predict_image image s))) /\
     forall e, fst (predict_text text (snd (predict_image image s))) = Raise e ->
       fst (predict_combined image text s) = Raise e).
Proof.
  intros Hreach. pose proof (Reachable_Serving _ _ Hreach) as HS. split.
  - intros e He. unfold predict_combined, predict_combined_query, bind.
    destruct (predict_image image s) as [r s1]; simpl in *. now subst r.
  - intros ir Hir.
    destruct (predict_image_response_features s image ir HS Hir) as (xi & _ & Hfeat).
    assert (Hq : predict_combined_query image text s =
                 match predict_text text (snd (predict_image image s)) with
                 | (Raise e, s2) => (Raise e, s2)
                 | (Ok tr, s2) =>
                     match features_array tr with
                     | Raise e => (Raise e, s2)
                     | Ok te =>
                         match np_concatenate_axis1 (Arr2 [map f64_of_f32 xi]) te with
                         | Raise e => (Raise e, s2)
                         | Ok emb => (Ok (astype_float32 emb), s2)
                         end
                     end
                 end).
    { rewrite predict_combined_query_eq.
      destruct (predict_image image s) as [r s1]; simpl in *. subst r.
      now rewrite Hfeat. }
    split.
    + rewrite predict_combined_state, Hq.
      destruct (predict_text text (snd (predict_image image s))) as [[tr|e] s2];
        [|reflexivity].
      destruct (features_array tr); [|reflexivity].
      now destruct (np_concatenate_axis1 _ _).
    + intros e He. unfold predict_combined, bind at 1. rewrite Hq.
      destruct (predict_text text (snd (predict_image image s))) as [r s2];
        simpl in *. now subst r.
Qed.

(** X6. The combined route is answered only by an index of dimension 2000:
    the query always has 2000 components, and for any other dimension the
    search raises [AssertionError] although both embeddings were computed. *)
Theorem combined_route_needs_an_index_of_dimension_2000 (env : Env) (s : Server)
  (image : UploadFile) (text : string) :
  Reachable env s ->
  (forall resp, fst (predict_combined image text s) = Ok resp ->
     index_d (index s) = 2000) /\
  (forall q, fst (predict_combined_query image text s) = Ok q ->
     index_d (index s) <> 2000 ->
     fst (predict_combined image text s) = Raise AssertionError).
Proof.
  intros Hreach. pose proof (Reachable_Serving _ _ Hreach) as HS.
  assert (Hcheck : forall q, fst (predict_combined_query image text s) = Ok q ->
            Index_search (index s) q 3 =
              if 2000 =? index_d (index s) then Ok (index_search (index s) q 3)
              else Raise AssertionError).
  { intros q Hq.
    destruct (predict_combined_query_Ok _ _ _ _ HS Hq)
      as (_ & _ & xi & xt & _ & _ & _ & _ & Hli & Hlt & -> & _).
    unfold Index_search. cbn [forallb]. rewrite length_app, Hli, Hlt, andb_true_r.
    reflexivity. }
  split.
  - intros resp Hresp.
    destruct (predict_combined_Ok _ _ _ _ Hresp) as (q & Hq & _).
    rewrite (predict_combined_fst _ _ _ _ Hq), (Hcheck q Hq) in Hresp.
    destruct (2000 =? index_d (index s)) eqn:Hd; [|discriminate].
    apply Nat.eqb_eq in Hd. now symmetry.
  - intros q Hq Hd.
    rewrite (predict_combined_fst _ _ _ _ Hq), (Hcheck q Hq).
    destruct (2000 =? index_d (index s)) eqn:Hd'; [|reflexivity].
    apply Nat.eqb_eq in Hd'. now destruct Hd.
Qed.

End CombinedRoute.

Section ExtractorsAndJson.
Context {N : Numerics} {E : External}.

Lemma float_of_float32 (t : Tensor) : dtype t = float32 -> float t = t.
Proof. unfold dtype, float. now destruct (tdata t). Qed.

(** X7. On a float32 tensor [predict] is [forward] without the graph, as
    its docstring says: both return the same values or raise the same
    exception, [predict]'s output does not require grad, and both leave the
    module in the same state (BatchNorm buffers updated alike). *)
Theorem predict_agrees_with_forward_on_float32 (image : Tensor) (self : FeatureExtractor) :
  dtype image = float32 ->
  snd (FeatureExtractor_predict image self) = snd (FeatureExtractor_forward image self) /\
  match fst (FeatureExtractor_predict image self),
        fst (FeatureExtractor_forward image self) with
  | Ok p, Ok f => rows p = rows f /\ grad p = false
  | Raise e, Raise e' => e = e'
  | _, _ => False
  end.
Proof.
  intros Hf32.
  unfold FeatureExtractor_predict, FeatureExtractor_forward, FeatureExtractor_layers.
  rewrite (float_of_float32 _ Hf32). unfold ResNet_forward.
  destruct (tdata image) as [l|v]; [now split|].
  destruct (resnet_trunk _ _ _ v) as [features|e]; [|now split].
  destruct (Linear_forward _ features) as [out|e]; now split.
Qed.

Lemma json_allowed_features (a : list (list f32)) :
  json_allowed (JObject [("features", tolist a)]) = true ->
  Forall (Forall (fun x => f64_isfinite (f64_of_f32 x) = true)) a.
Proof.
  simpl. rewrite andb_true_r, forallb_forall. intros H.
  apply Forall_forall. intros r Hr. apply Forall_forall. intros x Hx.
  specialize (H (JArray (map (fun x => JFloat (f64_of_f32 x)) r))
                (in_map _ _ _ Hr)).
  simpl in H. rewrite forallb_forall in H.
  exact (H (JFloat (f64_of_f32 x)) (in_map (fun x => JFloat (f64_of_f32 x)) _ _ Hx)).
Qed.

Lemma JSONResponse_features_finite (a : list (list f32)) (resp : Response) :
  JSONResponse (JObject [("features", tolist a)]) = Ok resp ->
  body resp = JObject [("features", tolist a)] /\
  Forall (Forall (fun x => f64_isfinite (f64_of_f32 x) = true)) a.
Proof.
  intros H. split.
  - apply JSONResponse_Ok in H. now subst resp.
  - apply json_allowed_features. unfold JSONResponse in H.
    now destruct (json_allowed _).
Qed.

(** X8. No answer of the image route or of the text route holds a float
    that is not finite: a model output with a NaN or an infinity makes the
    handler raise [ValueError] instead. *)
Theorem answered_features_are_finite (s : Server) :
  (forall image resp,
     fst (predict_image image s) = Ok resp ->
     exists a, body resp = JObject [("features", tolist a)] /\
               Forall (Forall (fun x => f64_isfinite (f64_of_f32 x) = true)) a) /\
  (forall text resp,
     fst (predict_text text s) = Ok resp ->
     exists a, body resp = JObject [("features", tolist a)] /\
               Forall (Forall (fun x => f64_isfinite (f64_of_f32 x) = true)) a) /\
  (forall image t,
     fst (predict_image_embedding image s) = Ok t ->
     Exists (Exists (fun x => f64_isfinite (f64_of_f32 x) = false)) (rows t) ->
     exists msg, fst (predict_image image s) = Raise (ValueError msg)).
Proof.
  repeat split.
  - intros image resp Hresp. destruct (predict_image_run image s) as [Hfst _].
    rewrite Hfst in Hresp.
    destruct (fst (predict_image_embedding image s)) as [t|e]; [|discriminate].
    exists (rows t). now apply JSONResponse_features_finite.
  - intros text resp Hresp. destruct (predict_text_run text s) as [Hfst _].
    rewrite Hfst in Hresp.
    destruct (fst (predict_text_embedding text s)) as [t|e]; [|discriminate].
    exists (rows t). now apply JSONResponse_features_finite.
  - intros image t Ht Hbad. destruct (predict_image_run image s) as [-> _].
    rewrite Ht. unfold JSONResponse.
    destruct (json_allowed _) eqn:Hallowed; [|eexists; reflexivity].
    apply json_allowed_features in Hallowed.
    apply Exists_exists in Hbad as (r & Hr & Hbad).
    apply Exists_exists in Hbad as (x & Hx & Hbad).
    rewrite Forall_forall in Hallowed. specialize (Hallowed r Hr).
    rewrite Forall_forall in Hallowed. rewrite (Hallowed x Hx) in Hbad. discriminate.
Qed.

Lemma rows_of_tolist (a : list (list f32)) :
  rows_of (map (fun r => JArray (map (fun x => JFloat (f64_of_f32 x)) r)) a)
  = Some (map (map f64_of_f32) a).
Proof.
  induction a as [|r a IH]; [reflexivity|].
  cbn [map rows_of]. rewrite IH.
  replace (map (fun x => JFloat (f64_of_f32 x)) r) with (map JFloat (map f64_of_f32 r))
    by apply map_map.
  now rewrite floats_of_map_JFloat.
Qed.

Lemma astype_float32_widened (a : list (list f32)) :
  astype_float32 (map (map f64_of_f32) a) = a.
Proof.
  unfold astype_float32. rewrite map_map. rewrite <- (map_id a) at 2.
  apply map_ext. intros r. rewrite map_map. rewrite <- (map_id r) at 2.
  apply map_ext. intros x. apply f32_of_f64_of_f32.
Qed.

(** X9. What the combined route reads back from a "features" response is
    what the single-mode route put in: for a non-empty batch of rows of one
    length, decoding the body gives the 2-D array of the same values, and the
    cast to float32 gives the model output back, bit for bit. *)
Theorem features_survive_the_json_round_trip (a : list (list f32)) (n : nat)
  (resp : Response) :
  a <> [] ->
  Forall (fun r => length r = n) a ->
  JSONResponse (JObject [("features", tolist a)]) = Ok resp ->
  features_array resp = Ok (Arr2 (map (map f64_of_f32) a)) /\
  astype_float32 (map (map f64_of_f32) a) = a.
Proof.
  intros Hne Hlen Hresp. split; [|apply astype_float32_widened].
  apply JSONResponse_Ok in Hresp. subst resp.
  unfold features_array, json_loads, getitem. cbn [body lookup].
  replace (String.eqb "features" "features") with true by reflexivity.
  cbn [bindR]. unfold tolist, np_array.
  assert (Hflat : floats_of
            (map (fun r => JArray (map (fun x => JFloat (f64_of_f32 x)) r)) a) = None).
  { destruct a; [now destruct Hne | reflexivity]. }
  assert (Hsame : same_lengths (map (map f64_of_f32) a) = true).
  { destruct a as [|r a']; [reflexivity|].
    cbn [map same_lengths]. apply forallb_forall. intros r' Hr'.
    apply in_map_iff in Hr' as (r0 & <- & Hr0).
    rewrite !length_map. apply Nat.eqb_eq.
    rewrite Forall_forall in Hlen.
    rewrite (Hlen r0 (or_intror Hr0)), (Hlen r (or_introl eq_refl)). reflexivity. }
  now rewrite Hflat, rows_of_tolist, Hsame.
Qed.

(** X10. [process_image] on a path and [process_image_as_pil] on the image
    stored there return the same tensor; a path that cannot be opened raises
    [FileNotFoundError] for that path, and a file that is no image raises
    what [Image.open] raises. *)
Theorem process_image_agrees_with_process_image_as_pil
  (files : string -> option UploadFile) (image_path : string) (image_size : nat) :
  (files image_path = None ->
   process_image files image_path image_size = Raise (FileNotFoundError image_path)) /\
  (forall file e, files image_path = Some file -> Image_open file = Raise e ->
   process_image files image_path image_size = Raise e) /\
  (forall file img, files image_path = Some file -> Image_open file = Ok img ->
   process_image files image_path image_size = process_image_as_pil img image_size).
Proof.
  unfold process_image, process_image_as_pil, read_file. repeat split.
  - now intros ->.
  - intros file e -> Hopen. cbn [bindR]. now rewrite Hopen.
  - intros file img -> Hopen. cbn [bindR]. now rewrite Hopen.
Qed.

End ExtractorsAndJson.

Section Buffers.
Context {N : Numerics} {E : External}.

Lemma map_tracked_after_0 (l : list Z) : map (tracked_after 0) l = l.
Proof. rewrite <- (map_id l) at 2. now apply map_ext. Qed.

Lemma ResNet_forward_counters (g : bool) (x : Tensor) (m : ResNet) :
  exists k, k <= 1 /\
    num_batches_tracked (snd (ResNet_forward g x m))
    = map (tracked_after k) (num_batches_tracked m).
Proof.
  unfold ResNet_forward.
  destruct (tdata x) as [l|v];
    [exists 0; split; [lia | symmetry; apply map_tracked_after_0]|].
  destruct (resnet_trunk _ _ _ v) as [features|e];
    [|exists 0; split; [lia | symmetry; apply map_tracked_after_0]].
  destruct (Linear_forward _ features) as [out|e];
    [|exists 0; split; [lia | symmetry; apply map_tracked_after_0]].
  destruct (training m).
  - exists 1. split; [lia | reflexivity].
  - exists 0. split; [lia | symmetry; apply map_tracked_after_0].
Qed.

Lemma predict_image_counters (image : UploadFile) (s : Server) :
  exists k, k <= 1 /\
    num_batches_tracked (resnet50 (image_feature_extraction_model
                                     (snd (predict_image image s))))
    = map (tracked_after k)
          (num_batches_tracked (resnet50 (image_feature_extraction_model s))).
Proof.
  destruct (predict_image_run image s) as [_ ->].
  unfold predict_image_embedding, bind, lift.
  destruct (Image_open image) as [im|e];
    [|exists 0; split; [lia | symmetry; apply map_tracked_after_0]].
  destruct (process_image_as_pil im image_size_default) as [tensor|e];
    [|exists 0; split; [lia | symmetry; apply map_tracked_after_0]].
  unfold FeatureExtractor_call. rewrite on_image_model_forward. cbn [snd
    image_feature_extraction_model resnet50].
  apply ResNet_forward_counters.
Qed.

Lemma predict_text_state (text : string) (s : Server) :
  exists g, snd (predict_text text s) = with_generator g s.
Proof.
  destruct (predict_text_run text s) as [_ ->].
  rewrite predict_text_embedding_run. eexists. reflexivity.
Qed.

Lemma predict_combined_image_model (image : UploadFile) (text : string) (s : Server) :
  image_feature_extraction_model (snd (predict_combined image text s))
  = image_feature_extraction_model (snd (predict_image image s)).
Proof.
  rewrite predict_combined_state, predict_combined_query_eq.
  destruct (predict_image image s) as [[ir|e] s1]; [|reflexivity].
  destruct (features_array ir); [|reflexivity].
  destruct (predict_text_state text s1) as (g & Hg).
  destruct (predict_text text s1) as [[tr|e] s2]; cbn [snd] in *; subst s2;
    [|reflexivity].
  destruct (features_array tr); [|reflexivity].
  now destruct (np_concatenate_axis1 _ _).
Qed.

Lemma handle_counters (r : Request) (s : Server) :
  exists k, k <= (if runs_image_model r then 1 else 0) /\
    num_batches_tracked (resnet50 (image_feature_extraction_model (snd (handle r s))))
    = map (tracked_after k)
          (num_batches_tracked (resnet50 (image_feature_extraction_model s))).
Proof.
  destruct r as [|image|text|image text]; cbn [handle runs_image_model].
  - exists 0. split; [lia | symmetry; apply map_tracked_after_0].
  - apply predict_image_counters.
  - destruct (predict_text_state text s) as (g & ->).
    exists 0. split; [lia | symmetry; apply map_tracked_after_0].
  - rewrite predict_combined_image_model. apply predict_image_counters.
Qed.

Lemma serve_cons_state (r : Request) (rest : list Request) (s : Server) :
  snd (serve (r :: rest) s) = snd (serve rest (snd (handle r s))).
Proof.
  cbn [serve]. destruct (handle r s) as [resp s1]. cbn [snd].
  now destruct (serve rest s1).
Qed.

(** X11. Whatever requests are served, every BatchNorm counter of the
    image model has been incremented the same number of times, at most once
    per request that runs the image model (image and combined routes); health
    checks and text requests never move them. *)
Theorem batchnorm_counters_count_image_passes (requests : list Request) (s : Server) :
  exists k,
    k <= length (filter runs_image_model requests) /\
    num_batches_tracked
      (resnet50 (image_feature_extraction_model (snd (serve requests s))))
    = map (tracked_after k)
          (num_batches_tracked (resnet50 (image_feature_extraction_model s))).
Proof.
  revert s. induction requests as [|r rest IH]; intros s.
  - exists 0. split; [cbn; lia | symmetry; apply map_tracked_after_0].
  - rewrite serve_cons_state.
    destruct (IH (snd (handle r s))) as (k1 & Hk1 & ->).
    destruct (handle_counters r s) as (k0 & Hk0 & ->).
    exists (k1 + k0). split.
    + cbn [filter]. destruct (runs_image_model r); cbn [length]; lia.
    + rewrite map_map. apply map_ext. intros n. unfold tracked_after.
      symmetry. apply Nat.iter_add.
Qed.

(** X12. Freezing the encoder does not make the text model's output
    grad-free: the Linear head still requires grad, so the tensor [forward]
    returns to [predict_text] requires grad, [numpy()] would refuse it, and
    the handler's [detach()] is what lets the response be built. *)
Theorem text_endpoint_output_requires_grad (env : Env) (s : Server) (text : string)
  (t : Tensor2) :
  Reachable env s ->
  fst (predict_text_embedding text s) = Ok t ->
  bert_requires_grad (text_feature_extraction_model s) = false /\
  grad t = true /\
  (exists msg, numpy t = Raise (RuntimeError msg)) /\
  numpy (detach t) = Ok (rows t) /\
  fst (predict_text text s) = JSONResponse (JObject [("features", tolist (rows t))]).
Proof.
  intros Hreach Ht. destruct (Reachable_text_model _ _ Hreach) as (tsd & _ & Htm).
  assert (Hgrad : grad t = true).
  { rewrite predict_text_embedding_run in Ht. cbn zeta in Ht. cbn [fst] in Ht.
    unfold BertNeuralNetwork_call, BertNeuralNetwork_forward, BertNeuralNetwork_body,
      bind, lift, ret in Ht. rewrite Htm in Ht.
    cbn [bert dropout_training linear bert_requires_grad linear_requires_grad] in Ht.
    destruct (bert_pooler_output _ _ _) as [pooled|e]; [|discriminate].
    destruct (Dropout_forward true pooled (generator s)) as [[dropped|e] g'];
      [|discriminate].
    destruct (Linear_forward _ dropped) as [out|e]; [|discriminate].
    cbn in Ht. apply Ok_inj in Ht. now subst t. }
  repeat split.
  - now rewrite Htm.
  - exact Hgrad.
  - unfold numpy. rewrite Hgrad. eexists. reflexivity.
  - destruct (predict_text_run text s) as [-> _]. now rewrite Ht.
Qed.

End Buffers.

Section StartupBlocks.
Context {N : Numerics} {E : External}.

Lemma load_models_Ok (env : Env)
  (m : Device * Decoder * FeatureExtractor * BertNeuralNetwork) :
  load_models env = Ok m -> models_load env.
Proof.
  unfold load_models, read_file, models_load.
  destruct (decoder_pickle env) as [dec|]; cbn [bindR]; [|discriminate].
  destruct (resnet50_IMAGENET1K_V1 env) as [pre|]; cbn [bindR]; [|discriminate].
  unfold FeatureExtractor_init, models_resnet50, ResNet_load_state_dict.
  destruct (image_state_dict_ok pre) eqn:Hpre; cbn [bindR]; [|discriminate].
  destruct (bert_base_cased env) as [bw|]; cbn [bindR]; [|discriminate].
  destruct (image_model_pt env) as [isd|]; cbn [bindR]; [|discriminate].
  unfold FeatureExtractor_load_state_dict, ResNet_load_state_dict. cbn [resnet50].
  destruct (image_state_dict_ok isd) eqn:Hisd; cbn [bindR]; [|discriminate].
  destruct (text_model_pt env) as [tsd|]; cbn [bindR]; [|discriminate].
  unfold BertNeuralNetwork_load_state_dict.
  destruct (Linear_shapes_ok 768 1000 _ _) eqn:Htsd; [|discriminate].
  intros _. exists dec, pre, bw, isd, tsd. repeat split; assumption.
Qed.

Lemma models_load_Ok (env : Env) :
  models_load env -> exists m, load_models env = Ok m.
Proof.
  intros (dec & pre & bw & isd & tsd & Hd & Hp & Hpok & Hb & Hi & Hiok & Ht & Htok).
  unfold load_models, read_file.
  rewrite Hd, Hp, Hb, Hi, Ht. cbn [bindR].
  unfold FeatureExtractor_init, models_resnet50, ResNet_load_state_dict.
  rewrite Hpok. cbn [bindR].
  unfold FeatureExtractor_load_state_dict, ResNet_load_state_dict. cbn [resnet50].
  rewrite Hiok. cbn [bindR].
  unfold BertNeuralNetwork_load_state_dict. rewrite Htok.
  eexists. reflexivity.
Qed.

Lemma startup_models_fail (env : Env) :
  ~ models_load env -> startup env = Raise (OSError no_feature_extraction_model).
Proof.
  intros Hno. unfold startup.
  destruct (load_models env) as [m|e] eqn:Hm; [|reflexivity].
  destruct Hno. exact (load_models_Ok env m Hm).
Qed.

Lemma startup_index_fails (env : Env) :
  models_load env -> faiss_pickle env = None ->
  startup env = Raise (OSError no_image_model).
Proof.
  intros Hm Hx. destruct (models_load_Ok env Hm) as ([[[dev dec] im] tm] & Hload).
  unfold startup, load_index, read_file. now rewrite Hload, Hx.
Qed.

Lemma startup_no_image_model (env : Env) :
  startup env = Raise (OSError no_image_model) ->
  models_load env /\ faiss_pickle env = None.
Proof.
  unfold startup. destruct (load_models env) as [[[[dev dec] im] tm]|e] eqn:Hm.
  - unfold load_index, read_file.
    destruct (faiss_pickle env); [discriminate|].
    intros _. split; [exact (load_models_Ok env _ Hm) | reflexivity].
  - intros H. injection H as H.
    unfold no_feature_extraction_model, no_image_model in H. discriminate H.
Qed.

(** X13. What loading the module raises tells which step failed, not which
    file.  The tokenizer is loaded first, by a module-level statement outside
    both [try] blocks: when that load raises, its exception is what the
    module raises, whatever the state of the other artifacts, and neither
    message of the program is produced by the program.  Once the tokenizer
    has loaded: whenever the decoder, the pretrained weights or a weight file
    cannot be loaded the module raises [OSError] "No Feature Extraction model
    found. ..." (also when the index is missing as well); [OSError] "No Image
    model found. ..." is raised exactly for a missing index once both models
    have loaded; and the module loads only if the tokenizer did and both
    blocks completed. *)
Theorem startup_error_names_the_failed_block (tokenizer_load : Result unit) (env : Env) :
  (forall e, tokenizer_load = Raise e -> import_module tokenizer_load env = Raise e) /\
  (forall u, tokenizer_load = Ok u -> ~ models_load env ->
   import_module tokenizer_load env = Raise (OSError no_feature_extraction_model)) /\
  (forall u, tokenizer_load = Ok u -> models_load env -> faiss_pickle env = None ->
   import_module tokenizer_load env = Raise (OSError no_image_model)) /\
  (forall u, tokenizer_load = Ok u ->
   import_module tokenizer_load env = Raise (OSError no_image_model) ->
   models_load env /\ faiss_pickle env = None) /\
  (forall s, import_module tokenizer_load env = Ok s ->
   (exists u, tokenizer_load = Ok u) /\ startup env = Ok s /\
   models_load env /\ exists idx, faiss_pickle env = Some idx).
Proof.
  split; [|split; [|split; [|split]]].
  - intros e ->. reflexivity.
  - intros u -> Hno. cbn [import_module]. now apply startup_models_fail.
  - intros u -> Hm Hx. cbn [import_module]. now apply startup_index_fails.
  - intros u ->. cbn [import_module]. apply startup_no_image_model.
  - intros s. unfold import_module. destruct tokenizer_load as [u|e]; [|discriminate].
    intros Hs. split; [now exists u|]. split; [exact Hs|].
    unfold startup in Hs.
    destruct (load_models env) as [[[[dev dec] im] tm]|e] eqn:Hm; [|discriminate].
    split; [exact (load_models_Ok env _ Hm)|].
    unfold load_index, read_file in Hs.
    destruct (faiss_pickle env) as [idx|]; [|discriminate]. now exists idx.
Qed.

(** X14. The pretrained weights fetched by the two constructors have no
    effect on the server: [load_state_dict] overwrites every parameter and
    buffer, so two environments that both load and differ only in the
    pretrained weights start the same server. *)
Theorem startup_does_not_depend_on_pretrained_values (env env' : Env) :
  models_load env -> models_load env' ->
  cuda_is_available env = cuda_is_available env' ->
  decoder_pickle env = decoder_pickle env' ->
  image_model_pt env = image_model_pt env' ->
  text_model_pt env = text_model_pt env' ->
  faiss_pickle env = faiss_pickle env' ->
  default_generator env = default_generator env' ->
  startup env = startup env'.
Proof.
  intros Hm Hm' Hc Hd Hi Ht Hx Hg.
  destruct (faiss_pickle env) as [idx|] eqn:Hidx.
  - destruct Hm as (dec & pre & bw & isd & tsd & Hd1 & Hp1 & Hpok1 & Hb1 & Hi1 & Hiok1
                    & Ht1 & Htok1).
    destruct Hm' as (dec' & pre' & bw' & isd' & tsd' & Hd2 & Hp2 & Hpok2 & Hb2 & Hi2
                     & Hiok2 & Ht2 & Htok2).
    rewrite (startup_succeeds env dec pre isd bw tsd idx) by assumption.
    rewrite (startup_succeeds env' dec' pre' isd' bw' tsd' idx) by (now rewrite <- ?Hx).
    assert (dec' = dec) by congruence. assert (isd' = isd) by congruence.
    assert (tsd' = tsd) by congruence. subst. now rewrite Hc, Hg.
  - rewrite (startup_index_fails env Hm Hidx).
    symmetry. apply startup_index_fails; [assumption | now rewrite <- Hx].
Qed.

End StartupBlocks.

(** * The further properties on the concrete instance *)

Lemma toy_models_load : models_load Toy.env.
Proof.
  unfold models_load. eexists. exists Toy.image_sd, 1%Z, Toy.image_sd, Toy.text_sd.
  exact (conj eq_refl (conj eq_refl (conj toy_image_sd_ok (conj eq_refl
          (conj eq_refl (conj toy_image_sd_ok (conj eq_refl toy_text_sd_ok))))))).
Qed.

Lemma toy_other_image_sd_ok : image_state_dict_ok Toy.other_image_sd = true.
Proof.
  apply image_state_dict_ok_intro.
  - apply Linear_shapes_ok_intro.
    + unfold Toy.other_image_sd, sd_fc_weight. now rewrite length_map, length_seq.
    + unfold Toy.other_image_sd, sd_fc_weight. intros r Hr.
      apply in_map_iff in Hr as (i & <- & _). apply repeat_length.
    + unfold Toy.other_image_sd, sd_fc_bias. apply repeat_length.
  - unfold Toy.other_image_sd, sd_num_batches_tracked. apply repeat_length.
Qed.

Lemma toy_other_models_load : models_load Toy.env_other_pretrained.
Proof.
  unfold models_load. eexists. exists Toy.other_image_sd, 8%Z, Toy.image_sd, Toy.text_sd.
  exact (conj eq_refl (conj eq_refl (conj toy_other_image_sd_ok (conj eq_refl
          (conj eq_refl (conj toy_image_sd_ok (conj eq_refl toy_text_sd_ok))))))).
Qed.

Lemma toy_text_embedding :
  exists t, fst (predict_text_embedding "chair" Toy.server) = Ok t.
Proof.
  destruct (toy_predict_text "chair" Toy.server eq_refl) as (resp & Hresp).
  destruct (predict_text_Ok _ _ _ Hresp) as (t & Ht & _). exists t. exact Ht.
Qed.

Lemma image_answer_is_the_same_in_every_state_witness :
  fst (predict_image (Toy.upload Toy.black_50x100) Toy.server)
  = fst (predict_image (Toy.upload Toy.black_50x100)
           (snd (handle (POST_predict_feature_embedding_image
                           (Toy.upload Toy.black_50x100)) Toy.server))).
Proof.
  exact (image_answer_is_the_same_in_every_state Toy.env Toy.server _
           (Toy.upload Toy.black_50x100) toy_reachable
           (Reachable_handle Toy.env Toy.server
              (POST_predict_feature_embedding_image (Toy.upload Toy.black_50x100))
              toy_reachable)).
Defined.

Lemma predict_text_advances_the_generator_by_768_witness :
  exists resp,
    fst (predict_text "chair" Toy.server) = Ok resp /\
    offset (generator (snd (predict_text "chair" Toy.server))) = 768.
Proof.
  destruct (toy_predict_text "chair" Toy.server eq_refl) as (resp & Hresp).
  exists resp. split; [exact Hresp|].
  rewrite (proj2 (predict_text_advances_the_generator_by_768 Toy.env Toy.server "chair"
                    toy_reachable) resp Hresp).
  reflexivity.
Defined.

Lemma undecodable_upload_changes_nothing_witness :
  predict_combined Toy.not_an_image "chair" Toy.server
  = (Raise UnidentifiedImageError, Toy.server).
Proof.
  exact (proj2 (undecodable_upload_changes_nothing Toy.not_an_image "chair" Toy.server
                  UnidentifiedImageError eq_refl)).
Defined.

Lemma predict_combined_is_image_then_text_witness :
  snd (predict_combined (Toy.upload Toy.black_50x100) "chair" Toy.server)
  = snd (predict_text "chair"
           (snd (predict_image (Toy.upload Toy.black_50x100) Toy.server))).
Proof.
  destruct toy_image_request as (ir & Hir).
  exact (proj1 (proj2 (predict_combined_is_image_then_text Toy.env Toy.server
                         (Toy.upload Toy.black_50x100) "chair" toy_reachable) ir Hir)).
Defined.

Lemma combined_route_needs_an_index_of_dimension_2000_witness :
  exists resp,
    fst (predict_combined (Toy.upload Toy.black_50x100) "chair" Toy.server) = Ok resp /\
    index_d (index Toy.server) = 2000.
Proof.
  destruct toy_combined_request as (q & resp & _ & Hresp).
  exists resp. split; [exact Hresp|].
  exact (proj1 (combined_route_needs_an_index_of_dimension_2000 Toy.env Toy.server
                  (Toy.upload Toy.black_50x100) "chair" toy_reachable) resp Hresp).
Defined.

Lemma predict_agrees_with_forward_on_float32_witness :
  snd (FeatureExtractor_predict Toy.float_pixel_tensor
         (image_feature_extraction_model Toy.server))
  = snd (FeatureExtractor_forward Toy.float_pixel_tensor
           (image_feature_extraction_model Toy.server)).
Proof.
  destruct (predict_agrees_with_forward_on_float32 Toy.float_pixel_tensor
              (image_feature_extraction_model Toy.server) eq_refl) as [Hstate _].
  exact Hstate.
Defined.

Lemma answered_features_are_finite_witness :
  exists resp a,
    fst (predict_image (Toy.upload Toy.black_50x100) Toy.server) = Ok resp /\
    body resp = JObject [("features", tolist a)] /\
    Forall (Forall (fun x => f64_isfinite (f64_of_f32 x) = true)) a.
Proof.
  destruct toy_image_request as (resp & Hresp).
  destruct (proj1 (answered_features_are_finite Toy.server) _ resp Hresp)
    as (a & Hbody & Hfin).
  exists resp, a. exact (conj Hresp (conj Hbody Hfin)).
Defined.

Lemma features_survive_the_json_round_trip_witness :
  features_array {| status_code := 200;
                    body := JObject [("features", tolist Toy.small_batch)] |}
  = Ok (Arr2 (map (map f64_of_f32) Toy.small_batch)).
Proof.
  refine (proj1 (features_survive_the_json_round_trip Toy.small_batch 2 _ _ _ eq_refl)).
  - discriminate.
  - repeat constructor.
Defined.

Lemma process_image_agrees_with_process_image_as_pil_witness :
  process_image (E:=Toy.external) Toy.files "images/black.jpg" 224
  = process_image_as_pil (E:=Toy.external) Toy.black_50x100 224 /\
  process_image (E:=Toy.external) Toy.files "images/none.jpg" 224
  = Raise (FileNotFoundError "images/none.jpg").
Proof.
  split.
  - exact (proj2 (proj2 (process_image_agrees_with_process_image_as_pil
                           (E:=Toy.external) Toy.files "images/black.jpg" 224))
                 (Toy.upload Toy.black_50x100) Toy.black_50x100 eq_refl eq_refl).
  - exact (proj1 (process_image_agrees_with_process_image_as_pil
                    (E:=Toy.external) Toy.files "images/none.jpg" 224) eq_refl).
Defined.

Lemma text_endpoint_output_requires_grad_witness :
  exists t,
    fst (predict_text_embedding "chair" Toy.server) = Ok t /\ grad t = true.
Proof.
  destruct toy_text_embedding as (t & Ht).
  exists t. split; [exact Ht|].
  exact (proj1 (proj2 (text_endpoint_output_requires_grad Toy.env Toy.server "chair" t
                         toy_reachable Ht))).
Defined.

Lemma toy_models_load_without_index : models_load Toy.env_without_index.
Proof.
  unfold models_load. eexists. exists Toy.image_sd, 1%Z, Toy.image_sd, Toy.text_sd.
  exact (conj eq_refl (conj eq_refl (conj toy_image_sd_ok (conj eq_refl
          (conj eq_refl (conj toy_image_sd_ok (conj eq_refl toy_text_sd_ok))))))).
Qed.

Lemma toy_no_models_without_decoder : ~ models_load Toy.env_without_decoder_and_index.
Proof. intros (dec & pre & bw & isd & tsd & Hd & _). discriminate Hd. Qed.

Lemma startup_error_names_the_failed_block_witness :
  import_module (Raise (OSError "Can't load tokenizer for 'bert-base-cased'.")) Toy.env
  = Raise (OSError "Can't load tokenizer for 'bert-base-cased'.") /\
  import_module (Ok tt) Toy.env_without_decoder_and_index
  = Raise (OSError no_feature_extraction_model) /\
  import_module (Ok tt) Toy.env_without_index = Raise (OSError no_image_model).
Proof.
  destruct (startup_error_names_the_failed_block
              (Raise (OSError "Can't load tokenizer for 'bert-base-cased'.")) Toy.env)
    as (Htok & _).
  destruct (startup_error_names_the_failed_block (Ok tt) Toy.env_without_decoder_and_index)
    as (_ & Hmodels & _).
  destruct (startup_error_names_the_failed_block (Ok tt) Toy.env_without_index)
    as (_ & _ & Hindex & _).
  exact (conj (Htok _ eq_refl)
           (conj (Hmodels tt eq_refl toy_no_models_without_decoder)
                 (Hindex tt eq_refl toy_models_load_without_index eq_refl))).
Defined.

Lemma startup_does_not_depend_on_pretrained_values_witness :
  startup Toy.env_other_pretrained = Ok Toy.server.
Proof.
  rewrite <- toy_startup. symmetry.
  exact (startup_does_not_depend_on_pretrained_values Toy.env Toy.env_other_pretrained
           toy_models_load toy_other_models_load
           eq_refl eq_refl eq_refl eq_refl eq_refl eq_refl).
Defined.
